(** * create-ferod-app: the project scaffolder

    A shallow embedding of the scaffolding command of the repository
    ([getAnswers], [getUserPackageManager], [scaffoldProject],
    [createPackageJson]) and the properties its specification states about
    it.

    JavaScript objects and [Map]s are finite maps ([gmap]); the file system
    is a finite map from absolute paths to nodes; the scaffolder runs in a
    small state-and-exception monad over a world made of the file system,
    the console and the list of spawned shell commands. *)

From Stdlib Require Import Ascii.
From stdpp Require Import gmap strings list fin_maps pretty.

Set Warnings "-register-all".

(** ** JavaScript values *)

Module Js.

(** A parsed JSON document.  The payload of a number is never inspected by
    the program, an integer stands for it. *)
Inductive JSON : Type :=
  | JNull
  | JBool (b : bool)
  | JNum (n : Z)
  | JStr (s : string)
  | JArr (l : list JSON)
  | JObj (o : gmap string JSON).

(** Exceptions the program can raise (none is caught anywhere). *)
Inductive error : Type :=
  | TypeError | SyntaxError | ENOENT | EEXIST | ENOTDIR | EISDIR | ECOPY.

Inductive result (A : Type) : Type :=
  | Ok (a : A)
  | Throw (e : error).
Arguments Ok {A} a.
Arguments Throw {A} e.

(** The own enumerable string-keyed properties of a value, as
    [Object.entries] and object spread see them: the fields of an object,
    the indices of an array, the code units of a string, nothing for the
    other primitives. *)
Definition indexed {A} (f : A → JSON) (l : list A) : gmap string JSON :=
  list_to_map (imap (λ i x, (pretty i, f x)) l).

Definition own_props (v : JSON) : gmap string JSON :=
  match v with
  | JObj o => o
  | JArr l => indexed id l
  | JStr s => indexed (λ c, JStr (String c EmptyString)) (String.list_ascii_of_string s)
  | JNull | JBool _ | JNum _ => ∅
  end.

(** [v.k] for a key [k] that is neither an index, nor [length], nor a
    method of a prototype (the program reads [dependencies],
    [devDependencies] and [scripts] only): [None] is [undefined], and
    reading a property of [null] throws. *)
Definition get_prop (v : JSON) (k : string) : result (option JSON) :=
  match v with
  | JNull => Throw TypeError
  | JObj o => Ok (o !! k)
  | JBool _ | JNum _ | JStr _ | JArr _ => Ok None
  end.

(** [x ?? d] *)
Definition nullish (x : option JSON) (d : JSON) : JSON :=
  match x with
  | None | Some JNull => d
  | Some v => v
  end.

(** [Object.entries(v)] *)
Definition Object_entries (v : JSON) : list (string * JSON) :=
  map_to_list (own_props v).

(** [for (const [k, x] of entries) map.set(k, x)] *)
Definition Map_setAll (entries : list (string * JSON))
    (map : gmap string JSON) : gmap string JSON :=
  foldl (λ acc kx, <[kx.1 := kx.2]> acc) map entries.

(** A JavaScript [Set] of strings: unique elements in insertion order. *)
Definition Set_add (x : string) (s : list string) : list string :=
  if decide (x ∈ s) then s else s ++ [x].

Definition Set_new (l : list string) : list string :=
  foldl (λ s x, Set_add x s) [] l.

(** [s.includes(needle)] *)
Fixpoint startsWith (s needle : string) {struct needle} : bool :=
  match needle, s with
  | EmptyString, _ => true
  | String a needle', String b s' =>
      if decide (a = b) then startsWith s' needle' else false
  | String _ _, EmptyString => false
  end.

Fixpoint includes (s needle : string) : bool :=
  startsWith s needle ||
  match s with
  | EmptyString => false
  | String _ s' => includes s' needle
  end.

(** [s.toLowerCase()] on the ASCII letters (the program lower-cases the
    names of the database types only). *)
Definition lower (c : ascii) : ascii :=
  let n := nat_of_ascii c in
  if (65 <=? n)%nat && (n <=? 90)%nat then ascii_of_nat (n + 32) else c.

Fixpoint toLowerCase (s : string) : string :=
  match s with
  | EmptyString => EmptyString
  | String c s' => String (lower c) (toLowerCase s')
  end.

End Js.
Export Js.

(** ** The file system *)

Module Fs.

(** An absolute path, as the list of its segments below the root. *)
Abbreviation path := (list string).

(** [resolve(directory, relative)] for a relative path given by its
    segments (every relative path of the program is a literal without
    [.] or [..] segments). *)
Definition resolve (directory relative : path) : path := directory ++ relative.

Definition parent (p : path) : path := take (length p - 1) p.

Definition show_path (p : path) : string :=
  foldr (λ segment rest, "/" +:+ segment +:+ rest) "" p.

(** What a file holds: a JSON document (the file text parses to it), or
    text that is not JSON. *)
Inductive content : Type :=
  | Raw (text : string)
  | Json (j : JSON).

Inductive node : Type :=
  | Dir
  | File (c : content).

Definition same_kind (a b : node) : bool :=
  match a, b with
  | Dir, Dir | File _, File _ => true
  | _, _ => false
  end.

Fixpoint relative (pre p : path) : option path :=
  match pre, p with
  | [], _ => Some p
  | a :: pre', b :: p' => if decide (a = b) then relative pre' p' else None
  | _ :: _, [] => None
  end.

(** The entries of a directory. *)
Definition children (p : path) (m : gmap path node) : list string :=
  map_fold (λ q _ acc,
    match relative p q with
    | Some [c] => c :: acc
    | _ => acc
    end) [] m.

(** The tree below [src], keyed by the paths relative to [src] (the empty
    path is [src] itself). *)
Definition subtree (src : path) (m : gmap path node) : gmap path node :=
  map_fold (λ q n acc,
    match relative src q with
    | Some r => <[r := n]> acc
    | None => acc
    end) ∅ m.

(** A tree laid over the file system at [dst]; the nodes of the tree
    replace the ones that are there. *)
Definition graft (dst : path) (tree m : gmap path node) : gmap path node :=
  kmap (app dst) tree ∪ m.

(** No node of [tree] lands on a node of the other kind. *)
Definition fits (dst : path) (tree m : gmap path node) : Prop :=
  map_Forall (λ r n,
    match m !! (dst ++ r) with
    | Some n' => same_kind n n'
    | None => True
    end) tree.

#[global] Instance fits_dec dst tree m : Decision (fits dst tree m).
Proof. unfold fits. apply map_Forall_dec. intros r n. destruct (m !! (dst ++ r)); apply _. Defined.

Definition is_dir (o : option node) : bool :=
  match o with
  | Some Dir => true
  | _ => false
  end.

(** The file system is a tree: every node but the root lies in a directory. *)
Definition tree_shaped (m : gmap path node) : Prop :=
  map_Forall (λ p _, p = [] ∨ is_dir (m !! parent p)) m.

#[global] Instance tree_shaped_dec m : Decision (tree_shaped m).
Proof. unfold tree_shaped. apply _. Defined.

(** [fs.existsSync] *)
Definition exists_ (p : path) (m : gmap path node) : bool :=
  bool_decide (is_Some (m !! p)).

(** [fs.readdirSync] *)
Definition readdir (p : path) (m : gmap path node) : result (list string) :=
  match m !! p with
  | Some Dir => Ok (children p m)
  | Some (File _) => Throw ENOTDIR
  | None => Throw ENOENT
  end.

(** Writing a node at [p] needs the directory [p] goes into. *)
Definition put (p : path) (n : node) (m : gmap path node)
    : result (gmap path node) :=
  match m !! parent p with
  | Some Dir => Ok (<[p := n]> m)
  | Some (File _) => Throw ENOTDIR
  | None => Throw ENOENT
  end.

(** [fs.mkdirSync], not recursive *)
Definition mkdir (p : path) (m : gmap path node) : result (gmap path node) :=
  match m !! p with
  | Some _ => Throw EEXIST
  | None => put p Dir m
  end.

(** [mkdirsSync]: the directory and the ancestors it lacks *)
Fixpoint mkdirs_from (done todo : path) (m : gmap path node)
    : result (gmap path node) :=
  match m !! done with
  | Some (File _) => Throw ENOTDIR
  | o =>
      let m' := match o with None => <[done := Dir]> m | Some _ => m end in
      match todo with
      | [] => Ok m'
      | segment :: todo' => mkdirs_from (done ++ [segment]) todo' m'
      end
  end.

Definition mkdirs (p : path) (m : gmap path node) : result (gmap path node) :=
  mkdirs_from [] p m.

(** [fs.copyFileSync] *)
Definition copyFile (src dst : path) (m : gmap path node)
    : result (gmap path node) :=
  match m !! src with
  | Some (File c) =>
      match m !! dst with
      | Some Dir => Throw EISDIR
      | _ => put dst (File c) m
      end
  | Some Dir => Throw EISDIR
  | None => Throw ENOENT
  end.

(** [fse.copySync] with its default options (existing files are
    overwritten): the source must exist, the destination is neither the
    source nor below it, a directory never replaces a file nor a file a
    directory; a destination that is absent is created with the ancestors it
    lacks.  The copy is taken from the tree as it stands at the call. *)
Definition copy (src dst : path) (m : gmap path node)
    : result (gmap path node) :=
  match m !! src with
  | None => Throw ENOENT
  | Some _ =>
      if decide (src `prefix_of` dst) then Throw ECOPY
      else if decide (fits dst (subtree src m) m) then
        match m !! dst with
        | Some _ => Ok (graft dst (subtree src m) m)
        | None =>
            match mkdirs (parent dst) m with
            | Ok m' => Ok (graft dst (subtree src m) m')
            | Throw e => Throw e
            end
        end
      else Throw ECOPY
  end.

(** [fse.readJSONSync] *)
Definition readJSON (p : path) (m : gmap path node) : result JSON :=
  match m !! p with
  | Some (File (Json j)) => Ok j
  | Some (File (Raw _)) => Throw SyntaxError
  | Some Dir => Throw EISDIR
  | None => Throw ENOENT
  end.

(** [fse.writeJSONSync] *)
Definition writeJSON (p : path) (j : JSON) (m : gmap path node)
    : result (gmap path node) :=
  match m !! p with
  | Some Dir => Throw EISDIR
  | _ => put p (File (Json j)) m
  end.

End Fs.
Export Fs.

(** ** The world the command runs in *)

Record World : Type := {
  files : gmap path node;
  console : list string;   (* the lines written by [console.log] *)
  spawned : list string    (* the shell commands handed to [exec] *)
}.

(** A computation that reads and changes the world, or throws. *)
Definition IO (A : Type) : Type := World → result (A * World).

#[global] Instance result_ret : MRet result := λ A a, Ok a.
#[global] Instance result_bind : MBind result := λ A B f r,
  match r with
  | Ok a => f a
  | Throw e => Throw e
  end.

#[global] Instance IO_ret : MRet IO := λ A a w, Ok (a, w).
#[global] Instance IO_bind : MBind IO := λ A B f c w,
  match c w with
  | Ok (a, w') => f a w'
  | Throw e => Throw e
  end.

Definition reading {A} (f : gmap path node → result A) : IO A := λ w,
  match f (files w) with
  | Ok a => Ok (a, w)
  | Throw e => Throw e
  end.

Definition set_files (w : World) (m : gmap path node) : World :=
  {| files := m; console := console w; spawned := spawned w |}.

Definition writing (f : gmap path node → result (gmap path node)) : IO unit :=
  λ w,
  match f (files w) with
  | Ok m => Ok (tt, set_files w m)
  | Throw e => Throw e
  end.

Definition lift {A} (r : result A) : IO A := reading (λ _, r).

Definition when (b : bool) (c : IO unit) : IO unit :=
  if b then c else mret tt.

Definition console_log (line : string) : IO unit := λ w,
  Ok (tt, {| files := files w; console := console w ++ [line];
             spawned := spawned w |}).

(** [exec(command, callback)] hands the command to a shell and returns at
    once; what the child process does later, and the callback that logs its
    output, are outside this model. *)
Definition exec (command : string) : IO unit := λ w,
  Ok (tt, {| files := files w; console := console w;
             spawned := spawned w ++ [command] |}).

Module fse.
Definition existsSync (p : path) : IO bool := reading (λ m, Ok (exists_ p m)).
Definition readdirSync (p : path) : IO (list string) := reading (readdir p).
Definition mkdirSync (p : path) : IO unit := writing (mkdir p).
Definition copySync (src dst : path) : IO unit := writing (copy src dst).
Definition copyFileSync (src dst : path) : IO unit := writing (copyFile src dst).
Definition readJSONSync (p : path) : IO JSON := reading (readJSON p).
Definition writeJSONSync (p : path) (j : JSON) : IO unit := writing (writeJSON p j).
End fse.

(** ** The program *)

Inductive DatabaseType : Type :=
  | MySQL | MongoDB | SQLite | PostgreSQL | SQLServer | CockroachDB.

Definition databases : list DatabaseType :=
  [MySQL; MongoDB; SQLite; PostgreSQL; SQLServer; CockroachDB].

Definition DatabaseType_string (d : DatabaseType) : string :=
  match d with
  | MySQL => "MySQL"
  | MongoDB => "MongoDB"
  | SQLite => "SQLite"
  | PostgreSQL => "PostgreSQL"
  | SQLServer => "SQLServer"
  | CockroachDB => "CockroachDB"
  end.

Record Answers : Type := {
  name : string;
  gitRepo : bool;
  install : bool;
  prisma : bool;
  databaseType : option DatabaseType;
  databaseUri : option string;
  typescript : bool;
  helpCommand : bool;
  dashboard : bool;
  eslintAndPrettier : bool
}.

Inductive PackageManager : Type := npm | yarn | pnpm.

Definition PackageManager_string (p : PackageManager) : string :=
  match p with
  | npm => "npm"
  | yarn => "yarn"
  | pnpm => "pnpm"
  end.

Record ScaffoldOptions : Type := {
  answers :> Answers;
  packageManager : PackageManager;
  projectDirectory : path
}.

(** Modelled from the spec: the type [CreateAppOptions] of [../types], which
    is not among the sources: an optional project name and the flags
    skip-prompts ([yes]), skip-git ([noGit]) and skip-install ([noInstall]),
    each of them absent ([undefined]) or a boolean. *)
Module CreateAppOptions.
Record Flags : Type := {
    yes : option bool;
    noGit : option bool;
    noInstall : option bool
  }.
Record t : Type := {
    name : option string;
    flags : Flags
  }.
End CreateAppOptions.

Definition truthy (flag : option bool) : bool :=
  match flag with
  | Some true => true
  | _ => false
  end.

Definition is_undefined {A} (x : option A) : bool :=
  match x with
  | None => true
  | Some _ => false
  end.

Definition quote : string := String "034"%char "".

Section Scaffolder.

(** [templatesDirectory] is where the package is installed; [prompt] is
    what [inquirer.prompt] resolves to on the questions of [getAnswers]. *)
Context (templatesDirectory : path).
Context (prompt : CreateAppOptions.t → Answers).

Definition getAnswers (options : CreateAppOptions.t) : Answers :=
  if truthy (CreateAppOptions.yes (CreateAppOptions.flags options)) then
    {| name := default "my-app" (CreateAppOptions.name options);
       gitRepo := is_undefined (CreateAppOptions.noGit (CreateAppOptions.flags options));
       install := is_undefined (CreateAppOptions.noInstall (CreateAppOptions.flags options));
       prisma := true;
       databaseType := Some MongoDB;
       databaseUri := Some ("mongodb://localhost:27017/" +:+
                            default "my-app" (CreateAppOptions.name options));
       typescript := true;
       helpCommand := true;
       dashboard := true;
       eslintAndPrettier := true |}
  else prompt options.

(** [userAgent] is [process.env.npm_config_user_agent]. *)
Definition getUserPackageManager (userAgent : option string) : PackageManager :=
  match userAgent with
  | None => npm
  | Some userAgent =>
      if includes userAgent "yarn" then yarn
      else if includes userAgent "pnpm" then pnpm
      else npm
  end.

(** The three [Map]s of [createPackageJson]. *)
Record Merged : Type := {
  dependencies : gmap string JSON;
  devDependencies : gmap string JSON;
  scripts : gmap string JSON
}.

(** [Object.entries(packageJson.field ?? {})] *)
Definition fieldEntries (packageJson : JSON) (field : string)
    : result (list (string * JSON)) :=
  x ← get_prop packageJson field;
  mret (Object_entries (nullish x (JObj ∅))).

(** What a manifest gives for a field, as a mapping. *)
Definition fieldMap (packageJson : JSON) (field : string) : gmap string JSON :=
  match get_prop packageJson field with
  | Ok x => own_props (nullish x (JObj ∅))
  | Throw _ => ∅
  end.

(** The loop over [directories]. *)
Fixpoint mergeManifests (directories : list path) (acc : Merged) : IO Merged :=
  match directories with
  | [] => mret acc
  | directory :: rest =>
      packageJson ← fse.readJSONSync (resolve directory ["package.json"]);
      dependenciesEntries ← lift (fieldEntries packageJson "dependencies");
      devDependenciesEntries ← lift (fieldEntries packageJson "devDependencies");
      scriptsEntries ← lift (fieldEntries packageJson "scripts");
      mergeManifests rest
        {| dependencies := Map_setAll dependenciesEntries (dependencies acc);
           devDependencies := Map_setAll devDependenciesEntries (devDependencies acc);
           scripts := Map_setAll scriptsEntries (scripts acc) |}
  end.

Definition createPackageJson (projectName : string) (templates : list string)
    : IO (gmap string JSON) :=
  let directories :=
    (λ template, resolve templatesDirectory [template]) <$> templates in
  merged ← mergeManifests directories
              {| dependencies := ∅; devDependencies := ∅; scripts := ∅ |};
  match directories with
  | [] => lift (Throw TypeError)
  | first :: _ =>
      basePackageJson ← fse.readJSONSync (resolve first ["package.json"]);
      mret (<["devDependencies" := JObj (devDependencies merged)]>
            (<["dependencies" := JObj (dependencies merged)]>
             (<["scripts" := JObj (scripts merged)]>
              (<["name" := JStr projectName]>
               (own_props basePackageJson)))))
  end.

(** The [Set] of templates of [scaffoldProject], in insertion order. *)
Definition templateSet (options : ScaffoldOptions) : list string :=
  let templates :=
    Set_new ["base"; if typescript options then "base-ts" else "base-js"] in
  let templates :=
    if prisma options then Set_add "prisma" templates else templates in
  if eslintAndPrettier options then Set_add "eslint-prettier" templates
  else templates.

(** The lines and the commands of [scaffoldProject]. *)
Definition usingLine (options : ScaffoldOptions) : string :=
  "Using " +:+ PackageManager_string (packageManager options)
  +:+ " to scaffold the project".

Definition notEmptyLine (options : ScaffoldOptions) : string :=
  "The directory " +:+ show_path (projectDirectory options)
  +:+ " is not empty. Please try again.".

Definition gitInitCommand (options : ScaffoldOptions) : string :=
  "cd " +:+ quote +:+ show_path (projectDirectory options) +:+ quote
  +:+ " && git init".

Definition installCommand (options : ScaffoldOptions) : string :=
  "cd " +:+ quote +:+ show_path (projectDirectory options) +:+ quote
  +:+ " && " +:+ PackageManager_string (packageManager options)
  +:+ " install --ignore-workspace".

(** initialize git repository *)
Definition initializeGitRepository (options : ScaffoldOptions) : IO unit :=
  when (gitRepo options)
    (exec (gitInitCommand options);;
     fse.copySync (resolve templatesDirectory ["git"]) (projectDirectory options)).

(** copy base files *)
Definition copyBaseFiles (options : ScaffoldOptions) : IO unit :=
  let basePath := if typescript options then "base-ts" else "base-js" in
  fse.copySync (resolve templatesDirectory ["base"]) (projectDirectory options);;
  fse.copySync (resolve templatesDirectory [basePath]) (projectDirectory options).

(** copy prisma files *)
Definition schemaFile (options : ScaffoldOptions) : string :=
  let databaseType :=
    match databaseType options with
    | Some d => toLowerCase (DatabaseType_string d)
    | None => "mongodb"
    end in
  databaseType +:+ ".prisma".

Definition copyPrismaFiles (options : ScaffoldOptions) : IO unit :=
  when (prisma options)
    (fse.mkdirSync (resolve (projectDirectory options) ["prisma"]);;
     fse.copyFileSync
       (resolve templatesDirectory ["prisma"; schemaFile options])
       (resolve (projectDirectory options) ["prisma"; "schema.prisma"])).

(** copy eslint and prettier files *)
Definition copyEslintAndPrettierFiles (options : ScaffoldOptions) : IO unit :=
  when (eslintAndPrettier options)
    (fse.copySync (resolve templatesDirectory ["eslint-prettier"])
       (projectDirectory options)).

(** merge package.json files *)
Definition mergePackageJsonFiles (options : ScaffoldOptions)
    (templates : list string) : IO unit :=
  packageJson ← createPackageJson (name options) templates;
  fse.writeJSONSync (resolve (projectDirectory options) ["package.json"])
    (JObj packageJson).

(** install dependencies *)
Definition installDependencies (options : ScaffoldOptions) : IO unit :=
  when (install options) (exec (installCommand options)).

(** What [scaffoldProject] does once the project directory is there. *)
Definition scaffoldInto (options : ScaffoldOptions) (templates : list string)
    : IO unit :=
  initializeGitRepository options;;
  copyBaseFiles options;;
  copyPrismaFiles options;;
  copyEslintAndPrettierFiles options;;
  mergePackageJsonFiles options templates;;
  installDependencies options.

Definition scaffoldProject (options : ScaffoldOptions) : IO unit :=
  let templates := templateSet options in
  console_log (usingLine options);;
  found ← fse.existsSync (projectDirectory options);
  if found : bool then
    entries ← fse.readdirSync (projectDirectory options);
    if (0 <? length entries)%nat then
      console_log (notEmptyLine options)
    else scaffoldInto options templates
  else
    fse.mkdirSync (projectDirectory options);;
    scaffoldInto options templates.

End Scaffolder.

(** ** Notions of the specification *)

(** [merged] holds, for every key, the value of the last mapping of [maps]
    that has the key, and no other key. *)
Definition last_write_wins (maps : list (gmap string JSON))
    (merged : gmap string JSON) : Prop :=
  ∀ k v, merged !! k = Some v ↔
    ∃ i m, maps !! i = Some m ∧ m !! k = Some v ∧
      ∀ i' m', i < i' → maps !! i' = Some m' → m' !! k = None.

(** [needle] occurs in [s]. *)
Definition contains (s needle : string) : Prop :=
  ∃ before after, s = before +:+ needle +:+ after.

(** The file [package.json] of a directory holds the document [j], which
    is not [null]. *)
Definition manifest_at (m : gmap path node) (directory : path) (j : JSON)
    : Prop :=
  j ≠ JNull ∧ m !! (directory ++ ["package.json"]) = Some (File (Json j)).

(** The target is free: absent in an existing directory, or an empty
    directory. *)
Definition vacant (target : path) (m : gmap path node) : Prop :=
  (exists_ target m = false ∧ is_dir (m !! parent target)) ∨
  (is_dir (m !! target) ∧ children target m = []).

(** The target is a directory with at least one entry. *)
Definition occupied (target : path) (m : gmap path node) : Prop :=
  is_dir (m !! target) ∧ ∃ entry, is_Some (m !! (target ++ [entry])).

(** Neither of the two directories lies in the other. *)
Definition apart (a b : path) : Prop :=
  ¬ a `prefix_of` b ∧ ¬ b `prefix_of` a.

(** While the scaffolder runs: outside the target the file system [m'] is
    the initial one, [m]; the target holds the tree [view]. *)
Definition scaffolding (target : path) (m view m' : gmap path node) : Prop :=
  (∀ p, ¬ target `prefix_of` p → m' !! p = m !! p) ∧ subtree target m' = view.

(** A computation that, when it returns from a world in which [target]
    exists, has left [target] in place and the file system outside [target]
    as it was. *)
Definition confined (target : path) (c : IO unit) : Prop :=
  ∀ w w', c w = Ok (tt, w') → is_Some (files w !! target) →
    is_Some (files w' !! target) ∧
    ∀ p, ¬ target `prefix_of` p → files w' !! p = files w !! p.

Definition is_file (o : option node) : bool :=
  match o with
  | Some (File _) => true
  | _ => false
  end.

Definition is_manifest (o : option node) : bool :=
  match o with
  | Some (File (Json JNull)) => false
  | Some (File (Json _)) => true
  | _ => false
  end.

Section Installation.

Context (templatesDirectory : path).

(** The tree of a template. *)
Definition template (m : gmap path node) (t : string) : gmap path node :=
  subtree (resolve templatesDirectory [t]) m.

Definition variant (options : ScaffoldOptions) : string :=
  if typescript options then "base-ts" else "base-js".

(** The templates [scaffoldProject] copies as a whole, in the order of the
    copies. *)
Definition copied (options : ScaffoldOptions) : list string :=
  (if gitRepo options then ["git"] else [])
  ++ ["base"; variant options]
  ++ (if eslintAndPrettier options then ["eslint-prettier"] else []).

(** The installed templates are as the scaffolder needs them: the copied
    templates are directories, no two of them have a file where the other
    has a directory, none has a directory named [package.json] and, when the
    database layer is asked for, none has an entry named [prisma] and the
    schema of the database type is there; every template of the template set
    has a manifest. *)
Definition intact (options : ScaffoldOptions) (m : gmap path node) : Prop :=
  Forall (λ t, is_dir (m !! resolve templatesDirectory [t])) (copied options) ∧
  Forall (λ t, Forall (λ t', fits [] (template m t) (template m t'))
                 (copied options)) (copied options) ∧
  Forall (λ t, ¬ is_dir (m !! resolve templatesDirectory [t; "package.json"]))
    (copied options) ∧
  (prisma options →
     Forall (λ t, exists_ (resolve templatesDirectory [t; "prisma"]) m = false)
       (copied options) ∧
     is_file (m !! resolve templatesDirectory ["prisma"; schemaFile options])) ∧
  Forall (λ t, is_manifest (m !! resolve templatesDirectory [t; "package.json"]))
    (templateSet options).

(** A tree made of the target directory and of nodes of copied templates. *)
Definition from_templates (options : ScaffoldOptions) (m view : gmap path node)
    : Prop :=
  view !! [] = Some Dir ∧
  ∀ r n, view !! r = Some n →
    (r = [] ∧ n = Dir) ∨ ∃ t, t ∈ copied options ∧ template m t !! r = Some n.

(** The layer of the database files over a tree. *)
Definition prismaLayer (options : ScaffoldOptions) (m view : gmap path node)
    : gmap path node :=
  if prisma options then
    match m !! resolve templatesDirectory ["prisma"; schemaFile options] with
    | Some schema =>
        <[["prisma"; "schema.prisma"] := schema]> (<[["prisma"] := Dir]> view)
    | None => view
    end
  else view.

#[global] Instance intact_dec options m : Decision (intact options m).
Proof. unfold intact. apply _. Defined.

(** The project directory after a run, as a tree: the layers in the order
    of the copies, a later layer over the earlier ones. *)
Definition layout (options : ScaffoldOptions) (m : gmap path node)
    (packageJson : gmap string JSON) : gmap path node :=
  let view : gmap path node := {[ [] := Dir ]} in
  let view := if gitRepo options then template m "git" ∪ view else view in
  let view := template m "base" ∪ view in
  let view := template m (variant options) ∪ view in
  let view := prismaLayer options m view in
  let view :=
    if eslintAndPrettier options then template m "eslint-prettier" ∪ view
    else view in
  <[["package.json"] := File (Json (JObj packageJson))]> view.

End Installation.

(** ** A sample installation *)

Module Demo.

Definition templates : path := ["opt"; "ferod"; "templates"].
Definition cwd : path := ["home"; "dev"].

Definition obj (fields : list (string * JSON)) : JSON := JObj (list_to_map fields).
Definition strs (fields : list (string * string)) : JSON :=
  obj (prod_map id JStr <$> fields).

Definition basePackage : JSON :=
  obj [("name", JStr "template"); ("version", JStr "0.1.0");
       ("type", JStr "module");
       ("scripts", strs [("start", "node ."); ("build", "echo none")]);
       ("dependencies", strs [("@ferod/client", "^0.2.0")])].

Definition tsPackage : JSON :=
  obj [("scripts", strs [("build", "tsc"); ("dev", "tsx src/index.ts")]);
       ("devDependencies", strs [("typescript", "^5.0.0")])].

Definition jsPackage : JSON :=
  obj [("scripts", strs [("dev", "node src/index.js")])].

Definition prismaPackage : JSON :=
  obj [("dependencies", strs [("@prisma/client", "^5.0.0")]);
       ("devDependencies", strs [("prisma", "^5.0.0")])].

Definition lintPackage : JSON :=
  obj [("scripts", strs [("lint", "eslint .")]);
       ("devDependencies", strs [("eslint", "^8.0.0"); ("prettier", "^3.0.0")])].

Definition gitPackage : JSON :=
  obj [("scripts", strs [("build", "never")])].

Definition under (dir : path) (entries : list (path * node))
    : list (path * node) :=
  (dir, Dir) :: (prod_map (app dir) id <$> entries).

Definition installation : list (path * node) :=
  [([], Dir); (["opt"], Dir); (["opt"; "ferod"], Dir); (templates, Dir)]
  ++ under (templates ++ ["git"])
       [([".gitignore"], File (Raw "node_modules"));
        (["package.json"], File (Json gitPackage))]
  ++ under (templates ++ ["base"])
       [(["package.json"], File (Json basePackage));
        (["README.md"], File (Raw "# app"));
        (["src"], Dir);
        (["src"; "index"], File (Raw "base"))]
  ++ under (templates ++ ["base-ts"])
       [(["package.json"], File (Json tsPackage));
        (["src"], Dir);
        (["src"; "index"], File (Raw "typescript"));
        (["tsconfig.json"], File (Json (obj [])))]
  ++ under (templates ++ ["base-js"])
       [(["package.json"], File (Json jsPackage));
        (["src"], Dir);
        (["src"; "index"], File (Raw "javascript"))]
  ++ under (templates ++ ["prisma"])
       [(["package.json"], File (Json prismaPackage));
        (["mongodb.prisma"], File (Raw "provider = mongodb"));
        (["postgresql.prisma"], File (Raw "provider = postgresql"))]
  ++ under (templates ++ ["eslint-prettier"])
       [(["package.json"], File (Json lintPackage));
        ([".eslintrc.json"], File (Json (obj [])))].

(** The installation and an empty working directory. *)
Definition disk : gmap path node :=
  list_to_map (installation ++ [(["home"], Dir); (cwd, Dir)]).

(** Two templates [A] and [B] that both have a [build] script. *)
Definition twoTemplates : gmap path node :=
  list_to_map
    ([([], Dir); (["opt"], Dir); (["opt"; "ferod"], Dir); (templates, Dir)]
     ++ under (templates ++ ["A"])
          [(["package.json"],
            File (Json (obj [("scripts", strs [("build", "x")])])))]
     ++ under (templates ++ ["B"])
          [(["package.json"],
            File (Json (obj [("scripts", strs [("build", "y"); ("test", "z")])])))]).

(** The working directory with an empty directory [demo], and with a
    directory [demo] that holds a file. *)
Definition emptyTarget : gmap path node := <[cwd ++ ["demo"] := Dir]> disk.

Definition occupiedTarget : gmap path node :=
  <[cwd ++ ["demo"; "notes.txt"] := File (Raw "keep")]> emptyTarget.

Definition world (m : gmap path node) : World :=
  {| files := m; console := []; spawned := [] |}.

Definition everything (target : path) : ScaffoldOptions :=
  {| answers := {| name := "demo"; gitRepo := true; install := true;
                   prisma := true; databaseType := Some PostgreSQL;
                   databaseUri := None; typescript := true;
                   helpCommand := true; dashboard := true;
                   eslintAndPrettier := true |};
     packageManager := pnpm;
     projectDirectory := target |}.

(** The answers a user gives when asked. *)
Definition interactive (options : CreateAppOptions.t) : Answers :=
  {| name := default "asked" (CreateAppOptions.name options);
     gitRepo := false; install := false; prisma := false;
     databaseType := None; databaseUri := None; typescript := false;
     helpCommand := false; dashboard := false; eslintAndPrettier := false |}.

(** [--yes --no-git] *)
Definition yesNoGit : CreateAppOptions.t :=
  {| CreateAppOptions.name := None;
     CreateAppOptions.flags :=
       {| CreateAppOptions.yes := Some true;
          CreateAppOptions.noGit := Some true;
          CreateAppOptions.noInstall := None |} |}.

(** [--yes] *)
Definition yesOnly : CreateAppOptions.t :=
  {| CreateAppOptions.name := None;
     CreateAppOptions.flags :=
       {| CreateAppOptions.yes := Some true;
          CreateAppOptions.noGit := None;
          CreateAppOptions.noInstall := None |} |}.

End Demo.

(** ** Further notions *)

(** A computation that, when it returns, has written [lines] to the
    console and handed [commands] to the shell, and nothing else. *)
Definition emits (c : IO unit) (lines commands : list string) : Prop :=
  ∀ w w', c w = Ok (tt, w') →
    console w' = console w ++ lines ∧ spawned w' = spawned w ++ commands.

(** A computation that, when it returns, has left the directory [target] a
    directory. *)
Definition keeps_directory (target : path) (c : IO unit) : Prop :=
  ∀ w w', c w = Ok (tt, w') →
    is_dir (files w !! target) → is_dir (files w' !! target).

(** The manifest a run has left in the directory [target], when it
    returns. *)
Definition manifestAfter (target : path) (r : result (unit * World))
    : option JSON :=
  match r with
  | Ok (_, w') =>
      match files w' !! resolve target ["package.json"] with
      | Some (File (Json packageJson)) => Some packageJson
      | _ => None
      end
  | Throw _ => None
  end.

(** The options with the database layer declined. *)
Definition withoutPrisma (o : ScaffoldOptions) : ScaffoldOptions :=
  {| answers :=
       {| name := name o; gitRepo := gitRepo o; install := install o;
          prisma := false; databaseType := databaseType o;
          databaseUri := databaseUri o; typescript := typescript o;
          helpCommand := helpCommand o; dashboard := dashboard o;
          eslintAndPrettier := eslintAndPrettier o |};
     packageManager := packageManager o;
     projectDirectory := projectDirectory o |}.

(** The templates copied before the database files. *)
Definition copiedFirst (o : ScaffoldOptions) : list string :=
  (if gitRepo o then ["git"] else []) ++ ["base"; variant o].

(** ** Further sample file systems *)

Module Cases.

(** The working directory with a file named [demo]. *)
Definition fileTarget : gmap path node :=
  <[Demo.cwd ++ ["demo"] := File (Raw "text")]> Demo.disk.


(** No git, no database layer, no lint, no install. *)
Definition plain (target : path) : ScaffoldOptions :=
  {| answers := {| name := "demo"; gitRepo := false; install := false;
                   prisma := false; databaseType := None;
                   databaseUri := None; typescript := false;
                   helpCommand := false; dashboard := false;
                   eslintAndPrettier := false |};
     packageManager := npm;
     projectDirectory := target |}.


(** An installation whose base template has a directory [prisma]. *)
Definition prismaInBase : gmap path node :=
  <[Demo.templates ++ ["base"; "prisma"] := Dir]> Demo.disk.

End Cases.

(** ** The answers as an object, and the entry point *)

(** A value of the answers object. *)
Inductive value : Type :=
  | VBool (b : bool)
  | VStr (s : string).

(** The truth value of a property that may be absent. *)
Definition truthyValue (x : option value) : bool :=
  match x with
  | Some (VBool b) => b
  | Some (VStr s) => if decide (s = "") then false else true
  | None => false
  end.

(** A question of [inquirer]; [choices] is empty for the questions that
    have none. *)
Module Question.
Record t : Type := {
  name : string;
  type : string;
  message : string;
  choices : list string;
  default : value;
  when : gmap string value → bool
}.
End Question.

(** What the user does at a question: press enter, type a line, say yes or
    no, pick a choice by its position. *)
Inductive reply : Type :=
  | enter
  | line (s : string)
  | tick (b : bool)
  | pick (i : nat).

(** The answer [inquirer] records: the default unless the user gives a
    value of the type of the question. *)
Definition answerTo (q : Question.t) (r : reply) : value :=
  if decide (Question.type q = "confirm") then
    match r with
    | tick b => VBool b
    | _ => Question.default q
    end
  else if decide (Question.type q = "list") then
    match r with
    | pick i =>
        match Question.choices q !! i with
        | Some choice => VStr choice
        | None => Question.default q
        end
    | _ => Question.default q
    end
  else
    match r with
    | line s => if decide (s = "") then Question.default q else VStr s
    | _ => Question.default q
    end.

(** [inquirer.prompt(questions)]: the questions are put in their order; a
    question whose [when] does not hold of the answers so far is skipped
    and leaves no property. *)
Fixpoint inquirer_prompt (questions : list Question.t) (user : string → reply)
    (answers : gmap string value) : gmap string value :=
  match questions with
  | [] => answers
  | q :: rest =>
      if Question.when q answers then
        inquirer_prompt rest user
          (<[Question.name q := answerTo q (user (Question.name q))]> answers)
      else inquirer_prompt rest user answers
  end.

(** The questions of [getAnswers]. *)
Section Questions.

Context (options : CreateAppOptions.t).

Definition notYes : bool :=
  negb (truthy (CreateAppOptions.yes (CreateAppOptions.flags options))).

Definition nameQuestion : Question.t :=
  {| Question.name := "name"; Question.type := "input";
     Question.message := "What is the name of your app?";
     Question.choices := [];
     Question.default := VStr "my-app";
     Question.when := λ _, is_undefined (CreateAppOptions.name options) |}.

Definition gitRepoQuestion : Question.t :=
  {| Question.name := "gitRepo"; Question.type := "confirm";
     Question.message := "Initialize a git repository?";
     Question.choices := [];
     Question.default := VBool true;
     Question.when := λ _,
       notYes &&
       is_undefined (CreateAppOptions.noGit (CreateAppOptions.flags options)) |}.

Definition installQuestion : Question.t :=
  {| Question.name := "install"; Question.type := "confirm";
     Question.message := "Install dependencies?";
     Question.choices := [];
     Question.default := VBool true;
     Question.when := λ _,
       notYes &&
       is_undefined (CreateAppOptions.noInstall (CreateAppOptions.flags options)) |}.

Definition prismaQuestion : Question.t :=
  {| Question.name := "prisma"; Question.type := "confirm";
     Question.message := "Use Prisma?";
     Question.choices := [];
     Question.default := VBool true;
     Question.when := λ _, notYes |}.

Definition databaseTypeQuestion : Question.t :=
  {| Question.name := "databaseType"; Question.type := "list";
     Question.message := "What database do you want to use?";
     Question.choices := DatabaseType_string <$> databases;
     Question.default := VStr "MongoDB";
     Question.when := λ answers, notYes && truthyValue (answers !! "prisma") |}.

Definition databaseUriQuestion : Question.t :=
  {| Question.name := "databaseUri"; Question.type := "input";
     Question.message := "What is the database URI?";
     Question.choices := [];
     Question.default :=
       VStr ("mongodb://localhost:27017/" +:+
             default "my-app" (CreateAppOptions.name options));
     Question.when := λ answers, notYes && truthyValue (answers !! "prisma") |}.

Definition typescriptQuestion : Question.t :=
  {| Question.name := "typescript"; Question.type := "confirm";
     Question.message := "Use TypeScript?";
     Question.choices := [];
     Question.default := VBool true;
     Question.when := λ _, notYes |}.

Definition helpCommandQuestion : Question.t :=
  {| Question.name := "helpCommand"; Question.type := "confirm";
     Question.message := "Add a help command?";
     Question.choices := [];
     Question.default := VBool true;
     Question.when := λ _, notYes |}.

Definition dashboardQuestion : Question.t :=
  {| Question.name := "dashboard"; Question.type := "confirm";
     Question.message := "Add a dashboard?";
     Question.choices := [];
     Question.default := VBool true;
     Question.when := λ _, notYes |}.

Definition eslintAndPrettierQuestion : Question.t :=
  {| Question.name := "eslintAndPrettier"; Question.type := "confirm";
     Question.message := "Use ESLint and Prettier?";
     Question.choices := [];
     Question.default := VBool true;
     Question.when := λ _, notYes |}.

Definition questions : list Question.t :=
  [ nameQuestion; gitRepoQuestion; installQuestion; prismaQuestion;
    databaseTypeQuestion; databaseUriQuestion; typescriptQuestion;
    helpCommandQuestion; dashboardQuestion; eslintAndPrettierQuestion ].

End Questions.

(** [getAnswers], with the answers as the object they are at run time: in
    the interactive branch a question that is not put leaves its property
    undefined. *)
Definition getAnswersObject (user : string → reply)
    (options : CreateAppOptions.t) : gmap string value :=
  if truthy (CreateAppOptions.yes (CreateAppOptions.flags options)) then
    list_to_map
      [ ("name", VStr (default "my-app" (CreateAppOptions.name options)));
        ("gitRepo",
         VBool (is_undefined (CreateAppOptions.noGit (CreateAppOptions.flags options))));
        ("install",
         VBool (is_undefined (CreateAppOptions.noInstall (CreateAppOptions.flags options))));
        ("prisma", VBool true);
        ("databaseType", VStr "MongoDB");
        ("databaseUri",
         VStr ("mongodb://localhost:27017/" +:+
               default "my-app" (CreateAppOptions.name options)));
        ("typescript", VBool true);
        ("helpCommand", VBool true);
        ("dashboard", VBool true);
        ("eslintAndPrettier", VBool true) ]
  else inquirer_prompt (questions options) user ∅.

(** The properties of the answers object as [scaffoldProject] reads them:
    the booleans by their truth value, the database type as one of the six
    names. *)
Definition parseDatabaseType (s : string) : option DatabaseType :=
  list_find (λ d, DatabaseType_string d = s) databases ≫= λ found, Some found.2.

Definition stringOf (x : option value) : option string :=
  match x with
  | Some (VStr s) => Some s
  | _ => None
  end.

Definition answersOf (a : gmap string value) : Answers :=
  {| name := default "" (stringOf (a !! "name"));
     gitRepo := truthyValue (a !! "gitRepo");
     install := truthyValue (a !! "install");
     prisma := truthyValue (a !! "prisma");
     databaseType := stringOf (a !! "databaseType") ≫= parseDatabaseType;
     databaseUri := stringOf (a !! "databaseUri");
     typescript := truthyValue (a !! "typescript");
     helpCommand := truthyValue (a !! "helpCommand");
     dashboard := truthyValue (a !! "dashboard");
     eslintAndPrettier := truthyValue (a !! "eslintAndPrettier") |}.

(** The segments of a path between its slashes. *)
Fixpoint segments (s : string) : list string :=
  match s with
  | EmptyString => [EmptyString]
  | String c s' =>
      if decide (c = "/"%char) then EmptyString :: segments s'
      else
        match segments s' with
        | segment :: rest => String c segment :: rest
        | [] => [String c EmptyString]
        end
  end.

(** [resolve(cwd, p)] of POSIX, for a working directory given by its
    segments: an absolute [p] starts from the root; empty segments and [.]
    are dropped; [..] goes up, and stays at the root. *)
Definition path_resolve (cwd : path) (p : string) : path :=
  foldl (λ stack segment,
           if decide (segment = "" ∨ segment = ".") then stack
           else if decide (segment = "..") then parent stack
           else stack ++ [segment])
        (if startsWith p "/" then [] else cwd) (segments p).

Section EntryPoint.

Context (templatesDirectory : path).

(** [createPackageJson] for a project name that may be undefined: the
    record then has the property [name] with the value undefined, which
    [JSON.stringify] leaves out of the text; it is dropped here. *)
Definition createPackageJson' (projectName : option string)
    (templates : list string) : IO (gmap string JSON) :=
  match projectName with
  | Some projectName => createPackageJson templatesDirectory projectName templates
  | None =>
      packageJson ← createPackageJson templatesDirectory "" templates;
      mret (delete "name" packageJson)
  end.

Definition mergePackageJsonFiles' (options : ScaffoldOptions)
    (projectName : option string) (templates : list string) : IO unit :=
  packageJson ← createPackageJson' projectName templates;
  fse.writeJSONSync (resolve (projectDirectory options) ["package.json"])
    (JObj packageJson).

Definition scaffoldInto' (options : ScaffoldOptions)
    (projectName : option string) (templates : list string) : IO unit :=
  initializeGitRepository templatesDirectory options;;
  copyBaseFiles templatesDirectory options;;
  copyPrismaFiles templatesDirectory options;;
  copyEslintAndPrettierFiles templatesDirectory options;;
  mergePackageJsonFiles' options projectName templates;;
  installDependencies options.

(** [scaffoldProject] for options whose [name] may be undefined. *)
Definition scaffoldProject' (options : ScaffoldOptions)
    (projectName : option string) : IO unit :=
  let templates := templateSet options in
  console_log (usingLine options);;
  found ← fse.existsSync (projectDirectory options);
  if found : bool then
    entries ← fse.readdirSync (projectDirectory options);
    if (0 <? length entries)%nat then
      console_log (notEmptyLine options)
    else scaffoldInto' options projectName templates
  else
    fse.mkdirSync (projectDirectory options);;
    scaffoldInto' options projectName templates.

(** [cwd] is [process.cwd()], [userAgent] is
    [process.env.npm_config_user_agent]. *)
Definition createFerodApp (cwd : path) (userAgent : option string)
    (user : string → reply) (options : CreateAppOptions.t) : IO unit :=
  let answers := getAnswersObject user options in
  let packageManager := getUserPackageManager userAgent in
  let name :=
    match answers !! "name" with
    | Some v => Some v
    | None => VStr <$> CreateAppOptions.name options
    end in
  match name with
  | Some (VStr name) =>
      let projectDirectory := path_resolve cwd name in
      scaffoldProject'
        {| answers := answersOf answers;
           packageManager := packageManager;
           projectDirectory := projectDirectory |}
        (stringOf (answers !! "name"))
  | _ => lift (Throw TypeError)
  end.

End EntryPoint.

(** ** Sample users *)

Module Users.

(** Presses enter at every question. *)
Definition defaults (question : string) : reply := enter.

(** Types the name [shop] and declines the database layer. *)
Definition shopNoDatabase (question : string) : reply :=
  if decide (question = "name") then line "shop"
  else if decide (question = "prisma") then tick false
  else enter.

(** Types the name [shop] and takes every default. *)
Definition shop (question : string) : reply :=
  if decide (question = "name") then line "shop" else enter.

(** No flag, the name [demo]. *)
Definition named : CreateAppOptions.t :=
  {| CreateAppOptions.name := Some "demo";
     CreateAppOptions.flags :=
       {| CreateAppOptions.yes := None;
          CreateAppOptions.noGit := None;
          CreateAppOptions.noInstall := None |} |}.

(** No flag, no name. *)
Definition bare : CreateAppOptions.t :=
  {| CreateAppOptions.name := None;
     CreateAppOptions.flags :=
       {| CreateAppOptions.yes := None;
          CreateAppOptions.noGit := None;
          CreateAppOptions.noInstall := None |} |}.

(** [--yes], the name [demo]. *)
Definition yesNamed : CreateAppOptions.t :=
  {| CreateAppOptions.name := Some "demo";
     CreateAppOptions.flags :=
       {| CreateAppOptions.yes := Some true;
          CreateAppOptions.noGit := None;
          CreateAppOptions.noInstall := None |} |}.

(** [--no-git --no-install], the name [demo]. *)
Definition quiet : CreateAppOptions.t :=
  {| CreateAppOptions.name := Some "demo";
     CreateAppOptions.flags :=
       {| CreateAppOptions.yes := None;
          CreateAppOptions.noGit := Some true;
          CreateAppOptions.noInstall := Some true |} |}.

(** Types the name [shop] and a database URI, declines the help command
    and the dashboard. *)
Definition terse (question : string) : reply :=
  if decide (question = "name") then line "shop"
  else if decide (question = "helpCommand") then tick false
  else if decide (question = "dashboard") then tick false
  else if decide (question = "databaseUri") then line "mysql://localhost/shop"
  else enter.

End Users.

(** * Properties *)

(** ** Strings *)

Lemma startsWith_spec s needle :
  startsWith s needle = true ↔ ∃ rest, s = needle +:+ rest.
Proof.
  revert s. induction needle as [|a needle IH]; intros s.
  - split; [intros _; by exists s | done].
  - destruct s as [|b s]; simpl.
    + split; [done | intros [rest ?]; done].
    + destruct (decide (a = b)) as [->|Hne].
      * rewrite IH. split; intros [rest E]; exists rest.
        -- by rewrite E.
        -- by injection E.
      * split; [done | intros [rest E]; by injection E].
Qed.

Lemma includes_spec s needle :
  includes s needle = true ↔ ∃ before after, s = before +:+ needle +:+ after.
Proof.
  induction s as [|c s IH]; simpl; rewrite orb_true_iff, startsWith_spec.
  - split.
    + intros [[rest E]|?]; [|done]. by exists "", rest.
    + intros (before & after & E). left. exists after.
      destruct before; [done | discriminate].
  - rewrite IH. split.
    + intros [[rest E]|(before & after & E)].
      * by exists "", rest.
      * exists (String c before), after. by rewrite E.
    + intros (before & after & E). destruct before as [|c' before].
      * left. by exists after.
      * right. exists before, after. by injection E.
Qed.

(** ** Paths and the file system *)

Lemma relative_Some (pre p r : path) : relative pre p = Some r ↔ p = pre ++ r.
Proof.
  revert p. induction pre as [|a pre IH]; intros p; simpl.
  - split; congruence.
  - destruct p as [|b p]; [done|].
    destruct (decide (a = b)) as [->|Hne]; [|split; [done | congruence]].
    rewrite IH. split; congruence.
Qed.

Lemma relative_app (pre r : path) : relative pre (pre ++ r) = Some r.
Proof. by apply relative_Some. Qed.

Lemma parent_snoc (p : path) c : parent (p ++ [c]) = p.
Proof.
  unfold parent. rewrite length_app. simpl.
  replace (length p + 1 - 1) with (length p) by lia.
  by rewrite take_app_length.
Qed.

Lemma parent_under (p r : path) : r ≠ [] → parent (p ++ r) = p ++ parent r.
Proof.
  destruct r as [|c r _] using rev_ind; [done|].
  by rewrite app_assoc, !parent_snoc.
Qed.

Lemma prefix_of_under (pd T x : path) :
  ¬ pd `prefix_of` T → ¬ T `prefix_of` pd → ¬ pd `prefix_of` T ++ x.
Proof.
  intros H1 H2 H3.
  destruct (prefix_weak_total pd T (T ++ x)) as [?|?]; try done.
  by apply prefix_app_r.
Qed.

Lemma lookup_subtree (src : path) (m : gmap path node) (r : path) :
  subtree src m !! r = m !! (src ++ r).
Proof.
  unfold subtree. revert r.
  apply (map_fold_weak_ind (λ acc m, ∀ r, acc !! r = m !! (src ++ r))).
  - intros r. by rewrite !lookup_empty.
  - intros q n m' acc Hq IH r.
    destruct (relative src q) as [r'|] eqn:E.
    + apply relative_Some in E as ->.
      destruct (decide (r' = r)) as [->|Hne].
      * by rewrite !lookup_insert_eq.
      * rewrite !lookup_insert_ne; [by apply IH|by intros ?%(inj (app src))|done].
    + rewrite lookup_insert_ne; [done|].
      intros ->. by rewrite relative_app in E.
Qed.

Lemma elem_of_children (p : path) (m : gmap path node) (c : string) :
  c ∈ children p m ↔ is_Some (m !! (p ++ [c])).
Proof.
  unfold children.
  apply (map_fold_weak_ind (λ acc m, c ∈ acc ↔ is_Some (m !! (p ++ [c])))).
  - rewrite lookup_empty. split; [by intros ?%elem_of_nil | by intros [? ?]].
  - intros q n m' acc Hq IH.
    destruct (decide (q = p ++ [c])) as [->|Hne].
    + rewrite relative_app, lookup_insert_eq. split; [eauto | intros _; left].
    + rewrite lookup_insert_ne by done. rewrite <- IH.
      destruct (relative p q) as [[|c' [|? ?]]|] eqn:E; try done.
      apply relative_Some in E as ->.
      rewrite elem_of_cons. split; [intros [->|?]; done | by right].
Qed.

Lemma children_nil (p : path) (m : gmap path node) :
  children p m = [] ↔ ∀ c, m !! (p ++ [c]) = None.
Proof.
  split.
  - intros E c. apply eq_None_not_Some. rewrite <- elem_of_children, E.
    apply not_elem_of_nil.
  - intros H. destruct (children p m) as [|c l] eqn:E; [done|].
    assert (c ∈ children p m) as Hc by (rewrite E; left).
    apply elem_of_children in Hc as [n Hn]. by rewrite H in Hn.
Qed.

Lemma lookup_graft_under (dst : path) (tree m : gmap path node) (r : path) :
  graft dst tree m !! (dst ++ r) =
  match tree !! r with
  | Some n => Some n
  | None => m !! (dst ++ r)
  end.
Proof.
  unfold graft. rewrite lookup_union, lookup_kmap by apply _.
  by destruct (tree !! r), (m !! (dst ++ r)).
Qed.

Lemma lookup_graft_outside (dst : path) (tree m : gmap path node) (p : path) :
  ¬ dst `prefix_of` p → graft dst tree m !! p = m !! p.
Proof.
  intros Hp. unfold graft. rewrite lookup_union.
  assert (kmap (app dst) tree !! p = None) as ->.
  { apply lookup_kmap_None; [apply _|]. intros r ->. destruct Hp. by exists r. }
  by destruct (m !! p).
Qed.

Lemma subtree_graft (dst : path) (tree m : gmap path node) :
  subtree dst (graft dst tree m) = tree ∪ subtree dst m.
Proof.
  apply map_eq. intros r.
  rewrite lookup_subtree, lookup_graft_under, lookup_union, lookup_subtree.
  by destruct (tree !! r), (m !! (dst ++ r)).
Qed.

Lemma subtree_insert_under (dst r : path) (n : node) (m : gmap path node) :
  subtree dst (<[dst ++ r := n]> m) = <[r := n]> (subtree dst m).
Proof.
  apply map_eq. intros r'. rewrite lookup_subtree.
  destruct (decide (r = r')) as [->|Hne].
  - by rewrite !lookup_insert_eq.
  - rewrite !lookup_insert_ne; [by rewrite lookup_subtree|done|].
    by intros ?%(inj (app dst)).
Qed.

Lemma subtree_agree (src : path) (m m' : gmap path node) :
  (∀ r, m' !! (src ++ r) = m !! (src ++ r)) → subtree src m' = subtree src m.
Proof. intros H. apply map_eq. intros r. by rewrite !lookup_subtree. Qed.

Lemma is_dir_Some (o : option node) : is_dir o ↔ o = Some Dir.
Proof. destruct o as [[|c]|]; simpl; split; done. Qed.

Lemma absent_below (m : gmap path node) (p : path) :
  tree_shaped m → m !! p = None → ∀ r, m !! (p ++ r) = None.
Proof.
  intros Hm Hp r. induction r as [|c r IH] using rev_ind.
  - by rewrite app_nil_r.
  - destruct (m !! (p ++ r ++ [c])) as [n|] eqn:E; [|done].
    apply Hm in E as [E|E].
    + by destruct p, r.
    + rewrite app_assoc, parent_snoc, IH in E. done.
Qed.

Lemma empty_directory_view (m : gmap path node) (pd : path) :
  tree_shaped m → m !! pd = Some Dir → children pd m = [] →
  subtree pd m = {[ [] := Dir ]}.
Proof.
  intros Hm Hpd Hc. apply map_eq. intros r. rewrite lookup_subtree.
  destruct r as [|c r].
  - by rewrite app_nil_r, lookup_singleton_eq.
  - rewrite lookup_singleton_ne by done.
    rewrite (cons_middle c), app_assoc.
    apply absent_below; [done|]. by apply children_nil.
Qed.

Lemma new_directory_view (m : gmap path node) (pd : path) :
  tree_shaped m → m !! pd = None →
  subtree pd (<[pd := Dir]> m) = {[ [] := Dir ]}.
Proof.
  intros Hm Hpd. apply map_eq. intros r. rewrite lookup_subtree.
  destruct r as [|c r].
  - by rewrite app_nil_r, lookup_insert_eq, lookup_singleton_eq.
  - rewrite lookup_singleton_ne by done.
    rewrite lookup_insert_ne.
    + by apply absent_below.
    + intros E. apply (f_equal length) in E. rewrite length_app in E. simpl in E. lia.
Qed.

(** [fits] only looks at the tree below the destination. *)
Lemma fits_view (dst : path) (tree m : gmap path node) :
  fits dst tree m ↔ fits [] tree (subtree dst m).
Proof.
  unfold fits. rewrite !map_Forall_lookup.
  split; intros H r n Hn; specialize (H r n Hn); simpl in *;
    by rewrite lookup_subtree in *.
Qed.

Lemma fits_lookup (tree view : gmap path node) :
  fits [] tree view ↔
  ∀ r a b, tree !! r = Some a → view !! r = Some b → same_kind a b.
Proof.
  unfold fits. rewrite map_Forall_lookup. simpl. split.
  - intros H r a b Ha Hb. specialize (H r a Ha). by rewrite Hb in H.
  - intros H r a Ha. destruct (view !! r) as [b|] eqn:Hb; [|done]. eauto.
Qed.

Lemma fits_union (tree a b : gmap path node) :
  fits [] tree a → fits [] tree b → fits [] tree (a ∪ b).
Proof.
  rewrite !fits_lookup. intros Ha Hb r x y Hx Hy.
  apply lookup_union_Some_raw in Hy as [Hy|[_ Hy]]; eauto.
Qed.

Lemma fits_insert (tree view : gmap path node) (r : path) (n : node) :
  (∀ a, tree !! r = Some a → same_kind a n) →
  fits [] tree view → fits [] tree (<[r := n]> view).
Proof.
  rewrite !fits_lookup. intros Hn Hv r' x y Hx Hy.
  destruct (decide (r = r')) as [->|Hne].
  - rewrite lookup_insert_eq in Hy. injection Hy as <-. eauto.
  - rewrite lookup_insert_ne in Hy by done. eauto.
Qed.

Lemma fits_root (tree : gmap path node) :
  is_dir (tree !! []) → fits [] tree {[ [] := Dir ]}.
Proof.
  rewrite fits_lookup. intros Hd r a b Ha Hb.
  apply lookup_singleton_Some in Hb as [<- <-].
  rewrite Ha in Hd. by destruct a.
Qed.

(** ** The monad *)

Lemma bind_run {A B} (c : IO A) (f : A → IO B) w a w1 :
  c w = Ok (a, w1) → (c ≫= f) w = f a w1.
Proof. intros H. unfold mbind, IO_bind. by rewrite H. Qed.

Lemma bind_Ok {A B} (c : IO A) (f : A → IO B) w b w' :
  (c ≫= f) w = Ok (b, w') ↔ ∃ a w1, c w = Ok (a, w1) ∧ f a w1 = Ok (b, w').
Proof.
  unfold mbind, IO_bind. destruct (c w) as [[a w1]|e]; split.
  - eauto.
  - by intros (? & ? & [= <- <-] & ?).
  - done.
  - by intros (? & ? & ? & ?).
Qed.

Lemma reading_Ok {A} (f : gmap path node → result A) w a w' :
  reading f w = Ok (a, w') ↔ f (files w) = Ok a ∧ w' = w.
Proof.
  unfold reading. destruct (f (files w)); split; try done.
  - by intros [= <- <-].
  - by intros [[= <-] ->].
  - by intros [? ?].
Qed.

Lemma writing_Ok f w u w' :
  writing f w = Ok (u, w') ↔ ∃ m, f (files w) = Ok m ∧ w' = set_files w m.
Proof.
  unfold writing. destruct (f (files w)) as [m|e]; split.
  - intros [= <- <-]. eauto.
  - intros (? & [= <-] & ->). by destruct u.
  - done.
  - by intros (? & ? & ?).
Qed.

(** ** Merging manifests *)

Lemma Map_setAll_NoDup (entries : list (string * JSON)) (map : gmap string JSON) :
  NoDup entries.*1 → Map_setAll entries map = list_to_map entries ∪ map.
Proof.
  unfold Map_setAll. revert map.
  induction entries as [|[k v] entries IH]; intros map Hnd; simpl.
  - by rewrite (left_id_L ∅ (∪)).
  - apply NoDup_cons in Hnd as [Hk Hnd]. rewrite IH by done.
    rewrite <- insert_union_l. symmetry. apply insert_union_r.
    by apply not_elem_of_list_to_map_1.
Qed.

Lemma Map_setAll_entries (v : JSON) (map : gmap string JSON) :
  Map_setAll (Object_entries v) map = own_props v ∪ map.
Proof.
  unfold Object_entries.
  rewrite Map_setAll_NoDup by apply NoDup_fst_map_to_list.
  by rewrite list_to_map_to_list.
Qed.

Lemma fieldEntries_fieldMap (packageJson : JSON) (field : string) :
  packageJson ≠ JNull →
  fieldEntries packageJson field =
  Ok (map_to_list (fieldMap packageJson field)).
Proof. intros H. unfold fieldEntries, fieldMap. by destruct packageJson. Qed.

Lemma Map_setAll_field (packageJson : JSON) field (map : gmap string JSON) :
  Map_setAll (map_to_list (fieldMap packageJson field)) map =
  fieldMap packageJson field ∪ map.
Proof.
  rewrite Map_setAll_NoDup by apply NoDup_fst_map_to_list.
  by rewrite list_to_map_to_list.
Qed.

(** The three mappings after the loop over the manifests. *)
Lemma mergeManifests_run directories manifests acc w :
  Forall2 (manifest_at (files w)) directories manifests →
  mergeManifests directories acc w =
  Ok ({| dependencies :=
           foldl (λ a j, fieldMap j "dependencies" ∪ a) (dependencies acc) manifests;
         devDependencies :=
           foldl (λ a j, fieldMap j "devDependencies" ∪ a) (devDependencies acc) manifests;
         scripts :=
           foldl (λ a j, fieldMap j "scripts" ∪ a) (scripts acc) manifests |}, w).
Proof.
  intros H. revert acc. induction H as [|d j ds js [Hj Hd] _ IH]; intros acc.
  - by destruct acc.
  - cbn [mergeManifests]. unfold resolve, fse.readJSONSync.
    erewrite bind_run; [|apply reading_Ok; split; [|done]; unfold readJSON; by rewrite Hd].
    unfold lift.
    do 3 (erewrite bind_run;
      [|apply reading_Ok; split; [|done]; by apply fieldEntries_fieldMap]).
    rewrite IH. cbn [dependencies devDependencies scripts foldl].
    by rewrite !Map_setAll_field.
Qed.

Lemma last_write_wins_foldl (maps : list (gmap string JSON)) :
  last_write_wins maps (foldl (λ a m, m ∪ a) ∅ maps).
Proof.
  induction maps as [|m maps IH] using rev_ind; intros k v.
  - simpl. rewrite lookup_empty. split; [done|].
    by intros (i & ? & ? & _).
  - rewrite foldl_app. simpl. rewrite lookup_union_Some_raw. split.
    + intros [Hm|[Hm Hk]].
      * exists (length maps), m. split_and!.
        -- by rewrite lookup_app_r, Nat.sub_diag.
        -- done.
        -- intros i' m' Hi' Hm'. apply lookup_lt_Some in Hm'.
           rewrite length_app in Hm'. simpl in Hm'. lia.
      * apply IH in Hk as (i & m0 & Hi & Hv & Hlast).
        exists i, m0. split_and!.
        -- by apply lookup_app_l_Some.
        -- done.
        -- intros i' m' Hi' Hm'.
           apply lookup_app_Some in Hm' as [Hm'|[Hlen Hm']]; [eauto|].
           apply list_lookup_singleton_Some in Hm' as [_ <-]. done.
    + intros (i & m0 & Hi & Hv & Hlast).
      apply lookup_app_Some in Hi as [Hi|[Hlen Hi]].
      * destruct (m !! k) as [v'|] eqn:Hm.
        -- pose proof (lookup_lt_Some _ _ _ Hi) as Hlt.
           rewrite (Hlast (length maps) m) in Hm; [done|done|].
           by rewrite lookup_app_r, Nat.sub_diag.
        -- right. split; [done|]. apply IH. exists i, m0. split_and!; [done..|].
           intros i' m' Hi' Hm'. apply (Hlast i' m'); [done|].
           by apply lookup_app_l_Some.
      * apply list_lookup_singleton_Some in Hi as [_ <-]. by left.
Qed.

Lemma last_write_wins_field field (manifests : list JSON) :
  last_write_wins ((λ j, fieldMap j field) <$> manifests)
    (foldl (λ a j, fieldMap j field ∪ a) ∅ manifests).
Proof.
  pose proof (last_write_wins_foldl ((λ j, fieldMap j field) <$> manifests)) as H.
  by rewrite foldl_fmap in H.
Qed.

(** The manifest [createPackageJson] returns. *)
Lemma createPackageJson_run T projectName t ts base js w :
  Forall2 (λ template j, manifest_at (files w) (resolve T [template]) j)
    (t :: ts) (base :: js) →
  createPackageJson T projectName (t :: ts) w =
  Ok (<["devDependencies" :=
          JObj (foldl (λ a j, fieldMap j "devDependencies" ∪ a) ∅ (base :: js))]>
      (<["dependencies" :=
          JObj (foldl (λ a j, fieldMap j "dependencies" ∪ a) ∅ (base :: js))]>
       (<["scripts" :=
          JObj (foldl (λ a j, fieldMap j "scripts" ∪ a) ∅ (base :: js))]>
        (<["name" := JStr projectName]> (own_props base)))), w).
Proof.
  intros H. unfold createPackageJson.
  erewrite bind_run; [|by apply mergeManifests_run, Forall2_fmap_l].
  apply Forall2_cons_1 in H as [[Hbase Hfile] _].
  cbn [fmap list_fmap]. unfold fse.readJSONSync, resolve in *.
  erewrite bind_run;
    [|apply reading_Ok; split; [|done]; unfold readJSON; by rewrite Hfile].
  done.
Qed.

(** ** The properties of the specification *)

(** C1. Merging the manifests of a list of templates walks the templates in
    their order and gathers scripts, dependencies and devDependencies in
    three mappings in which the last write of a key wins.  For a template
    [A] with the script [build: x] followed by a template [B] with the
    scripts [build: y] and [test: z], the merged scripts are [build: y] and
    [test: z]. *)
Theorem createPackageJson_last_write_wins :
  (∀ T projectName templates manifests w,
     templates ≠ [] →
     Forall2 (λ template j, manifest_at (files w) (resolve T [template]) j)
       templates manifests →
     ∃ packageJson merged,
       createPackageJson T projectName templates w = Ok (packageJson, w) ∧
       packageJson !! "scripts" = Some (JObj (scripts merged)) ∧
       packageJson !! "dependencies" = Some (JObj (dependencies merged)) ∧
       packageJson !! "devDependencies" = Some (JObj (devDependencies merged)) ∧
       last_write_wins ((λ j, fieldMap j "scripts") <$> manifests)
         (scripts merged) ∧
       last_write_wins ((λ j, fieldMap j "dependencies") <$> manifests)
         (dependencies merged) ∧
       last_write_wins ((λ j, fieldMap j "devDependencies") <$> manifests)
         (devDependencies merged)) ∧
  (∃ packageJson,
     createPackageJson Demo.templates "app" ["A"; "B"]
       (Demo.world Demo.twoTemplates)
     = Ok (packageJson, Demo.world Demo.twoTemplates) ∧
     packageJson !! "scripts" = Some (Demo.strs [("build", "y"); ("test", "z")])).
Proof.
  split.
  - intros T projectName templates manifests w Hne H.
    destruct H as [|t base ts js]; [done|].
    eexists _, {| dependencies := _; devDependencies := _; scripts := _ |}.
    split; [apply createPackageJson_run; by constructor|].
    cbn [scripts dependencies devDependencies].
    split_and!; [by simplify_map_eq..| | |]; apply last_write_wins_field.
  - eexists. split.
    + apply (createPackageJson_run _ _ "A" ["B"]
               (Demo.obj [("scripts", Demo.strs [("build", "x")])])
               [Demo.obj [("scripts", Demo.strs [("build", "y"); ("test", "z")])]]).
      repeat constructor; done.
    + rewrite !lookup_insert_ne, lookup_insert_eq by done.
      vm_compute. reflexivity.
Qed.

Lemma createPackageJson_last_write_wins_witness :
  ∃ packageJson merged,
    createPackageJson Demo.templates "demo" ["base"; "base-ts"]
      (Demo.world Demo.disk) = Ok (packageJson, Demo.world Demo.disk) ∧
    packageJson !! "scripts" = Some (JObj (scripts merged)) ∧
    scripts merged !! "build" = Some (JStr "tsc").
Proof.
  destruct (proj1 createPackageJson_last_write_wins Demo.templates "demo"
              ["base"; "base-ts"] [Demo.basePackage; Demo.tsPackage]
              (Demo.world Demo.disk))
    as (packageJson & merged & Hrun & Hs & _ & _ & Hlast & _).
  - done.
  - repeat constructor; done.
  - exists packageJson, merged. split_and!; [done..|].
    apply Hlast. exists 1, (fieldMap Demo.tsPackage "scripts").
    split_and!; [done..|]. intros [|[|i']] m' Hi' Hm'; [lia..|done].
Defined.

Lemma templateSet_eq (options : ScaffoldOptions) :
  templateSet options =
  ["base"; if typescript options then "base-ts" else "base-js"]
  ++ (if prisma options then ["prisma"] else [])
  ++ (if eslintAndPrettier options then ["eslint-prettier"] else []).
Proof.
  unfold templateSet.
  by destruct (typescript options), (prisma options), (eslintAndPrettier options).
Qed.

(** C3. The template set holds [base] and exactly one of the two language
    variants ([base-ts] when TypeScript is chosen, [base-js] otherwise), the
    database template iff the database layer is asked for, the lint template
    iff linting is asked for, and nothing twice. *)
Theorem templateSet_members (options : ScaffoldOptions) :
  let templates := templateSet options in
  "base" ∈ templates ∧
  ("base-ts" ∈ templates ↔ typescript options = true) ∧
  ("base-js" ∈ templates ↔ typescript options = false) ∧
  ("prisma" ∈ templates ↔ prisma options = true) ∧
  ("eslint-prettier" ∈ templates ↔ eslintAndPrettier options = true) ∧
  NoDup templates.
Proof.
  intros templates. subst templates. rewrite templateSet_eq.
  destruct (typescript options), (prisma options), (eslintAndPrettier options);
    simpl; split_and!; try (by apply (bool_decide_unpack _));
    (split; intros H;
     first [done | by apply (bool_decide_unpack _)
           | exfalso; revert H; by apply (bool_decide_unpack _)]).
Qed.

Lemma templateSet_members_witness :
  "base-ts" ∈ templateSet (Demo.everything Demo.cwd) ∧
  "base-js" ∉ templateSet (Demo.everything Demo.cwd).
Proof.
  destruct (templateSet_members (Demo.everything Demo.cwd))
    as (_ & Hts & Hjs & _).
  split; [by apply Hts | by intros ?%Hjs].
Defined.

(** C6, as amended. With the skip-prompts flag the answers are the fixed
    defaults: the name is the one given, or [my-app]; the database layer,
    TypeScript, the help command, the dashboard and linting are on; the
    database type is MongoDB and the URI is built from the name; git and
    install are on iff the skip-git and the skip-install flag are absent. *)
Theorem getAnswers_yes prompt (options : CreateAppOptions.t) :
  truthy (CreateAppOptions.yes (CreateAppOptions.flags options)) = true →
  let a := getAnswers prompt options in
  name a = default "my-app" (CreateAppOptions.name options) ∧
  (gitRepo a = true ↔
     CreateAppOptions.noGit (CreateAppOptions.flags options) = None) ∧
  (install a = true ↔
     CreateAppOptions.noInstall (CreateAppOptions.flags options) = None) ∧
  prisma a = true ∧ typescript a = true ∧ helpCommand a = true ∧
  dashboard a = true ∧ eslintAndPrettier a = true ∧
  databaseType a = Some MongoDB ∧
  databaseUri a = Some ("mongodb://localhost:27017/" +:+ name a).
Proof.
  intros Hyes a. subst a. unfold getAnswers. rewrite Hyes.
  cbn [name gitRepo install prisma typescript helpCommand dashboard
       eslintAndPrettier databaseType databaseUri].
  split_and!; try reflexivity.
  - by destruct (CreateAppOptions.noGit _).
  - by destruct (CreateAppOptions.noInstall _).
Qed.

Lemma getAnswers_yes_witness :
  name (getAnswers Demo.interactive Demo.yesOnly) = "my-app" ∧
  gitRepo (getAnswers Demo.interactive Demo.yesOnly) = true ∧
  databaseUri (getAnswers Demo.interactive Demo.yesOnly)
  = Some "mongodb://localhost:27017/my-app".
Proof.
  destruct (getAnswers_yes Demo.interactive Demo.yesOnly)
    as (Hname & Hgit & _ & _ & _ & _ & _ & _ & _ & Huri); [reflexivity|].
  split_and!; [done | by apply Hgit | done].
Defined.

(** Against C6 as it was stated (all boolean answers true): with the
    skip-prompts and the skip-git flags, the git answer is false. *)
Lemma getAnswers_yes_noGit :
  truthy (CreateAppOptions.yes (CreateAppOptions.flags Demo.yesNoGit)) = true ∧
  gitRepo (getAnswers Demo.interactive Demo.yesNoGit) = false.
Proof. split; reflexivity. Qed.

(** C7. The package manager is a function of the user agent alone; it is
    one of npm, yarn and pnpm, and it is npm when the user agent is absent
    or mentions neither yarn nor pnpm. *)
Theorem getUserPackageManager_fallback (userAgent : option string) :
  let manager := getUserPackageManager userAgent in
  (manager = npm ∨ manager = yarn ∨ manager = pnpm) ∧
  (userAgent = None → manager = npm) ∧
  (∀ s, userAgent = Some s →
     (¬ contains s "yarn" → ¬ contains s "pnpm" → manager = npm) ∧
     (manager = yarn ↔ contains s "yarn") ∧
     (manager = pnpm ↔ ¬ contains s "yarn" ∧ contains s "pnpm")).
Proof.
  intros manager. subst manager. split_and!.
  - destruct (getUserPackageManager userAgent); auto.
  - by intros ->.
  - intros s ->. unfold getUserPackageManager, contains.
    rewrite <- !includes_spec.
    destruct (includes s "yarn"), (includes s "pnpm"); intuition congruence.
Qed.

Lemma getUserPackageManager_fallback_witness :
  getUserPackageManager None = npm ∧
  getUserPackageManager (Some "bun/1.1.0 npm/? node/v20.0.0") = npm ∧
  getUserPackageManager (Some "pnpm/8.6.0 npm/? node/v20.0.0") = pnpm.
Proof.
  split_and!.
  - by destruct (getUserPackageManager_fallback None) as (_ & H & _); apply H.
  - destruct (getUserPackageManager_fallback
                (Some "bun/1.1.0 npm/? node/v20.0.0")) as (_ & _ & H).
    destruct (H _ eq_refl) as (Hnpm & _).
    apply Hnpm; by intros ?%includes_spec.
  - destruct (getUserPackageManager_fallback
                (Some "pnpm/8.6.0 npm/? node/v20.0.0")) as (_ & _ & H).
    destruct (H _ eq_refl) as (_ & _ & Hpnpm).
    apply Hpnpm. split; [by intros ?%includes_spec | by apply includes_spec].
Defined.

(** ** Scaffolding, step by step *)

Section Steps.

Context (T pd : path) (m : gmap path node).
Hypothesis Hapart : apart pd T.

Lemma installation_stable (view m' : gmap path node) (x : path) :
  scaffolding pd m view m' → m' !! (T ++ x) = m !! (T ++ x).
Proof.
  intros [Hout _]. apply Hout. destruct Hapart. by apply prefix_of_under.
Qed.

Lemma template_stable (view m' : gmap path node) (t : string) :
  scaffolding pd m view m' → subtree (resolve T [t]) m' = template T m t.
Proof.
  intros H. apply subtree_agree. intros r. unfold resolve.
  rewrite <- !app_assoc. by eapply installation_stable.
Qed.

Lemma scaffolding_lookup (view m' : gmap path node) (r : path) :
  scaffolding pd m view m' → m' !! (pd ++ r) = view !! r.
Proof. intros [_ <-]. by rewrite lookup_subtree. Qed.

(** Copying a template into the target lays its tree over what is there. *)
Lemma copy_template (view m' : gmap path node) (t : string) :
  scaffolding pd m view m' →
  is_dir (m !! resolve T [t]) → is_dir (view !! []) →
  fits [] (template T m t) view →
  ∃ m'', copy (resolve T [t]) pd m' = Ok m'' ∧
         scaffolding pd m (template T m t ∪ view) m''.
Proof.
  intros Hs Ht Hroot Hfits.
  exists (graft pd (template T m t) m'). split.
  - unfold copy. unfold resolve in *.
    rewrite (installation_stable view) by done.
    apply is_dir_Some in Ht as ->.
    destruct (decide (T ++ [t] `prefix_of` pd)) as [Hp|_].
    { destruct Hapart as [_ []]. by eapply prefix_app_l. }
    pose proof (template_stable view m' t Hs) as Ht'. unfold resolve in Ht'.
    rewrite Ht'.
    destruct (decide (fits pd (template T m t) m')) as [_|Hn].
    + apply is_dir_Some in Hroot.
      rewrite <- (scaffolding_lookup _ m') in Hroot by done.
      rewrite app_nil_r in Hroot. by rewrite Hroot.
    + destruct Hn. apply fits_view. by destruct Hs as [_ ->].
  - destruct Hs as [Hout Hview]. split.
    + intros p Hp. rewrite lookup_graft_outside by done. by apply Hout.
    + by rewrite subtree_graft, Hview.
Qed.

(** Writing a node below the target. *)
Lemma put_under (view m' : gmap path node) (r : path) (n : node) :
  scaffolding pd m view m' → r ≠ [] → is_dir (view !! parent r) →
  put (pd ++ r) n m' = Ok (<[pd ++ r := n]> m') ∧
  scaffolding pd m (<[r := n]> view) (<[pd ++ r := n]> m').
Proof.
  intros Hs Hr Hparent. split.
  - unfold put. rewrite parent_under by done.
    rewrite (scaffolding_lookup view) by done.
    by apply is_dir_Some in Hparent as ->.
  - destruct Hs as [Hout Hview]. split.
    + intros p Hp. rewrite lookup_insert_ne; [by apply Hout|].
      intros <-. destruct Hp. by apply prefix_app_r.
    + by rewrite subtree_insert_under, Hview.
Qed.

End Steps.

(** The file system is as [copy_template] needs it when [copySync] runs. *)
Lemma copySync_run T pd m view w t :
  apart pd T → scaffolding pd m view (files w) →
  is_dir (m !! resolve T [t]) → is_dir (view !! []) →
  fits [] (template T m t) view →
  ∃ m'', fse.copySync (resolve T [t]) pd w = Ok (tt, set_files w m'') ∧
         scaffolding pd m (template T m t ∪ view) m''.
Proof.
  intros Hapart Hs Ht Hroot Hfits.
  destruct (copy_template T pd m Hapart view (files w) t) as (m'' & Hc & Hs');
    [done..|].
  exists m''. split; [|done]. unfold fse.copySync, writing. by rewrite Hc.
Qed.

(** Entering a free target: the directory is made when it is absent, and
    the rest of [scaffoldProject] runs on an empty directory. *)
Lemma scaffoldProject_enter T (options : ScaffoldOptions) w :
  tree_shaped (files w) → vacant (projectDirectory options) (files w) →
  ∃ m1,
    scaffolding (projectDirectory options) (files w) {[ [] := Dir ]} m1 ∧
    scaffoldProject T options w =
    scaffoldInto T options (templateSet options)
      {| files := m1;
         console := console w ++ [usingLine options];
         spawned := spawned w |}.
Proof.
  intros Hshape Hvacant. unfold scaffoldProject.
  erewrite bind_run by reflexivity.
  erewrite bind_run by (apply reading_Ok; split; reflexivity).
  cbn [files].
  destruct Hvacant as [[Habsent Hparent]|[Hdir Hempty]].
  - exists (<[projectDirectory options := Dir]> (files w)).
    rewrite Habsent.
    apply bool_decide_eq_false in Habsent.
    rewrite <- eq_None_not_Some in Habsent.
    split.
    + split; [|by apply new_directory_view].
      intros p Hp. apply lookup_insert_ne. by intros <-.
    + erewrite (bind_run _ _ _ tt); [done|].
      apply writing_Ok. eexists. split; [|done].
      unfold mkdir, put. cbn [files]. rewrite Habsent.
      by apply is_dir_Some in Hparent as ->.
  - exists (files w). apply is_dir_Some in Hdir. split.
    + split; [done | by apply empty_directory_view].
    + unfold exists_. rewrite bool_decide_eq_true_2 by (by rewrite Hdir).
      erewrite bind_run;
        [|apply reading_Ok; split; [|done]; unfold readdir;
          cbn [files]; by rewrite Hdir, Hempty].
      done.
Qed.

(** ** What an intact installation gives *)

Lemma copied_base (options : ScaffoldOptions) : "base" ∈ copied options.
Proof. unfold copied. destruct (gitRepo options); simpl; set_solver. Qed.

Lemma copied_variant (options : ScaffoldOptions) : variant options ∈ copied options.
Proof. unfold copied. destruct (gitRepo options); simpl; set_solver. Qed.

Lemma copied_git (options : ScaffoldOptions) : gitRepo options = true → "git" ∈ copied options.
Proof. intros H. unfold copied. rewrite H. simpl. set_solver. Qed.

Lemma copied_eslint (options : ScaffoldOptions) : eslintAndPrettier options = true → "eslint-prettier" ∈ copied options.
Proof. intros H. unfold copied. rewrite H. set_solver. Qed.

Section Intact.

Context (T : path) (o : ScaffoldOptions) (m : gmap path node).
Hypothesis Hshape : tree_shaped m.
Hypothesis Hintact : intact T o m.

Lemma intact_dir t : t ∈ copied o → is_dir (m !! resolve T [t]).
Proof.
  destruct Hintact as (H & _). rewrite Forall_forall in H. apply H.
Qed.

Lemma template_root t : t ∈ copied o → template T m t !! [] = Some Dir.
Proof.
  intros Ht. unfold template. rewrite lookup_subtree, app_nil_r.
  by apply is_dir_Some, intact_dir.
Qed.

Lemma intact_fits t t' :
  t ∈ copied o → t' ∈ copied o → fits [] (template T m t) (template T m t').
Proof.
  intros Ht Ht'. destruct Hintact as (_ & H & _).
  rewrite Forall_forall in H. specialize (H t Ht).
  rewrite Forall_forall in H. by apply H.
Qed.

Lemma intact_no_package_dir t :
  t ∈ copied o → ¬ is_dir (template T m t !! ["package.json"]).
Proof.
  intros Ht. destruct Hintact as (_ & _ & H & _).
  rewrite Forall_forall in H. specialize (H t Ht).
  unfold template, resolve in *. by rewrite lookup_subtree, <- app_assoc.
Qed.

Lemma intact_no_prisma t r :
  prisma o = true → t ∈ copied o → template T m t !! ("prisma" :: r) = None.
Proof.
  intros Hp Ht. destruct Hintact as (_ & _ & _ & H & _).
  rewrite Hp in H. destruct (H I) as [H' _].
  rewrite Forall_forall in H'. specialize (H' t Ht).
  apply bool_decide_eq_false in H'. rewrite <- eq_None_not_Some in H'.
  unfold template, resolve in *. rewrite lookup_subtree.
  replace ((T ++ [t]) ++ "prisma" :: r) with ((T ++ [t; "prisma"]) ++ r)
    by by rewrite <- !app_assoc.
  by apply absent_below.
Qed.

Lemma intact_schema :
  prisma o = true →
  ∃ c, m !! resolve T ["prisma"; schemaFile o] = Some (File c).
Proof.
  intros Hp. destruct Hintact as (_ & _ & _ & H & _).
  rewrite Hp in H. destruct (H I) as [_ H'].
  destruct (m !! resolve T ["prisma"; schemaFile o]) as [[|c]|]; try done.
  by exists c.
Qed.

Lemma intact_manifests :
  ∃ base js,
    Forall2 (λ template j, manifest_at m (resolve T [template]) j)
      (templateSet o) (base :: js).
Proof.
  destruct Hintact as (_ & _ & _ & _ & H).
  assert (∃ js, Forall2 (λ template j, manifest_at m (resolve T [template]) j)
                  (templateSet o) js) as [js Hjs].
  { induction H as [|t ts Ht _ [js IH]]; [by exists []|].
    unfold resolve in *.
    destruct (m !! (T ++ [t; "package.json"])) as [[|[|j]]|] eqn:E; try done.
    exists (j :: js). constructor; [|done]. split.
    - intros ->. done.
    - by rewrite <- app_assoc. }
  rewrite templateSet_eq in Hjs. rewrite templateSet_eq.
  inversion Hjs; subst. eauto.
Qed.

(** Trees made of the copied templates. *)

Lemma from_templates_root : from_templates T o m {[ [] := Dir ]}.
Proof.
  split; [done|]. intros r n [<- <-]%lookup_singleton_Some. by left.
Qed.

Lemma from_templates_union view t :
  from_templates T o m view → t ∈ copied o →
  from_templates T o m (template T m t ∪ view).
Proof.
  intros [Hroot Hview] Ht. split.
  - apply lookup_union_Some_raw. left. by apply template_root.
  - intros r n [Hn|[_ Hn]]%lookup_union_Some_raw; [right; eauto | eauto].
Qed.

Lemma from_templates_fits view t :
  from_templates T o m view → t ∈ copied o → fits [] (template T m t) view.
Proof.
  intros [_ Hview] Ht. apply fits_lookup. intros r a b Ha Hb.
  destruct (Hview r b Hb) as [[-> ->]|(t' & Ht' & Hb')].
  - rewrite template_root in Ha by done. by injection Ha as <-.
  - pose proof (intact_fits t t' Ht Ht') as Hf.
    rewrite fits_lookup in Hf. eauto.
Qed.

Lemma from_templates_no_prisma view r :
  from_templates T o m view → prisma o = true → view !! ("prisma" :: r) = None.
Proof.
  intros [_ Hview] Hp. destruct (view !! ("prisma" :: r)) as [n|] eqn:E; [|done].
  destruct (Hview _ n E) as [[? _]|(t & Ht & Hn)]; [done|].
  by rewrite intact_no_prisma in Hn.
Qed.

Lemma from_templates_no_package_dir view :
  from_templates T o m view → ¬ is_dir (view !! ["package.json"]).
Proof.
  intros [_ Hview] Hd. apply is_dir_Some in Hd.
  destruct (Hview _ _ Hd) as [[? _]|(t & Ht & Hn)]; [done|].
  apply (intact_no_package_dir t Ht). by rewrite Hn.
Qed.

End Intact.

(** ** The blocks of [scaffoldProject] on an intact installation *)

Lemma from_templates_dir (T : path) (o : ScaffoldOptions) (m view : gmap path node) :
  from_templates T o m view → is_dir (view !! []).
Proof. by intros [-> _]. Qed.

Section Run.

Context (T : path) (o : ScaffoldOptions) (m : gmap path node).
Hypothesis Hshape : tree_shaped m.
Hypothesis Hapart : apart (projectDirectory o) T.
Hypothesis Hintact : intact T o m.

Lemma git_run view w :
  scaffolding (projectDirectory o) m view (files w) →
  from_templates T o m view →
  ∃ m',
    initializeGitRepository T o w =
    Ok (tt, {| files := m'; console := console w;
               spawned := spawned w ++
                 (if gitRepo o then [gitInitCommand o] else []) |}) ∧
    scaffolding (projectDirectory o) m
      (if gitRepo o then template T m "git" ∪ view else view) m' ∧
    from_templates T o m
      (if gitRepo o then template T m "git" ∪ view else view).
Proof.
  intros Hs Hv. unfold initializeGitRepository.
  destruct (gitRepo o) eqn:Hgit; unfold when.
  - pose proof (copied_git o Hgit) as Hin.
    erewrite (bind_run _ _ _ tt) by reflexivity.
    edestruct (copySync_run T (projectDirectory o) m view
                 {| files := files w; console := console w;
                    spawned := spawned w ++ [gitInitCommand o] |} "git")
      as (m' & Hrun & Hs'); [done|done|by apply (intact_dir T o m Hintact)|by eapply from_templates_dir
                             |by apply (from_templates_fits T o m Hintact)|].
    exists m'. split_and!; [done|done|by apply from_templates_union].
  - exists (files w). destruct w. by rewrite app_nil_r.
Qed.

Lemma base_run view w :
  scaffolding (projectDirectory o) m view (files w) →
  from_templates T o m view →
  ∃ m',
    copyBaseFiles T o w = Ok (tt, set_files w m') ∧
    scaffolding (projectDirectory o) m
      (template T m (variant o) ∪ (template T m "base" ∪ view)) m' ∧
    from_templates T o m
      (template T m (variant o) ∪ (template T m "base" ∪ view)).
Proof.
  intros Hs Hv. unfold copyBaseFiles.
  destruct (copySync_run T (projectDirectory o) m view w "base")
    as (m1 & Hrun1 & Hs1); [done|done|by apply (intact_dir T o m Hintact), copied_base|by eapply from_templates_dir
                           |by apply (from_templates_fits T o m Hintact), copied_base|].
  pose proof (from_templates_union T o m Hintact view "base" Hv (copied_base o)) as Hv1.
  erewrite (bind_run _ _ _ tt) by done.
  destruct (copySync_run T (projectDirectory o) m _ (set_files w m1) (variant o)
              Hapart Hs1)
    as (m2 & Hrun2 & Hs2); [by apply (intact_dir T o m Hintact), copied_variant|by eapply from_templates_dir
                           |by apply (from_templates_fits T o m Hintact), copied_variant|].
  exists m2. split_and!; [done|done|by apply from_templates_union, copied_variant].
Qed.

Lemma prisma_run view w :
  scaffolding (projectDirectory o) m view (files w) →
  from_templates T o m view →
  ∃ m',
    copyPrismaFiles T o w = Ok (tt, set_files w m') ∧
    scaffolding (projectDirectory o) m (prismaLayer T o m view) m'.
Proof.
  intros Hs Hv. unfold copyPrismaFiles, prismaLayer.
  destruct (prisma o) eqn:Hprisma; unfold when.
  - destruct (intact_schema T o m Hintact Hprisma) as [c Hc]. rewrite Hc.
    destruct (put_under (projectDirectory o) m view (files w) ["prisma"] Dir)
      as [Hput1 Hs1]; [done|done|by eapply from_templates_dir|].
    destruct (put_under (projectDirectory o) m _ _ ["prisma"; "schema.prisma"]
                (File c) Hs1) as [Hput2 Hs2]; [done|by rewrite lookup_insert_eq|].
    eexists. split; [|exact Hs2].
    assert (fse.mkdirSync (resolve (projectDirectory o) ["prisma"]) w
            = Ok (tt, set_files w (<[projectDirectory o ++ ["prisma"] := Dir]> (files w))))
      as Hmkdir.
    { apply writing_Ok. eexists. split; [|done]. unfold mkdir, resolve.
      rewrite (scaffolding_lookup _ m _ _ _ Hs).
      rewrite (from_templates_no_prisma T o m Hshape Hintact view) by done.
      exact Hput1. }
    rewrite (bind_run _ _ _ _ _ Hmkdir).
    apply writing_Ok. eexists. split; [|done]. cbn [files set_files].
    unfold copyFile, resolve.
    rewrite (installation_stable T _ m Hapart _ _ _ Hs1). unfold resolve in Hc.
    rewrite Hc.
    rewrite (scaffolding_lookup _ m _ _ _ Hs1), lookup_insert_ne by done.
    rewrite (from_templates_no_prisma T o m Hshape Hintact view) by done.
    exact Hput2.
  - exists (files w). split; [by destruct w | done].
Qed.

Lemma prismaLayer_other view r :
  (∀ r', r ≠ "prisma" :: r') → prismaLayer T o m view !! r = view !! r.
Proof.
  intros Hr. unfold prismaLayer. destruct (prisma o); [|done].
  destruct (m !! resolve T ["prisma"; schemaFile o]); [|done].
  by rewrite !lookup_insert_ne by (by intros <-; eapply Hr).
Qed.

Lemma fits_prismaLayer view t :
  from_templates T o m view → t ∈ copied o →
  fits [] (template T m t) (prismaLayer T o m view).
Proof.
  intros Hv Ht. unfold prismaLayer.
  destruct (prisma o) eqn:Hprisma; [|by apply (from_templates_fits T o m Hintact)].
  destruct (m !! resolve T ["prisma"; schemaFile o]);
    [|by apply (from_templates_fits T o m Hintact)].
  apply fits_insert; [|apply fits_insert; [|by apply (from_templates_fits T o m Hintact)]];
    intros a Ha; by rewrite (intact_no_prisma T o m Hshape Hintact) in Ha.
Qed.

Lemma eslint_run view w :
  scaffolding (projectDirectory o) m (prismaLayer T o m view) (files w) →
  from_templates T o m view →
  ∃ m',
    copyEslintAndPrettierFiles T o w = Ok (tt, set_files w m') ∧
    scaffolding (projectDirectory o) m
      (if eslintAndPrettier o
       then template T m "eslint-prettier" ∪ prismaLayer T o m view
       else prismaLayer T o m view) m'.
Proof.
  intros Hs Hv. unfold copyEslintAndPrettierFiles.
  destruct (eslintAndPrettier o) eqn:Heslint; unfold when.
  - pose proof (copied_eslint o Heslint) as Hin.
    destruct (copySync_run T (projectDirectory o) m _ w "eslint-prettier"
                Hapart Hs) as (m' & Hrun & Hs');
      [by apply (intact_dir T o m Hintact)
      |rewrite prismaLayer_other by done; by eapply from_templates_dir
      |by apply fits_prismaLayer|].
    by exists m'.
  - exists (files w). split; [by destruct w | done].
Qed.

Lemma merge_run view w packageJson :
  scaffolding (projectDirectory o) m view (files w) →
  is_dir (view !! []) → ¬ is_dir (view !! ["package.json"]) →
  createPackageJson T (name o) (templateSet o) w = Ok (packageJson, w) →
  ∃ m',
    mergePackageJsonFiles T o (templateSet o) w = Ok (tt, set_files w m') ∧
    scaffolding (projectDirectory o) m
      (<[["package.json"] := File (Json (JObj packageJson))]> view) m'.
Proof.
  intros Hs Hroot Hpkg Hcreate. unfold mergePackageJsonFiles.
  erewrite bind_run by done.
  destruct (put_under (projectDirectory o) m view (files w) ["package.json"]
              (File (Json (JObj packageJson))) Hs) as [Hput Hs']; [done|done|].
  eexists. split; [|exact Hs'].
  apply writing_Ok. eexists. split; [|done].
  unfold writeJSON, resolve. rewrite (scaffolding_lookup _ m _ _ _ Hs).
  by destruct (view !! ["package.json"]) as [[|?]|].
Qed.

Lemma install_run w :
  installDependencies o w =
  Ok (tt, {| files := files w; console := console w;
             spawned := spawned w ++
               (if install o then [installCommand o] else []) |}).
Proof.
  unfold installDependencies, when. destruct (install o); [done|].
  destruct w. by rewrite app_nil_r.
Qed.

(** The manifest is read from the installation, which the run leaves alone. *)
Lemma createPackageJson_stable view w' base js :
  Forall2 (λ template j, manifest_at m (resolve T [template]) j)
    (templateSet o) (base :: js) →
  scaffolding (projectDirectory o) m view (files w') →
  Forall2 (λ template j, manifest_at (files w') (resolve T [template]) j)
    (templateSet o) (base :: js).
Proof.
  intros H Hs. eapply Forall2_impl; [exact H|].
  intros t j [Hj Hfile]. split; [done|]. unfold resolve in *.
  rewrite <- app_assoc. rewrite <- app_assoc in Hfile.
  by rewrite (installation_stable T _ m Hapart _ _ _ Hs).
Qed.

End Run.

(** ** A whole run *)

Local Ltac name_world w :=
  lazymatch goal with
  | |- context [@mbind _ _ _ _ _ _ ?w0] => set (w := w0)
  end.

(** On an intact installation, scaffolding into a free target runs to its
    end; the target then holds the layers of [layout], the rest of the file
    system is as it was, one line is written and the two commands are
    spawned when they are asked for. *)
Lemma scaffoldProject_run (T : path) (o : ScaffoldOptions) (w : World) :
  tree_shaped (files w) → apart (projectDirectory o) T →
  vacant (projectDirectory o) (files w) → intact T o (files w) →
  ∃ packageJson m',
    createPackageJson T (name o) (templateSet o) w = Ok (packageJson, w) ∧
    scaffoldProject T o w =
    Ok (tt, {| files := m';
               console := console w ++ [usingLine o];
               spawned := spawned w
                 ++ (if gitRepo o then [gitInitCommand o] else [])
                 ++ (if install o then [installCommand o] else []) |}) ∧
    scaffolding (projectDirectory o) (files w)
      (layout T o (files w) packageJson) m'.
Proof.
  intros Hshape Hapart Hvacant Hintact.
  destruct (intact_manifests T o _ Hintact) as (base & js & Hman).
  assert (∃ ts, templateSet o = "base" :: ts) as [ts Hts]
    by (rewrite templateSet_eq; eauto).
  assert (∀ w', files w' = files w ∨
                (∃ view, scaffolding (projectDirectory o) (files w) view (files w')) →
                ∃ packageJson,
                  createPackageJson T (name o) (templateSet o) w'
                  = Ok (packageJson, w') ∧
                  createPackageJson T (name o) (templateSet o) w
                  = Ok (packageJson, w)) as Hcreate.
  { intros w' Hw'. eexists. rewrite Hts in *. split.
    - apply createPackageJson_run. destruct Hw' as [->|[view Hview]]; [done|].
      rewrite <- Hts in *. by eapply createPackageJson_stable.
    - by apply createPackageJson_run. }
  destruct (scaffoldProject_enter T o w Hshape Hvacant) as (m1 & Hs1 & ->).
  unfold scaffoldInto.
  name_world w1.
  destruct (git_run T o (files w) Hapart Hintact {[ [] := Dir ]} w1)
    as (m2 & Hrun2 & Hs2 & Hv2); [exact Hs1 | apply from_templates_root |].
  rewrite (bind_run _ _ _ _ _ Hrun2). clear Hrun2.
  subst w1. cbn [files console spawned]. name_world w2.
  destruct (base_run T o (files w) Hapart Hintact _ w2 Hs2 Hv2)
    as (m3 & Hrun3 & Hs3 & Hv3).
  rewrite (bind_run _ _ _ _ _ Hrun3). clear Hrun3. name_world w3.
  destruct (prisma_run T o (files w) Hshape Hapart Hintact _ w3 Hs3 Hv3)
    as (m4 & Hrun4 & Hs4).
  rewrite (bind_run _ _ _ _ _ Hrun4). clear Hrun4. name_world w4.
  destruct (eslint_run T o (files w) Hshape Hapart Hintact _ w4 Hs4 Hv3)
    as (m5 & Hrun5 & Hs5).
  rewrite (bind_run _ _ _ _ _ Hrun5). clear Hrun5. name_world w5.
  destruct (Hcreate w5) as (packageJson & Hcreate5 & Hcreate0);
    [right; eexists; exact Hs5|].
  destruct (merge_run T o (files w) _ w5 packageJson Hs5)
    as (m6 & Hrun6 & Hs6); [ | | exact Hcreate5 |].
  { destruct (eslintAndPrettier o) eqn:Heslint.
    - apply is_dir_Some, lookup_union_Some_raw. left.
      by apply (template_root T o _ Hintact), copied_eslint.
    - rewrite prismaLayer_other by done. by eapply from_templates_dir. }
  { intros Hdir.
    assert (¬ is_dir (prismaLayer T o (files w)
                        (template T (files w) (variant o)
                         ∪ (template T (files w) "base"
                            ∪ (if gitRepo o
                               then template T (files w) "git" ∪ {[[] := Dir]}
                               else {[[] := Dir]}))) !! ["package.json"])) as Hn.
    { rewrite prismaLayer_other by done.
      by eapply from_templates_no_package_dir. }
    destruct (eslintAndPrettier o) eqn:Heslint; [|done].
    apply is_dir_Some, lookup_union_Some_raw in Hdir as [Hdir|[_ Hdir]].
    - apply (intact_no_package_dir T o _ Hintact "eslint-prettier");
        [by apply copied_eslint | by rewrite Hdir].
    - apply Hn. by rewrite Hdir. }
  rewrite (bind_run _ _ _ _ _ Hrun6). clear Hrun6.
  rewrite install_run. subst w5 w4 w3 w2.
  cbn [files console spawned set_files].
  exists packageJson, m6. split_and!; [exact Hcreate0| |exact Hs6].
  by rewrite <- app_assoc.
Qed.


(** An occupied target: two lines are written, nothing else happens. *)
Lemma scaffoldProject_occupied (T : path) (o : ScaffoldOptions) (w : World) :
  occupied (projectDirectory o) (files w) →
  scaffoldProject T o w =
  Ok (tt, {| files := files w;
             console := console w ++ [usingLine o; notEmptyLine o];
             spawned := spawned w |}).
Proof.
  intros [Hdir [entry Hentry]]. apply is_dir_Some in Hdir.
  unfold scaffoldProject.
  erewrite bind_run by reflexivity.
  erewrite bind_run by (apply reading_Ok; split; reflexivity).
  cbn [files]. unfold exists_.
  rewrite bool_decide_eq_true_2 by (by rewrite Hdir).
  erewrite bind_run;
    [|apply reading_Ok; split; [|done]; unfold readdir; cbn [files];
      by rewrite Hdir].
  apply elem_of_children in Hentry.
  destruct (children (projectDirectory o) (files w)) as [|c l];
    [by apply elem_of_nil in Hentry|].
  unfold console_log. cbn [files console spawned Nat.ltb Nat.leb length].
  by rewrite <- app_assoc.
Qed.

(** C2. When the target directory exists and has an entry, scaffolding
    writes the message to the console, returns normally and leaves the file
    system as it was. *)
Theorem scaffoldProject_occupied_no_write
    (T : path) (o : ScaffoldOptions) (w : World) :
  occupied (projectDirectory o) (files w) →
  ∃ w', scaffoldProject T o w = Ok (tt, w') ∧
        files w' = files w ∧
        console w' = console w ++ [usingLine o; notEmptyLine o].
Proof.
  intros H. eexists. split; [by apply scaffoldProject_occupied|done].
Qed.

Lemma scaffoldProject_occupied_no_write_witness :
  ∃ w', scaffoldProject Demo.templates (Demo.everything (Demo.cwd ++ ["demo"]))
          (Demo.world Demo.occupiedTarget) = Ok (tt, w') ∧
        files w' = Demo.occupiedTarget ∧
        console w' =
          ["Using pnpm to scaffold the project";
           "The directory /home/dev/demo is not empty. Please try again."].
Proof.
  apply (scaffoldProject_occupied_no_write Demo.templates
           (Demo.everything (Demo.cwd ++ ["demo"]))
           (Demo.world Demo.occupiedTarget)).
  split; [vm_compute; exact I|].
  exists "notes.txt". vm_compute. eexists. reflexivity.
Defined.

(** C9. When the target directory exists and has an entry, no command is
    spawned, whatever the answers about git and install are. *)
Theorem scaffoldProject_occupied_no_spawn
    (T : path) (o : ScaffoldOptions) (w : World) :
  occupied (projectDirectory o) (files w) →
  ∃ w', scaffoldProject T o w = Ok (tt, w') ∧ spawned w' = spawned w.
Proof.
  intros H. eexists. split; [by apply scaffoldProject_occupied|done].
Qed.

Lemma scaffoldProject_occupied_no_spawn_witness :
  gitRepo (Demo.everything (Demo.cwd ++ ["demo"])) = true ∧
  install (Demo.everything (Demo.cwd ++ ["demo"])) = true ∧
  ∃ w', scaffoldProject Demo.templates (Demo.everything (Demo.cwd ++ ["demo"]))
          (Demo.world Demo.occupiedTarget) = Ok (tt, w') ∧
        spawned w' = [].
Proof.
  split_and!; [reflexivity..|].
  apply (scaffoldProject_occupied_no_spawn Demo.templates
           (Demo.everything (Demo.cwd ++ ["demo"]))
           (Demo.world Demo.occupiedTarget)).
  split; [vm_compute; exact I|].
  exists "notes.txt". vm_compute. eexists. reflexivity.
Defined.





(** The tree under the database files is made of copied templates. *)
Lemma from_templates_base (T : path) (o : ScaffoldOptions) (m : gmap path node) :
  intact T o m →
  from_templates T o m
    (template T m (variant o)
     ∪ (template T m "base"
        ∪ (if gitRepo o then template T m "git" ∪ {[ [] := Dir ]}
           else {[ [] := Dir ]}))).
Proof.
  intros Hintact.
  apply from_templates_union; [done| |apply copied_variant].
  apply from_templates_union; [done| |apply copied_base].
  destruct (gitRepo o) eqn:Hgit; [|apply from_templates_root].
  apply from_templates_union; [done|apply from_templates_root|by apply copied_git].
Qed.

(** What the target holds under [prisma]. *)
Lemma layout_prisma (T : path) (o : ScaffoldOptions) (m : gmap path node)
    (packageJson : gmap string JSON) (schema : node) (r : path) :
  tree_shaped m → intact T o m → prisma o = true →
  m !! resolve T ["prisma"; schemaFile o] = Some schema →
  layout T o m packageJson !! ("prisma" :: r) =
  if decide (r = ["schema.prisma"]) then Some schema
  else if decide (r = []) then Some Dir else None.
Proof.
  intros Hshape Hintact Hprisma Hschema. unfold layout.
  rewrite lookup_insert_ne by done.
  assert ((if eslintAndPrettier o
           then template T m "eslint-prettier" ∪
                prismaLayer T o m
                  (template T m (variant o)
                   ∪ (template T m "base"
                      ∪ (if gitRepo o then template T m "git" ∪ {[ [] := Dir ]}
                         else {[ [] := Dir ]})))
           else prismaLayer T o m
                  (template T m (variant o)
                   ∪ (template T m "base"
                      ∪ (if gitRepo o then template T m "git" ∪ {[ [] := Dir ]}
                         else {[ [] := Dir ]})))) !! ("prisma" :: r)
          = prismaLayer T o m
              (template T m (variant o)
               ∪ (template T m "base"
                  ∪ (if gitRepo o then template T m "git" ∪ {[ [] := Dir ]}
                     else {[ [] := Dir ]}))) !! ("prisma" :: r)) as ->.
  { destruct (eslintAndPrettier o) eqn:Heslint; [|done].
    apply lookup_union_r.
    by apply (intact_no_prisma T o m Hshape Hintact), copied_eslint. }
  unfold prismaLayer. rewrite Hprisma, Hschema.
  destruct (decide (r = ["schema.prisma"])) as [->|Hr1].
  { by rewrite lookup_insert_eq. }
  rewrite lookup_insert_ne by congruence.
  destruct (decide (r = [])) as [->|Hr2].
  { by rewrite lookup_insert_eq. }
  rewrite lookup_insert_ne by congruence.
  apply (from_templates_no_prisma T o m Hshape Hintact); [|done].
  by apply from_templates_base.
Qed.

(** C5. When the database layer is asked for, scaffolding makes the
    directory [prisma] in the target and copies one schema file into it, as
    [prisma/schema.prisma]: the file of the templates named after the
    lower-cased database type ([postgresql.prisma] for PostgreSQL), or
    [mongodb.prisma] when no database type is given. *)
Theorem scaffoldProject_prisma (T : path) (o : ScaffoldOptions) (w : World) :
  tree_shaped (files w) → apart (projectDirectory o) T →
  intact T o (files w) → vacant (projectDirectory o) (files w) →
  prisma o = true →
  (databaseType o = Some PostgreSQL → schemaFile o = "postgresql.prisma") ∧
  (databaseType o = None → schemaFile o = "mongodb.prisma") ∧
  (∀ d, databaseType o = Some d →
        schemaFile o = toLowerCase (DatabaseType_string d) +:+ ".prisma") ∧
  ∃ w' schema,
    scaffoldProject T o w = Ok (tt, w') ∧
    files w !! resolve T ["prisma"; schemaFile o] = Some (File schema) ∧
    files w' !! resolve (projectDirectory o) ["prisma"] = Some Dir ∧
    files w' !! resolve (projectDirectory o) ["prisma"; "schema.prisma"]
    = Some (File schema) ∧
    ∀ r, is_Some (files w' !! resolve (projectDirectory o) ("prisma" :: r)) →
         r = [] ∨ r = ["schema.prisma"].
Proof.
  intros Hshape Hapart Hintact Hvacant Hprisma. split_and!.
  - unfold schemaFile. by intros ->.
  - unfold schemaFile. by intros ->.
  - unfold schemaFile. by intros d ->.
  - destruct (scaffoldProject_run T o w Hshape Hapart Hvacant Hintact)
      as (packageJson & m' & _ & Hrun & Hs).
    destruct (intact_schema T o _ Hintact Hprisma) as [schema Hschema].
    eexists _, schema. split; [exact Hrun|]. split; [exact Hschema|].
    cbn [files]. unfold resolve.
    assert (∀ r, m' !! (projectDirectory o ++ "prisma" :: r) =
                 if decide (r = ["schema.prisma"]) then Some (File schema)
                 else if decide (r = []) then Some Dir else None) as Hlook.
    { intros r. rewrite (scaffolding_lookup _ _ _ _ _ Hs).
      by apply layout_prisma. }
    split_and!.
    + by rewrite Hlook.
    + by rewrite Hlook.
    + intros r [n Hn]. rewrite Hlook in Hn.
      destruct (decide (r = ["schema.prisma"])); [by right|].
      destruct (decide (r = [])); [by left | done].
Qed.

Lemma scaffoldProject_prisma_witness :
  ∃ w',
    scaffoldProject Demo.templates (Demo.everything (Demo.cwd ++ ["demo"]))
      (Demo.world Demo.emptyTarget) = Ok (tt, w') ∧
    files w' !! (Demo.cwd ++ ["demo"; "prisma"; "schema.prisma"])
    = Some (File (Raw "provider = postgresql")).
Proof.
  destruct (scaffoldProject_prisma Demo.templates
              (Demo.everything (Demo.cwd ++ ["demo"]))
              (Demo.world Demo.emptyTarget))
    as (Hpg & _ & _ & w' & schema & Hrun & Hsrc & _ & Hdst & _).
  - apply (bool_decide_unpack _). vm_compute. exact I.
  - apply (bool_decide_unpack _). vm_compute. exact I.
  - apply (bool_decide_unpack _). vm_compute. exact I.
  - right. split; [exact I | vm_compute; reflexivity].
  - reflexivity.
  - exists w'. split; [exact Hrun|].
    rewrite (Hpg eq_refl) in Hsrc. vm_compute in Hsrc.
    injection Hsrc as <-. exact Hdst.
Defined.

(** ** What a run leaves alone *)

Lemma confined_ret (pd : path) : confined pd (mret tt).
Proof. intros w w' [= <-] Hpd. done. Qed.

Lemma confined_exec (pd : path) (command : string) : confined pd (exec command).
Proof. intros w w' [= <-] Hpd. done. Qed.

Lemma confined_seq (pd : path) (c k : IO unit) :
  confined pd c → confined pd k → confined pd (c;; k).
Proof.
  intros Hc Hk w w' (u & w1 & H1 & H2)%bind_Ok Hpd. destruct u.
  destruct (Hc _ _ H1 Hpd) as [Hpd1 Hout1].
  destruct (Hk _ _ H2 Hpd1) as [Hpd2 Hout2].
  split; [done|]. intros p Hp. by rewrite Hout2, Hout1.
Qed.

Lemma confined_when (pd : path) (b : bool) (c : IO unit) :
  confined pd c → confined pd (when b c).
Proof. destruct b; [done | intros _; apply confined_ret]. Qed.

Lemma confined_put (pd r : path) (n : node) (f : gmap path node → result (gmap path node)) :
  (∀ m m', f m = Ok m' → m' = <[pd ++ r := n]> m) →
  confined pd (writing f).
Proof.
  intros Hf w w' (m' & Hm' & ->)%writing_Ok Hpd. apply Hf in Hm' as ->.
  cbn [files set_files]. split.
  - destruct (decide (pd ++ r = pd)) as [->|Hne].
    + by rewrite lookup_insert_eq.
    + by rewrite lookup_insert_ne.
  - intros p Hp. apply lookup_insert_ne. intros <-. destruct Hp.
    by apply prefix_app_r.
Qed.

Lemma put_Ok (p : path) (n : node) (m m' : gmap path node) :
  put p n m = Ok m' → m' = <[p := n]> m.
Proof.
  unfold put. destruct (m !! parent p) as [[|?]|]; [|done..]. by intros [= <-].
Qed.

Lemma confined_mkdirSync (pd r : path) : confined pd (fse.mkdirSync (pd ++ r)).
Proof.
  apply (confined_put pd r Dir). intros m m'. unfold mkdir.
  destruct (m !! (pd ++ r)); [done|]. apply put_Ok.
Qed.

Lemma confined_copyFileSync (pd r src : path) :
  confined pd (fse.copyFileSync src (pd ++ r)).
Proof.
  intros w w' (m' & Hm' & ->)%writing_Ok Hpd.
  unfold copyFile in Hm'.
  destruct (files w !! src) as [[|c]|]; [done| |done].
  assert (m' = <[pd ++ r := File c]> (files w)) as ->.
  { destruct (files w !! (pd ++ r)) as [[|?]|]; [done|..]; by apply put_Ok. }
  cbn [files set_files]. split.
  - destruct (decide (pd ++ r = pd)) as [->|Hne].
    + by rewrite lookup_insert_eq.
    + by rewrite lookup_insert_ne.
  - intros p Hp. apply lookup_insert_ne. intros <-. destruct Hp.
    by apply prefix_app_r.
Qed.

Lemma confined_writeJSONSync (pd r : path) (j : JSON) :
  confined pd (fse.writeJSONSync (pd ++ r) j).
Proof.
  apply (confined_put pd r (File (Json j))). intros m m'. unfold writeJSON.
  destruct (m !! (pd ++ r)) as [[|?]|]; [done|..]; apply put_Ok.
Qed.

Lemma confined_copySync (pd src : path) : confined pd (fse.copySync src pd).
Proof.
  intros w w' (m' & Hm' & ->)%writing_Ok [n Hpd]. cbn [files set_files].
  unfold copy in Hm'. destruct (files w !! src); [|done].
  destruct (decide (src `prefix_of` pd)); [done|].
  destruct (decide (fits pd (subtree src (files w)) (files w))); [|done].
  rewrite Hpd in Hm'. injection Hm' as <-. split.
  - pose proof (lookup_graft_under pd (subtree src (files w)) (files w) [])
      as Hl.
    rewrite app_nil_r in Hl. rewrite Hl, Hpd.
    by destruct (subtree src (files w) !! []).
  - intros p Hp. by apply lookup_graft_outside.
Qed.

Lemma confined_git (T : path) (o : ScaffoldOptions) :
  confined (projectDirectory o) (initializeGitRepository T o).
Proof.
  apply confined_when, confined_seq;
    [apply confined_exec | apply confined_copySync].
Qed.

Lemma confined_base (T : path) (o : ScaffoldOptions) :
  confined (projectDirectory o) (copyBaseFiles T o).
Proof. apply confined_seq; apply confined_copySync. Qed.

Lemma confined_prisma (T : path) (o : ScaffoldOptions) :
  confined (projectDirectory o) (copyPrismaFiles T o).
Proof.
  apply confined_when, confined_seq;
    [apply confined_mkdirSync | apply confined_copyFileSync].
Qed.

Lemma confined_eslint (T : path) (o : ScaffoldOptions) :
  confined (projectDirectory o) (copyEslintAndPrettierFiles T o).
Proof. apply confined_when, confined_copySync. Qed.

Lemma lift_Ok {A} (r : result A) w a w' :
  lift r w = Ok (a, w') ↔ r = Ok a ∧ w' = w.
Proof. unfold lift. apply reading_Ok. Qed.

(** [createPackageJson] reads the manifests of its templates, and nothing
    else. *)
Lemma mergeManifests_agree (directories : list path) (acc merged : Merged)
    (w1 w1' w2 : World) :
  (∀ d, d ∈ directories →
        files w2 !! (d ++ ["package.json"]) = files w1 !! (d ++ ["package.json"])) →
  mergeManifests directories acc w1 = Ok (merged, w1') →
  w1' = w1 ∧ mergeManifests directories acc w2 = Ok (merged, w2).
Proof.
  revert acc. induction directories as [|d ds IH]; intros acc Hagree.
  - by intros [= <- <-].
  - cbn [mergeManifests].
    intros (j & ? & [Hj ->]%reading_Ok & H)%bind_Ok.
    apply bind_Ok in H as (e1 & ? & [He1 ->]%lift_Ok & H).
    apply bind_Ok in H as (e2 & ? & [He2 ->]%lift_Ok & H).
    apply bind_Ok in H as (e3 & ? & [He3 ->]%lift_Ok & H).
    apply IH in H as [-> H]; [|intros d' Hd'; apply Hagree; by right].
    split; [done|].
    erewrite bind_run;
      [|apply reading_Ok; split; [|done]; unfold readJSON, resolve in *;
        rewrite Hagree by left; exact Hj].
    erewrite bind_run by (apply lift_Ok; split; [exact He1|done]).
    erewrite bind_run by (apply lift_Ok; split; [exact He2|done]).
    erewrite bind_run by (apply lift_Ok; split; [exact He3|done]).
    exact H.
Qed.

Lemma createPackageJson_agree (T : path) (projectName : string)
    (templates : list string) (packageJson : gmap string JSON) (w1 w1' w2 : World) :
  (∀ t, t ∈ templates →
        files w2 !! (T ++ [t; "package.json"]) = files w1 !! (T ++ [t; "package.json"])) →
  createPackageJson T projectName templates w1 = Ok (packageJson, w1') →
  w1' = w1 ∧ createPackageJson T projectName templates w2 = Ok (packageJson, w2).
Proof.
  intros Hagree. unfold createPackageJson.
  intros (merged & ? & Hmerge & H)%bind_Ok.
  eapply (mergeManifests_agree _ _ _ w1 _ w2) in Hmerge as [-> Hmerge].
  - rewrite (bind_run _ _ _ _ _ Hmerge).
    destruct templates as [|t ts]; [done|]. cbn [fmap list_fmap] in *.
    apply bind_Ok in H as (j & ? & [Hj ->]%reading_Ok & [= <- <-]).
    split; [done|].
    erewrite bind_run; [done|].
    apply reading_Ok. split; [|done]. unfold readJSON, resolve in *.
    rewrite <- app_assoc in *. simpl in *. rewrite Hagree by left. exact Hj.
  - intros d (t & -> & Ht)%list_elem_of_fmap. unfold resolve.
    rewrite <- !app_assoc. by apply Hagree.
Qed.

(** The manifest that is written, once the target is there. *)
Lemma scaffoldInto_manifest (T : path) (o : ScaffoldOptions) (w w' : World) :
  apart (projectDirectory o) T →
  is_Some (files w !! projectDirectory o) →
  scaffoldInto T o (templateSet o) w = Ok (tt, w') →
  ∃ packageJson w0,
    (∀ p, ¬ projectDirectory o `prefix_of` p → files w0 !! p = files w !! p) ∧
    createPackageJson T (name o) (templateSet o) w0 = Ok (packageJson, w0) ∧
    files w' !! resolve (projectDirectory o) ["package.json"]
    = Some (File (Json (JObj packageJson))).
Proof.
  intros Hapart Hpd. unfold scaffoldInto.
  intros ([] & w1 & H1 & H)%bind_Ok.
  apply bind_Ok in H as ([] & w2 & H2 & H).
  apply bind_Ok in H as ([] & w3 & H3 & H).
  apply bind_Ok in H as ([] & w4 & H4 & H).
  apply bind_Ok in H as ([] & w5 & H5 & H).
  destruct (confined_git T o _ _ H1 Hpd) as [Hpd1 Hout1].
  destruct (confined_base T o _ _ H2 Hpd1) as [Hpd2 Hout2].
  destruct (confined_prisma T o _ _ H3 Hpd2) as [Hpd3 Hout3].
  destruct (confined_eslint T o _ _ H4 Hpd3) as [Hpd4 Hout4].
  unfold mergePackageJsonFiles in H5.
  apply bind_Ok in H5 as (packageJson & w4' & Hcreate & Hwrite).
  pose proof (createPackageJson_agree T _ _ _ w4 w4' w4 (λ _ _, eq_refl) Hcreate)
    as [-> _].
  exists packageJson, w4. split_and!.
  - intros p Hp. by rewrite Hout4, Hout3, Hout2, Hout1.
  - exact Hcreate.
  - apply writing_Ok in Hwrite as (m5 & Hm5 & ->).
    assert (m5 = <[resolve (projectDirectory o) ["package.json"] :=
                     File (Json (JObj packageJson))]> (files w4)) as ->.
    { unfold writeJSON in Hm5.
      destruct (files w4 !! resolve (projectDirectory o) ["package.json"])
        as [[|?]|]; [done|..]; by apply put_Ok. }
    unfold installDependencies, when in H.
    destruct (install o); injection H as <-; cbn [files set_files];
      by rewrite lookup_insert_eq.
Qed.

Lemma templateSet_no_git (o : ScaffoldOptions) : "git" ∉ templateSet o.
Proof.
  rewrite templateSet_eq.
  destruct (typescript o), (prisma o), (eslintAndPrettier o);
    by apply (bool_decide_unpack _).
Qed.

(** C10. The merged manifest is written after all the copies: when
    scaffolding a target that is not occupied returns, the file
    [package.json] of the target holds what the manifest merge returns on
    the templates of the template set; the git template is not one of them,
    and its manifest has no part in the merge. *)
Theorem scaffoldProject_manifest (T : path) (o : ScaffoldOptions) (w w' : World) :
  apart (projectDirectory o) T →
  ¬ occupied (projectDirectory o) (files w) →
  scaffoldProject T o w = Ok (tt, w') →
  ∃ packageJson,
    createPackageJson T (name o) (templateSet o) w = Ok (packageJson, w) ∧
    files w' !! (resolve (projectDirectory o) ["package.json"])
    = Some (File (Json (JObj packageJson))) ∧
    ("git" ∉ templateSet o) ∧
    ∀ n : node,
      createPackageJson T (name o) (templateSet o)
        (set_files w (<[resolve T ["git"; "package.json"] := n]> (files w)))
      = Ok (packageJson,
            set_files w (<[resolve T ["git"; "package.json"] := n]> (files w))).
Proof.
  intros Hapart Hfree Hrun.
  assert (∃ w1, is_Some (files w1 !! projectDirectory o) ∧
                (∀ p, ¬ projectDirectory o `prefix_of` p →
                      files w1 !! p = files w !! p) ∧
                scaffoldInto T o (templateSet o) w1 = Ok (tt, w'))
    as (w1 & Hpd & Hout1 & Hinto).
  { unfold scaffoldProject, fse.existsSync, fse.readdirSync, fse.mkdirSync
      in Hrun.
    apply bind_Ok in Hrun as ([] & w0 & [= <-] & Hrun).
    apply bind_Ok in Hrun as (found & ? & [[= <-] ->]%reading_Ok & Hrun).
    cbn [files] in Hrun. unfold exists_ in Hrun.
    destruct (files w !! projectDirectory o) as [n|] eqn:Hlook.
    - rewrite bool_decide_eq_true_2 in Hrun by eauto.
      apply bind_Ok in Hrun as (entries & ? & [Hentries ->]%reading_Ok & Hrun).
      unfold readdir in Hentries. cbn [files] in Hentries.
      rewrite Hlook in Hentries. destruct n as [|c]; [|done].
      injection Hentries as <-.
      destruct (children (projectDirectory o) (files w)) as [|c l] eqn:Hc.
      + cbn [length Nat.ltb Nat.leb] in Hrun.
        match type of Hrun with _ ?w1 = _ => exists w1 end.
        split_and!; [|intros p Hp; reflexivity|exact Hrun].
        cbn [files]. rewrite Hlook. eauto.
      + destruct Hfree. split; [by rewrite Hlook|].
        exists c. apply elem_of_children. rewrite Hc. left.
    - rewrite bool_decide_eq_false_2 in Hrun by (by intros [? ?]).
      apply bind_Ok in Hrun as ([] & ? & (m1 & Hm1 & ->)%writing_Ok & Hrun).
      unfold mkdir in Hm1. cbn [files] in Hm1. rewrite Hlook in Hm1.
      apply put_Ok in Hm1 as ->.
      match type of Hrun with _ ?w1 = _ => exists w1 end.
      split_and!; [| |exact Hrun]; cbn [files set_files].
      + rewrite lookup_insert_eq. eauto.
      + intros p Hp. apply lookup_insert_ne. by intros <-. }
  destruct (scaffoldInto_manifest T o w1 w' Hapart Hpd Hinto)
    as (packageJson & w0 & Hout0 & Hcreate & Hwritten).
  assert (∀ t, files w !! (T ++ [t; "package.json"])
               = files w0 !! (T ++ [t; "package.json"])) as Hagree.
  { intros t. destruct Hapart as [H1 H2].
    rewrite Hout0, Hout1 by (by apply prefix_of_under). done. }
  pose proof (createPackageJson_agree T _ _ _ w0 w0 w (λ t _, Hagree t) Hcreate)
    as [_ Hcreate'].
  exists packageJson. split_and!; [exact Hcreate'|exact Hwritten| |].
  - apply templateSet_no_git.
  - intros n. eapply createPackageJson_agree; [|exact Hcreate'].
    intros t Ht. cbn [files set_files]. apply lookup_insert_ne.
    unfold resolve. intros [= <-]%(inj (app T)).
    by apply (templateSet_no_git o).
Qed.

Lemma scaffoldProject_manifest_witness :
  ∃ w' packageJson,
    scaffoldProject Demo.templates (Demo.everything (Demo.cwd ++ ["demo"]))
      (Demo.world Demo.disk) = Ok (tt, w') ∧
    createPackageJson Demo.templates "demo"
      ["base"; "base-ts"; "prisma"; "eslint-prettier"] (Demo.world Demo.disk)
    = Ok (packageJson, Demo.world Demo.disk) ∧
    files w' !! (Demo.cwd ++ ["demo"; "package.json"])
    = Some (File (Json (JObj packageJson))).
Proof.
  destruct (scaffoldProject_run Demo.templates
              (Demo.everything (Demo.cwd ++ ["demo"])) (Demo.world Demo.disk))
    as (? & m' & _ & Hrun & _).
  - apply (bool_decide_unpack _). vm_compute. exact I.
  - apply (bool_decide_unpack _). vm_compute. exact I.
  - left. split; [vm_compute; reflexivity | exact I].
  - apply (bool_decide_unpack _). vm_compute. exact I.
  - destruct (scaffoldProject_manifest Demo.templates
                (Demo.everything (Demo.cwd ++ ["demo"])) (Demo.world Demo.disk)
                _ ltac:(apply (bool_decide_unpack _); vm_compute; exact I)
                ltac:(intros [Hdir _]; vm_compute in Hdir; exact Hdir) Hrun)
      as (packageJson & Hcreate & Hwritten & _).
    eexists _, packageJson. split_and!; [exact Hrun|exact Hcreate|exact Hwritten].
Defined.

(** * Further properties *)

(** ** When [createPackageJson] returns *)

Lemma manifests_of_Forall (T : path) (m : gmap path node) (templates : list string) :
  Forall (λ t, is_manifest (m !! resolve T [t; "package.json"])) templates →
  ∃ manifests,
    Forall2 (λ template j, manifest_at m (resolve T [template]) j)
      templates manifests.
Proof.
  induction 1 as [|t ts Ht _ [js IH]]; [by exists []|].
  unfold resolve in *.
  destruct (m !! (T ++ [t; "package.json"])) as [[|[|j]]|] eqn:E; try done.
  exists (j :: js). constructor; [|done]. split.
  - by intros ->.
  - by rewrite <- app_assoc.
Qed.

Lemma mergeManifests_Ok_inv (directories : list path) (acc merged : Merged)
    (w w' : World) :
  mergeManifests directories acc w = Ok (merged, w') →
  Forall (λ d, is_manifest (files w !! (d ++ ["package.json"]))) directories.
Proof.
  revert acc. induction directories as [|d ds IH]; intros acc; [by constructor|].
  cbn [mergeManifests].
  intros (j & ? & [Hj ->]%reading_Ok & H)%bind_Ok.
  apply bind_Ok in H as (e1 & ? & [He1 ->]%lift_Ok & H).
  apply bind_Ok in H as (e2 & ? & [He2 ->]%lift_Ok & H).
  apply bind_Ok in H as (e3 & ? & [He3 ->]%lift_Ok & H).
  constructor; [|by eapply IH].
  unfold readJSON, resolve in Hj.
  destruct (files w !! (d ++ ["package.json"])) as [[|[|j']]|]; try done.
  injection Hj as ->. by destruct j.
Qed.

(** X1. [createPackageJson] returns exactly when it is given at least one
    template and every template has a manifest that is a JSON document
    other than [null]. *)
Theorem createPackageJson_returns_iff (T : path) (projectName : string)
    (templates : list string) (w : World) :
  (∃ packageJson w',
     createPackageJson T projectName templates w = Ok (packageJson, w')) ↔
  templates ≠ [] ∧
  Forall (λ t, is_manifest (files w !! resolve T [t; "package.json"])) templates.
Proof.
  split.
  - intros (packageJson & w' & H). unfold createPackageJson in H.
    apply bind_Ok in H as (merged & w1 & Hmerge & H).
    split.
    + intros ->. by cbn in H.
    + apply mergeManifests_Ok_inv in Hmerge.
      rewrite Forall_forall in Hmerge. apply Forall_forall. intros t Ht.
      specialize (Hmerge (resolve T [t])). unfold resolve in *.
      rewrite <- app_assoc in Hmerge. apply Hmerge.
      by apply (list_elem_of_fmap_2 (λ template, T ++ [template])).
  - intros [Hne H]. apply manifests_of_Forall in H as [js Hjs].
    destruct Hjs as [|t base ts js' Ht Hts]; [done|].
    eexists _, w. apply createPackageJson_run. by constructor.
Qed.

Local Ltac installed_manifests :=
  repeat (apply Forall2_cons; split;
          [split; [intros Hnull; vm_compute in Hnull; discriminate Hnull
                  |vm_compute; reflexivity]|]);
  apply Forall2_nil; exact I.

(** X2. [createPackageJson] writes nothing, and what it returns depends on
    the manifests of the templates it is given only: in a world with the
    same manifests it returns the same manifest. *)
Theorem createPackageJson_reads_manifests_only (T : path) (projectName : string)
    (templates : list string) (packageJson : gmap string JSON)
    (w1 w1' w2 : World) :
  createPackageJson T projectName templates w1 = Ok (packageJson, w1') →
  (∀ t, t ∈ templates →
        files w2 !! (resolve T [t; "package.json"])
        = files w1 !! (resolve T [t; "package.json"])) →
  w1' = w1 ∧ createPackageJson T projectName templates w2 = Ok (packageJson, w2).
Proof. intros H Hagree. by eapply createPackageJson_agree. Qed.

Lemma createPackageJson_reads_manifests_only_witness :
  ∃ packageJson,
    createPackageJson Demo.templates "demo" ["base"; "base-ts"]
      (Demo.world Demo.disk) = Ok (packageJson, Demo.world Demo.disk) ∧
    createPackageJson Demo.templates "demo" ["base"; "base-ts"]
      (Demo.world Demo.occupiedTarget)
    = Ok (packageJson, Demo.world Demo.occupiedTarget).
Proof.
  eexists. split.
  - apply (createPackageJson_run _ _ "base" ["base-ts"]
             Demo.basePackage [Demo.tsPackage]).
    installed_manifests.
  - eapply (createPackageJson_reads_manifests_only Demo.templates "demo"
              ["base"; "base-ts"] _ (Demo.world Demo.disk)
              (Demo.world Demo.disk) (Demo.world Demo.occupiedTarget)).
    + apply (createPackageJson_run _ _ "base" ["base-ts"]
               Demo.basePackage [Demo.tsPackage]).
      installed_manifests.
    + intros t [->|[->|Ht]%elem_of_cons]%elem_of_cons.
      * vm_compute. reflexivity.
      * vm_compute. reflexivity.
      * by apply elem_of_nil in Ht.
Defined.

Lemma lookup_foldl_union (f : JSON → gmap string JSON) (manifests : list JSON)
    (acc : gmap string JSON) (k : string) :
  is_Some (foldl (λ a j, f j ∪ a) acc manifests !! k) ↔
  is_Some (acc !! k) ∨ ∃ j, j ∈ manifests ∧ is_Some (f j !! k).
Proof.
  revert acc. induction manifests as [|j js IH]; intros acc; simpl.
  - split; [by left|]. intros [?|(j & Hj & _)]; [done|].
    by apply elem_of_nil in Hj.
  - rewrite IH, lookup_union_is_Some. split.
    + intros [[?|?]|(j' & Hj' & ?)].
      * right. exists j. split; [left|done].
      * by left.
      * right. exists j'. split; [by right|done].
    + intros [?|(j' & [->|Hj']%elem_of_cons & ?)].
      * left. by right.
      * left. by left.
      * right. by exists j'.
Qed.

(** X3. No entry gets lost in the merge: a key is in a merged mapping
    exactly when some template declares it in that field. *)
Theorem createPackageJson_keeps_every_key (T : path) (projectName : string)
    (templates : list string) (manifests : list JSON) (w : World)
    (field : string) :
  field ∈ ["scripts"; "dependencies"; "devDependencies"] →
  templates ≠ [] →
  Forall2 (λ template j, manifest_at (files w) (resolve T [template]) j)
    templates manifests →
  ∃ packageJson merged,
    createPackageJson T projectName templates w = Ok (packageJson, w) ∧
    packageJson !! field = Some (JObj merged) ∧
    ∀ k, is_Some (merged !! k) ↔
         ∃ j, j ∈ manifests ∧ is_Some (fieldMap j field !! k).
Proof.
  intros Hfield Hne H. destruct H as [|t base ts js Ht Hts]; [done|].
  eexists _, (foldl (λ a j, fieldMap j field ∪ a) ∅ (base :: js)).
  split; [apply createPackageJson_run; by constructor|]. split.
  - apply elem_of_cons in Hfield as [->|Hfield];
      [by rewrite !lookup_insert_ne, lookup_insert_eq by done|].
    apply elem_of_cons in Hfield as [->|Hfield];
      [by rewrite lookup_insert_ne, lookup_insert_eq by done|].
    apply elem_of_cons in Hfield as [->|Hfield];
      [by rewrite lookup_insert_eq | by apply elem_of_nil in Hfield].
  - intros k. rewrite lookup_foldl_union, lookup_empty. split.
    + by intros [[? ?]|?].
    + by right.
Qed.

Lemma createPackageJson_keeps_every_key_witness :
  ∃ packageJson merged,
    createPackageJson Demo.templates "demo" ["base"; "base-ts"]
      (Demo.world Demo.disk) = Ok (packageJson, Demo.world Demo.disk) ∧
    packageJson !! "scripts" = Some (JObj merged) ∧
    is_Some (merged !! "start") ∧ is_Some (merged !! "dev").
Proof.
  destruct (createPackageJson_keeps_every_key Demo.templates "demo"
              ["base"; "base-ts"] [Demo.basePackage; Demo.tsPackage]
              (Demo.world Demo.disk) "scripts")
    as (packageJson & merged & Hrun & Hfield & Hkeys).
  - left.
  - discriminate.
  - installed_manifests.
  - exists packageJson, merged. split_and!; [exact Hrun|exact Hfield| |].
    + apply Hkeys. exists Demo.basePackage. split; [left|].
      vm_compute. eexists. reflexivity.
    + apply Hkeys. exists Demo.tsPackage. split; [right; left|].
      vm_compute. eexists. reflexivity.
Defined.

(** X4. In [scaffoldProject] the first template of the merge is [base]:
    when the merge returns, [name] is the project name and every field other
    than [name], [scripts], [dependencies] and [devDependencies] is the one
    of the manifest of the base template, whatever the other templates say. *)
Theorem createPackageJson_other_fields_from_base (T : path) (projectName : string)
    (o : ScaffoldOptions) (packageJson : gmap string JSON) (w w' : World) :
  createPackageJson T projectName (templateSet o) w = Ok (packageJson, w') →
  ∃ base,
    files w !! (resolve T ["base"; "package.json"]) = Some (File (Json base)) ∧
    packageJson !! "name" = Some (JStr projectName) ∧
    ∀ k, k ∉ ["name"; "scripts"; "dependencies"; "devDependencies"] →
         packageJson !! k = own_props base !! k.
Proof.
  intros H.
  assert (Forall (λ t, is_manifest (files w !! resolve T [t; "package.json"]))
            (templateSet o)) as Hall.
  { unfold createPackageJson in H.
    apply bind_Ok in H as (merged & w1 & Hmerge & _).
    apply mergeManifests_Ok_inv in Hmerge.
    rewrite Forall_forall in Hmerge. apply Forall_forall. intros t Ht.
    specialize (Hmerge (resolve T [t])). unfold resolve in *.
    rewrite <- app_assoc in Hmerge. apply Hmerge.
    by apply (list_elem_of_fmap_2 (λ template, T ++ [template])). }
  apply manifests_of_Forall in Hall as [js Hjs].
  rewrite templateSet_eq in H, Hjs. cbn [app] in H, Hjs.
  inversion Hjs as [|t base ts js' [Hbase Hfile] Hts]; subst.
  rewrite (createPackageJson_run T projectName _ _ base js' w) in H
    by by constructor.
  injection H as <- <-. exists base. split_and!.
  - unfold resolve in *. by rewrite <- app_assoc in Hfile.
  - by rewrite !lookup_insert_ne, lookup_insert_eq by done.
  - intros k Hk. rewrite !not_elem_of_cons in Hk.
    destruct Hk as (? & ? & ? & ? & _). by rewrite !lookup_insert_ne.
Qed.

Lemma createPackageJson_other_fields_from_base_witness :
  ∃ packageJson,
    createPackageJson Demo.templates "demo"
      (templateSet (Demo.everything Demo.cwd)) (Demo.world Demo.disk)
    = Ok (packageJson, Demo.world Demo.disk) ∧
    packageJson !! "name" = Some (JStr "demo") ∧
    packageJson !! "type" = Some (JStr "module").
Proof.
  assert (Forall2 (λ template j,
            manifest_at (files (Demo.world Demo.disk))
              (resolve Demo.templates [template]) j)
            ("base" :: ["base-ts"; "prisma"; "eslint-prettier"])
            (Demo.basePackage
             :: [Demo.tsPackage; Demo.prismaPackage; Demo.lintPackage]))
    as Hmanifests by installed_manifests.
  pose proof (createPackageJson_run Demo.templates "demo" _ _ _ _ _ Hmanifests)
    as Hrun.
  destruct (createPackageJson_other_fields_from_base Demo.templates "demo"
              (Demo.everything Demo.cwd) _ _ _ Hrun)
    as (base & Hbase & Hname & Hrest).
  eexists. split_and!; [exact Hrun|exact Hname|].
  rewrite Hrest by (apply (bool_decide_unpack _); vm_compute; exact I).
  vm_compute in Hbase. injection Hbase as <-. vm_compute. reflexivity.
Defined.

(** ** Targets that make [scaffoldProject] throw *)

(** X5. A target that exists and is a file: [existsSync] holds and
    [readdirSync] throws; the run ends with [ENOTDIR]. *)
Theorem scaffoldProject_target_is_file (T : path) (o : ScaffoldOptions)
    (w : World) (c : content) :
  files w !! projectDirectory o = Some (File c) →
  scaffoldProject T o w = Throw ENOTDIR.
Proof.
  intros Hfile. unfold scaffoldProject.
  erewrite bind_run by reflexivity.
  erewrite bind_run by (apply reading_Ok; split; reflexivity).
  cbn [files]. unfold exists_.
  rewrite bool_decide_eq_true_2 by (by rewrite Hfile).
  unfold mbind, IO_bind, fse.readdirSync, reading, readdir. cbn [files].
  by rewrite Hfile.
Qed.

Lemma scaffoldProject_target_is_file_witness :
  scaffoldProject Demo.templates (Demo.everything (Demo.cwd ++ ["demo"]))
    (Demo.world Cases.fileTarget) = Throw ENOTDIR.
Proof.
  apply (scaffoldProject_target_is_file _ _ _ (Raw "text")).
  vm_compute. reflexivity.
Defined.





(** ** Whatever the installation: a run that returns *)

(** The two ways in which [scaffoldProject] returns. *)
Lemma scaffoldProject_Ok_inv (T : path) (o : ScaffoldOptions) (w w' : World) :
  scaffoldProject T o w = Ok (tt, w') →
  (occupied (projectDirectory o) (files w) ∧
   w' = {| files := files w;
           console := console w ++ [usingLine o; notEmptyLine o];
           spawned := spawned w |}) ∨
  (¬ occupied (projectDirectory o) (files w) ∧
   ∃ m1,
     is_dir (m1 !! projectDirectory o) ∧
     (∀ p, p ≠ projectDirectory o → m1 !! p = files w !! p) ∧
     scaffoldInto T o (templateSet o)
       {| files := m1; console := console w ++ [usingLine o];
          spawned := spawned w |} = Ok (tt, w')).
Proof.
  intros Hrun.
  unfold scaffoldProject, fse.existsSync, fse.readdirSync, fse.mkdirSync in Hrun.
  apply bind_Ok in Hrun as ([] & w0 & [= <-] & Hrun).
  apply bind_Ok in Hrun as (found & ? & [[= <-] ->]%reading_Ok & Hrun).
  cbn [files] in Hrun. unfold exists_ in Hrun.
  destruct (files w !! projectDirectory o) as [n|] eqn:Hlook.
  - rewrite bool_decide_eq_true_2 in Hrun by eauto.
    apply bind_Ok in Hrun as (entries & ? & [Hentries ->]%reading_Ok & Hrun).
    unfold readdir in Hentries. cbn [files] in Hentries.
    rewrite Hlook in Hentries. destruct n as [|c]; [|done].
    injection Hentries as <-.
    destruct (children (projectDirectory o) (files w)) as [|c l] eqn:Hc.
    + right. split.
      * intros [_ [entry Hentry]]. apply elem_of_children in Hentry.
        rewrite Hc in Hentry. by apply elem_of_nil in Hentry.
      * exists (files w). by rewrite Hlook.
    + left. split.
      * split; [by rewrite Hlook|]. exists c. apply elem_of_children.
        rewrite Hc. left.
      * unfold console_log in Hrun.
        cbn [length Nat.ltb Nat.leb files console spawned] in Hrun.
        injection Hrun as <-. by rewrite <- app_assoc.
  - right. split; [intros [Hdir _]; by rewrite Hlook in Hdir|].
    rewrite bool_decide_eq_false_2 in Hrun by (by intros [? ?]).
    apply bind_Ok in Hrun as ([] & ? & (m1 & Hm1 & ->)%writing_Ok & Hrun).
    unfold mkdir in Hm1. cbn [files] in Hm1. rewrite Hlook in Hm1.
    apply put_Ok in Hm1 as ->.
    exists (<[projectDirectory o := Dir]> (files w)). split_and!.
    + by rewrite lookup_insert_eq.
    + intros p Hp. by apply lookup_insert_ne.
    + exact Hrun.
Qed.

Lemma confined_merge (T : path) (o : ScaffoldOptions) (templates : list string) :
  confined (projectDirectory o) (mergePackageJsonFiles T o templates).
Proof.
  intros w w' H Hpd. unfold mergePackageJsonFiles in H.
  apply bind_Ok in H as (packageJson & w1 & Hcreate & Hwrite).
  pose proof (createPackageJson_agree T _ _ _ w w1 w (λ _ _, eq_refl) Hcreate)
    as [-> _].
  by apply (confined_writeJSONSync (projectDirectory o) ["package.json"]
              (JObj packageJson)).
Qed.

Lemma confined_install (o : ScaffoldOptions) :
  confined (projectDirectory o) (installDependencies o).
Proof. apply confined_when, confined_exec. Qed.

Lemma confined_scaffoldInto (T : path) (o : ScaffoldOptions)
    (templates : list string) :
  confined (projectDirectory o) (scaffoldInto T o templates).
Proof.
  unfold scaffoldInto.
  apply confined_seq; [apply confined_git|].
  apply confined_seq; [apply confined_base|].
  apply confined_seq; [apply confined_prisma|].
  apply confined_seq; [apply confined_eslint|].
  apply confined_seq; [apply confined_merge | apply confined_install].
Qed.

(** X8. Whatever the templates hold, a run that returns has changed
    nothing outside the project directory: no file of the installation, no
    sibling of the target. *)
Theorem scaffoldProject_writes_below_target (T : path) (o : ScaffoldOptions)
    (w w' : World) (p : path) :
  scaffoldProject T o w = Ok (tt, w') →
  ¬ projectDirectory o `prefix_of` p →
  files w' !! p = files w !! p.
Proof.
  intros Hrun Hp.
  apply scaffoldProject_Ok_inv in Hrun
    as [[_ ->]|[_ (m1 & Hdir & Hm1 & Hinto)]]; [done|].
  destruct (confined_scaffoldInto T o _ _ _ Hinto) as [_ Hout].
  - cbn [files]. apply is_dir_Some in Hdir. by rewrite Hdir.
  - rewrite Hout by done. cbn [files]. apply Hm1. by intros ->.
Qed.

Lemma scaffoldProject_writes_below_target_witness :
  ∃ w',
    scaffoldProject Demo.templates (Demo.everything (Demo.cwd ++ ["demo"]))
      (Demo.world Demo.disk) = Ok (tt, w') ∧
    files w' !! (Demo.templates ++ ["base"; "package.json"])
    = Some (File (Json Demo.basePackage)) ∧
    files w' !! (Demo.cwd ++ ["notes"]) = None.
Proof.
  destruct (scaffoldProject_run Demo.templates
              (Demo.everything (Demo.cwd ++ ["demo"])) (Demo.world Demo.disk))
    as (? & m' & _ & Hrun & _).
  - apply (bool_decide_unpack _). vm_compute. exact I.
  - apply (bool_decide_unpack _). vm_compute. exact I.
  - left. split; [vm_compute; reflexivity | exact I].
  - apply (bool_decide_unpack _). vm_compute. exact I.
  - eexists. split_and!; [exact Hrun|..].
    + rewrite (scaffoldProject_writes_below_target _ _ _ _ _ Hrun)
        by (apply (bool_decide_unpack _); vm_compute; exact I).
      vm_compute. reflexivity.
    + rewrite (scaffoldProject_writes_below_target _ _ _ _ _ Hrun)
        by (apply (bool_decide_unpack _); vm_compute; exact I).
      vm_compute. reflexivity.
Defined.

(** What the blocks write to the console and hand to the shell. *)

Lemma emits_writing (f : gmap path node → result (gmap path node)) :
  emits (writing f) [] [].
Proof.
  intros w w' (m & _ & ->)%writing_Ok. cbn. by rewrite !app_nil_r.
Qed.

Lemma emits_ret : emits (mret tt) [] [].
Proof. intros w w' [= <-]. by rewrite !app_nil_r. Qed.

Lemma emits_exec (command : string) : emits (exec command) [] [command].
Proof. intros w w' [= <-]. cbn. by rewrite app_nil_r. Qed.

Lemma emits_seq (c k : IO unit) (l1 l2 s1 s2 : list string) :
  emits c l1 s1 → emits k l2 s2 → emits (c;; k) (l1 ++ l2) (s1 ++ s2).
Proof.
  intros Hc Hk w w' ([] & w1 & H1 & H2)%bind_Ok.
  destruct (Hc _ _ H1) as [Hl1 Hs1]. destruct (Hk _ _ H2) as [Hl2 Hs2].
  by rewrite Hl2, Hs2, Hl1, Hs1, !app_assoc.
Qed.

Lemma emits_when (b : bool) (c : IO unit) (commands : list string) :
  emits c [] commands → emits (when b c) [] (if b then commands else []).
Proof. destruct b; [done | intros _; apply emits_ret]. Qed.

Lemma emits_merge (T : path) (o : ScaffoldOptions) (templates : list string) :
  emits (mergePackageJsonFiles T o templates) [] [].
Proof.
  intros w w' H. unfold mergePackageJsonFiles in H.
  apply bind_Ok in H as (packageJson & w1 & Hcreate & Hwrite).
  pose proof (createPackageJson_agree T _ _ _ w w1 w (λ _ _, eq_refl) Hcreate)
    as [-> _].
  by apply emits_writing in Hwrite.
Qed.

Lemma emits_scaffoldInto (T : path) (o : ScaffoldOptions)
    (templates : list string) :
  emits (scaffoldInto T o templates) []
    ((if gitRepo o then [gitInitCommand o] else [])
     ++ (if install o then [installCommand o] else [])).
Proof.
  unfold scaffoldInto.
  apply (emits_seq _ _ [] [] _ _).
  { unfold initializeGitRepository.
    destruct (gitRepo o); [|apply emits_ret].
    apply (emits_seq _ _ [] [] [_] []);
      [apply emits_exec | apply emits_writing]. }
  apply (emits_seq _ _ [] [] [] _).
  { apply (emits_seq _ _ [] [] [] []); apply emits_writing. }
  apply (emits_seq _ _ [] [] [] _).
  { unfold copyPrismaFiles. destruct (prisma o); [|apply emits_ret].
    apply (emits_seq _ _ [] [] [] []); apply emits_writing. }
  apply (emits_seq _ _ [] [] [] _).
  { unfold copyEslintAndPrettierFiles.
    destruct (eslintAndPrettier o); [apply emits_writing | apply emits_ret]. }
  apply (emits_seq _ _ [] [] [] _); [apply emits_merge|].
  unfold installDependencies.
  destruct (install o); [apply emits_exec | apply emits_ret].
Qed.

(** X9. A run that returns has written and spawned this and nothing else:
    on an occupied target, the two lines and no command; otherwise the first
    line, then [git init] if git is asked for and, after it, the install
    command of the package manager if install is asked for. *)
Theorem scaffoldProject_effects (T : path) (o : ScaffoldOptions) (w w' : World) :
  scaffoldProject T o w = Ok (tt, w') →
  (occupied (projectDirectory o) (files w) ∧
   console w' = console w ++ [usingLine o; notEmptyLine o] ∧
   spawned w' = spawned w) ∨
  (¬ occupied (projectDirectory o) (files w) ∧
   console w' = console w ++ [usingLine o] ∧
   spawned w' = spawned w
     ++ (if gitRepo o then [gitInitCommand o] else [])
     ++ (if install o then [installCommand o] else [])).
Proof.
  intros Hrun.
  apply scaffoldProject_Ok_inv in Hrun
    as [[Hocc ->]|[Hfree (m1 & _ & _ & Hinto)]]; [by left|].
  right. split; [done|].
  apply emits_scaffoldInto in Hinto as [Hl Hs]. cbn [console spawned] in *.
  by rewrite Hl, Hs, app_nil_r.
Qed.

Lemma scaffoldProject_effects_witness :
  ∃ w',
    scaffoldProject Demo.templates (Demo.everything (Demo.cwd ++ ["demo"]))
      (Demo.world Demo.disk) = Ok (tt, w') ∧
    console w' = ["Using pnpm to scaffold the project"] ∧
    length (spawned w') = 2.
Proof.
  destruct (scaffoldProject_run Demo.templates
              (Demo.everything (Demo.cwd ++ ["demo"])) (Demo.world Demo.disk))
    as (? & m' & _ & Hrun & _).
  - apply (bool_decide_unpack _). vm_compute. exact I.
  - apply (bool_decide_unpack _). vm_compute. exact I.
  - left. split; [vm_compute; reflexivity | exact I].
  - apply (bool_decide_unpack _). vm_compute. exact I.
  - eexists. split; [exact Hrun|].
    destruct (scaffoldProject_effects _ _ _ _ Hrun)
      as [(Hocc & _)|(_ & Hconsole & Hspawned)].
    + destruct Hocc as [Hdir _]. vm_compute in Hdir. destruct Hdir.
    + rewrite Hconsole, Hspawned. split; reflexivity.
Defined.

(** The target stays a directory. *)

Lemma keeps_directory_ret (pd : path) : keeps_directory pd (mret tt).
Proof. by intros w w' [= <-]. Qed.

Lemma keeps_directory_exec (pd : path) (command : string) :
  keeps_directory pd (exec command).
Proof. by intros w w' [= <-]. Qed.

Lemma keeps_directory_seq (pd : path) (c k : IO unit) :
  keeps_directory pd c → keeps_directory pd k → keeps_directory pd (c;; k).
Proof. intros Hc Hk w w' ([] & w1 & H1 & H2)%bind_Ok Hpd. eauto. Qed.

Lemma keeps_directory_when (pd : path) (b : bool) (c : IO unit) :
  keeps_directory pd c → keeps_directory pd (when b c).
Proof. destruct b; [done | intros _; apply keeps_directory_ret]. Qed.

Lemma keeps_directory_put (pd r : path)
    (f : gmap path node → result (gmap path node)) :
  r ≠ [] →
  (∀ m m', f m = Ok m' → ∃ n, m' = <[pd ++ r := n]> m) →
  keeps_directory pd (writing f).
Proof.
  intros Hr Hf w w' (m' & Hm' & ->)%writing_Ok Hpd.
  apply Hf in Hm' as [n ->]. cbn [files set_files].
  rewrite lookup_insert_ne; [done|].
  intros E. apply (f_equal length) in E. rewrite length_app in E.
  destruct r; [done|]. simpl in E. lia.
Qed.

Lemma keeps_directory_copySync (pd src : path) :
  keeps_directory pd (fse.copySync src pd).
Proof.
  intros w w' (m' & Hm' & ->)%writing_Ok Hpd. cbn [files set_files].
  apply is_dir_Some in Hpd.
  unfold copy in Hm'. destruct (files w !! src); [|done].
  destruct (decide (src `prefix_of` pd)); [done|].
  destruct (decide (fits pd (subtree src (files w)) (files w)))
    as [Hfits|]; [|done].
  rewrite Hpd in Hm'. injection Hm' as <-.
  pose proof (lookup_graft_under pd (subtree src (files w)) (files w) []) as Hl.
  rewrite app_nil_r in Hl. rewrite Hl, Hpd.
  destruct (subtree src (files w) !! []) as [root|] eqn:Hroot; [|done].
  apply fits_view in Hfits.
  pose proof (proj1 (fits_lookup _ _) Hfits [] root Dir Hroot) as Hkind.
  clear Hfits. rename Hkind into Hfits.
  rewrite lookup_subtree, app_nil_r in Hfits. specialize (Hfits Hpd).
  by destruct root.
Qed.

Lemma keeps_directory_scaffoldInto (T : path) (o : ScaffoldOptions)
    (templates : list string) :
  keeps_directory (projectDirectory o) (scaffoldInto T o templates).
Proof.
  unfold scaffoldInto.
  apply keeps_directory_seq.
  { apply keeps_directory_when, keeps_directory_seq;
      [apply keeps_directory_exec | apply keeps_directory_copySync]. }
  apply keeps_directory_seq.
  { apply keeps_directory_seq; apply keeps_directory_copySync. }
  apply keeps_directory_seq.
  { apply keeps_directory_when, keeps_directory_seq.
    - apply (keeps_directory_put _ ["prisma"]); [done|].
      intros m m'. unfold mkdir. destruct (m !! _); [done|].
      intros ->%put_Ok. by eexists.
    - apply (keeps_directory_put _ ["prisma"; "schema.prisma"]); [done|].
      intros m m'. unfold copyFile.
      destruct (m !! resolve T _) as [[|c]|]; [done| |done].
      destruct (m !! resolve (projectDirectory o) _) as [[|?]|]; [done|..];
        intros ->%put_Ok; by eexists. }
  apply keeps_directory_seq.
  { apply keeps_directory_when, keeps_directory_copySync. }
  apply keeps_directory_seq.
  - intros w w' H Hpd. unfold mergePackageJsonFiles in H.
    apply bind_Ok in H as (packageJson & w1 & Hcreate & Hwrite).
    pose proof (createPackageJson_agree T _ _ _ w w1 w (λ _ _, eq_refl) Hcreate)
      as [-> _].
    revert Hwrite Hpd.
    apply (keeps_directory_put _ ["package.json"]); [done|].
    intros m m'. unfold writeJSON.
    destruct (m !! resolve (projectDirectory o) _) as [[|?]|]; [done|..];
      intros ->%put_Ok; by eexists.
  - apply keeps_directory_when, keeps_directory_exec.
Qed.

Lemma scaffoldInto_writes_manifest (T : path) (o : ScaffoldOptions)
    (templates : list string) (w w' : World) :
  scaffoldInto T o templates w = Ok (tt, w') →
  is_Some (files w' !! (projectDirectory o ++ ["package.json"])).
Proof.
  unfold scaffoldInto.
  intros ([] & w1 & _ & H)%bind_Ok.
  apply bind_Ok in H as ([] & w2 & _ & H).
  apply bind_Ok in H as ([] & w3 & _ & H).
  apply bind_Ok in H as ([] & w4 & _ & H).
  apply bind_Ok in H as ([] & w5 & H5 & H).
  unfold mergePackageJsonFiles in H5.
  apply bind_Ok in H5 as (packageJson & w4' & _ & Hwrite).
  apply writing_Ok in Hwrite as (m5 & Hm5 & ->).
  assert (m5 = <[resolve (projectDirectory o) ["package.json"] :=
                   File (Json (JObj packageJson))]> (files w4')) as ->.
  { unfold writeJSON in Hm5.
    destruct (files w4' !! resolve (projectDirectory o) ["package.json"])
      as [[|?]|]; [done|..]; by apply put_Ok. }
  unfold installDependencies, when in H.
  destruct (install o); injection H as <-; cbn [files set_files];
    unfold resolve; rewrite lookup_insert_eq; eauto.
Qed.

(** X10. Scaffolding twice: after a run that returns, the target is a
    directory with an entry, so that any later run into the same directory,
    with whatever answers, writes the two lines and changes nothing. *)
Theorem scaffoldProject_twice (T T' : path) (o o' : ScaffoldOptions)
    (w w' : World) :
  scaffoldProject T o w = Ok (tt, w') →
  projectDirectory o' = projectDirectory o →
  scaffoldProject T' o' w' =
  Ok (tt, {| files := files w';
             console := console w' ++ [usingLine o'; notEmptyLine o'];
             spawned := spawned w' |}).
Proof.
  intros Hrun Hsame. apply scaffoldProject_occupied. rewrite Hsame.
  apply scaffoldProject_Ok_inv in Hrun
    as [[Hocc ->]|[Hfree (m1 & Hdir & _ & Hinto)]]; [done|].
  split.
  - by apply (keeps_directory_scaffoldInto T o _ _ _ Hinto).
  - exists "package.json". by eapply scaffoldInto_writes_manifest.
Qed.

Lemma scaffoldProject_twice_witness :
  ∃ w',
    scaffoldProject Demo.templates (Demo.everything (Demo.cwd ++ ["demo"]))
      (Demo.world Demo.disk) = Ok (tt, w') ∧
    scaffoldProject Demo.templates (Cases.plain (Demo.cwd ++ ["demo"])) w' =
    Ok (tt, {| files := files w';
               console := console w' ++
                 ["Using npm to scaffold the project";
                  "The directory /home/dev/demo is not empty. Please try again."];
               spawned := spawned w' |}).
Proof.
  destruct (scaffoldProject_run Demo.templates
              (Demo.everything (Demo.cwd ++ ["demo"])) (Demo.world Demo.disk))
    as (? & m' & _ & Hrun & _).
  - apply (bool_decide_unpack _). vm_compute. exact I.
  - apply (bool_decide_unpack _). vm_compute. exact I.
  - left. split; [vm_compute; reflexivity | exact I].
  - apply (bool_decide_unpack _). vm_compute. exact I.
  - eexists. split; [exact Hrun|].
    exact (scaffoldProject_twice Demo.templates Demo.templates
             (Demo.everything (Demo.cwd ++ ["demo"]))
             (Cases.plain (Demo.cwd ++ ["demo"])) _ _ Hrun eq_refl).
Defined.

(** ** The answers object *)

Lemma inquirer_prompt_app (pre post : list Question.t) (user : string → reply)
    (answers : gmap string value) :
  inquirer_prompt (pre ++ post) user answers =
  inquirer_prompt post user (inquirer_prompt pre user answers).
Proof.
  revert answers. induction pre as [|q pre IH]; intros answers; [done|].
  simpl. by destruct (Question.when q answers).
Qed.

Lemma inquirer_prompt_other (qs : list Question.t) (user : string → reply)
    (answers : gmap string value) (k : string) :
  Forall (λ q, Question.name q ≠ k) qs →
  inquirer_prompt qs user answers !! k = answers !! k.
Proof.
  intros H. revert answers. induction H as [|q qs Hq _ IH]; intros answers; [done|].
  simpl. destruct (Question.when q answers); [|done].
  by rewrite IH, lookup_insert_ne.
Qed.

(** The answer to a question whose name is the name of no other question:
    it is there exactly when [when] holds of the answers to the questions
    before it. *)
Lemma inquirer_prompt_lookup (pre post : list Question.t) (q : Question.t)
    (user : string → reply) :
  Forall (λ q', Question.name q' ≠ Question.name q) pre →
  Forall (λ q', Question.name q' ≠ Question.name q) post →
  inquirer_prompt (pre ++ q :: post) user ∅ !! Question.name q =
  if Question.when q (inquirer_prompt pre user ∅)
  then Some (answerTo q (user (Question.name q)))
  else None.
Proof.
  intros Hpre Hpost. rewrite inquirer_prompt_app. simpl.
  destruct (Question.when q (inquirer_prompt pre user ∅)).
  - by rewrite inquirer_prompt_other, lookup_insert_eq.
  - by rewrite !inquirer_prompt_other.
Qed.

Local Ltac other_names :=
  repeat (apply Forall_cons_2; [discriminate|]); apply Forall_nil_2.

Section Interactive.

Context (user : string → reply) (options : CreateAppOptions.t).

Lemma interactive_name :
  inquirer_prompt (questions options) user ∅ !! "name" =
  if is_undefined (CreateAppOptions.name options)
  then Some (answerTo (nameQuestion options) (user "name")) else None.
Proof.
  exact (inquirer_prompt_lookup []
           [gitRepoQuestion options; installQuestion options;
            prismaQuestion options; databaseTypeQuestion options;
            databaseUriQuestion options; typescriptQuestion options;
            helpCommandQuestion options; dashboardQuestion options;
            eslintAndPrettierQuestion options]
           (nameQuestion options) user ltac:(other_names) ltac:(other_names)).
Qed.

Lemma interactive_gitRepo :
  inquirer_prompt (questions options) user ∅ !! "gitRepo" =
  if notYes options &&
     is_undefined (CreateAppOptions.noGit (CreateAppOptions.flags options))
  then Some (answerTo (gitRepoQuestion options) (user "gitRepo")) else None.
Proof.
  exact (inquirer_prompt_lookup [nameQuestion options]
           [installQuestion options;
            prismaQuestion options; databaseTypeQuestion options;
            databaseUriQuestion options; typescriptQuestion options;
            helpCommandQuestion options; dashboardQuestion options;
            eslintAndPrettierQuestion options]
           (gitRepoQuestion options) user ltac:(other_names) ltac:(other_names)).
Qed.

Lemma interactive_install :
  inquirer_prompt (questions options) user ∅ !! "install" =
  if notYes options &&
     is_undefined (CreateAppOptions.noInstall (CreateAppOptions.flags options))
  then Some (answerTo (installQuestion options) (user "install")) else None.
Proof.
  exact (inquirer_prompt_lookup [nameQuestion options; gitRepoQuestion options]
           [prismaQuestion options; databaseTypeQuestion options;
            databaseUriQuestion options; typescriptQuestion options;
            helpCommandQuestion options; dashboardQuestion options;
            eslintAndPrettierQuestion options]
           (installQuestion options) user ltac:(other_names) ltac:(other_names)).
Qed.

Lemma interactive_prisma :
  inquirer_prompt (questions options) user ∅ !! "prisma" =
  if notYes options
  then Some (answerTo (prismaQuestion options) (user "prisma")) else None.
Proof.
  exact (inquirer_prompt_lookup
           [nameQuestion options; gitRepoQuestion options;
            installQuestion options]
           [databaseTypeQuestion options;
            databaseUriQuestion options; typescriptQuestion options;
            helpCommandQuestion options; dashboardQuestion options;
            eslintAndPrettierQuestion options]
           (prismaQuestion options) user ltac:(other_names) ltac:(other_names)).
Qed.

Lemma before_database_prisma :
  inquirer_prompt
    [nameQuestion options; gitRepoQuestion options; installQuestion options;
     prismaQuestion options] user ∅ !! "prisma" =
  if notYes options
  then Some (answerTo (prismaQuestion options) (user "prisma")) else None.
Proof.
  exact (inquirer_prompt_lookup
           [nameQuestion options; gitRepoQuestion options;
            installQuestion options] []
           (prismaQuestion options) user ltac:(other_names) ltac:(other_names)).
Qed.

Lemma interactive_databaseType :
  inquirer_prompt (questions options) user ∅ !! "databaseType" =
  if notYes options &&
     truthyValue (inquirer_prompt (questions options) user ∅ !! "prisma")
  then Some (answerTo (databaseTypeQuestion options) (user "databaseType"))
  else None.
Proof.
  rewrite interactive_prisma, <- before_database_prisma.
  exact (inquirer_prompt_lookup
           [nameQuestion options; gitRepoQuestion options;
            installQuestion options; prismaQuestion options]
           [databaseUriQuestion options; typescriptQuestion options;
            helpCommandQuestion options; dashboardQuestion options;
            eslintAndPrettierQuestion options]
           (databaseTypeQuestion options) user
           ltac:(other_names) ltac:(other_names)).
Qed.

Lemma interactive_databaseUri :
  inquirer_prompt (questions options) user ∅ !! "databaseUri" =
  if notYes options &&
     truthyValue (inquirer_prompt (questions options) user ∅ !! "prisma")
  then Some (answerTo (databaseUriQuestion options) (user "databaseUri"))
  else None.
Proof.
  rewrite interactive_prisma, <- before_database_prisma.
  pose proof (inquirer_prompt_lookup
           [nameQuestion options; gitRepoQuestion options;
            installQuestion options; prismaQuestion options;
            databaseTypeQuestion options]
           [typescriptQuestion options;
            helpCommandQuestion options; dashboardQuestion options;
            eslintAndPrettierQuestion options]
           (databaseUriQuestion options) user
           ltac:(other_names) ltac:(other_names)) as H.
  cbn [Question.when databaseUriQuestion] in H.
  rewrite (inquirer_prompt_app
             [nameQuestion options; gitRepoQuestion options;
              installQuestion options; prismaQuestion options]
             [databaseTypeQuestion options]) in H.
  rewrite (inquirer_prompt_other [databaseTypeQuestion options]) in H
    by other_names.
  exact H.
Qed.

Lemma interactive_confirm (pre post : list Question.t) (q : Question.t) :
  questions options = pre ++ q :: post →
  Forall (λ q', Question.name q' ≠ Question.name q) pre →
  Forall (λ q', Question.name q' ≠ Question.name q) post →
  Question.when q = (λ _, notYes options) →
  inquirer_prompt (questions options) user ∅ !! Question.name q =
  if notYes options then Some (answerTo q (user (Question.name q))) else None.
Proof.
  intros -> Hpre Hpost Hwhen.
  rewrite inquirer_prompt_lookup by done. by rewrite Hwhen.
Qed.

End Interactive.

(** X11. In the interactive branch a question that is not put leaves no
    property in the answers: [name] is there exactly when no name came with
    the command, [gitRepo] and [install] exactly when their skip flag is
    absent, [databaseType] and [databaseUri] exactly when the database layer
    was accepted; the other five are always there. *)
Theorem getAnswersObject_asked (user : string → reply)
    (options : CreateAppOptions.t) :
  truthy (CreateAppOptions.yes (CreateAppOptions.flags options)) = false →
  let a := getAnswersObject user options in
  (is_Some (a !! "name") ↔ CreateAppOptions.name options = None) ∧
  (is_Some (a !! "gitRepo") ↔
     CreateAppOptions.noGit (CreateAppOptions.flags options) = None) ∧
  (is_Some (a !! "install") ↔
     CreateAppOptions.noInstall (CreateAppOptions.flags options) = None) ∧
  (is_Some (a !! "databaseType") ↔ truthyValue (a !! "prisma") = true) ∧
  (is_Some (a !! "databaseUri") ↔ truthyValue (a !! "prisma") = true) ∧
  is_Some (a !! "prisma") ∧ is_Some (a !! "typescript") ∧
  is_Some (a !! "helpCommand") ∧ is_Some (a !! "dashboard") ∧
  is_Some (a !! "eslintAndPrettier").
Proof.
  intros Hyes a. subst a. unfold getAnswersObject. rewrite Hyes.
  assert (notYes options = true) as Hnot by (unfold notYes; by rewrite Hyes).
  rewrite interactive_name, interactive_gitRepo, interactive_install,
    interactive_databaseType, interactive_databaseUri, interactive_prisma.
  pose proof (interactive_confirm user options
             [nameQuestion options; gitRepoQuestion options;
              installQuestion options; prismaQuestion options;
              databaseTypeQuestion options; databaseUriQuestion options]
             [helpCommandQuestion options; dashboardQuestion options;
              eslintAndPrettierQuestion options] (typescriptQuestion options)
             eq_refl ltac:(other_names) ltac:(other_names) eq_refl) as Htypescript.
  cbn [Question.name typescriptQuestion] in Htypescript. rewrite Htypescript. clear Htypescript.
  pose proof (interactive_confirm user options
             [nameQuestion options; gitRepoQuestion options;
              installQuestion options; prismaQuestion options;
              databaseTypeQuestion options; databaseUriQuestion options;
              typescriptQuestion options]
             [dashboardQuestion options; eslintAndPrettierQuestion options]
             (helpCommandQuestion options)
             eq_refl ltac:(other_names) ltac:(other_names) eq_refl) as HhelpCommand.
  cbn [Question.name helpCommandQuestion] in HhelpCommand. rewrite HhelpCommand. clear HhelpCommand.
  pose proof (interactive_confirm user options
             [nameQuestion options; gitRepoQuestion options;
              installQuestion options; prismaQuestion options;
              databaseTypeQuestion options; databaseUriQuestion options;
              typescriptQuestion options; helpCommandQuestion options]
             [eslintAndPrettierQuestion options] (dashboardQuestion options)
             eq_refl ltac:(other_names) ltac:(other_names) eq_refl) as Hdashboard.
  cbn [Question.name dashboardQuestion] in Hdashboard. rewrite Hdashboard. clear Hdashboard.
  pose proof (interactive_confirm user options
             [nameQuestion options; gitRepoQuestion options;
              installQuestion options; prismaQuestion options;
              databaseTypeQuestion options; databaseUriQuestion options;
              typescriptQuestion options; helpCommandQuestion options;
              dashboardQuestion options]
             [] (eslintAndPrettierQuestion options)
             eq_refl ltac:(other_names) ltac:(other_names) eq_refl) as HeslintAndPrettier.
  cbn [Question.name eslintAndPrettierQuestion] in HeslintAndPrettier. rewrite HeslintAndPrettier. clear HeslintAndPrettier.
  rewrite Hnot. cbn [andb].
  split_and!; try (by eexists).
  - destruct (CreateAppOptions.name options); cbn;
      split; [by intros [? ?]|done|done|by eexists].
  - destruct (CreateAppOptions.noGit _); cbn;
      split; [by intros [? ?]|done|done|by eexists].
  - destruct (CreateAppOptions.noInstall _); cbn;
      split; [by intros [? ?]|done|done|by eexists].
  - destruct (truthyValue _); split; [done|by eexists|by intros [? ?]|done].
  - destruct (truthyValue _); split; [done|by eexists|by intros [? ?]|done].
Qed.

Lemma getAnswersObject_asked_witness :
  getAnswersObject Users.shop Users.named !! "name" = None ∧
  is_Some (getAnswersObject Users.shop Users.bare !! "name") ∧
  getAnswersObject Users.shopNoDatabase Users.bare !! "databaseType" = None.
Proof.
  split_and!.
  - destruct (getAnswersObject_asked Users.shop Users.named eq_refl)
      as (Hname & _).
    apply eq_None_not_Some. by intros ?%Hname.
  - destruct (getAnswersObject_asked Users.shop Users.bare eq_refl)
      as (Hname & _). by apply Hname.
  - destruct (getAnswersObject_asked Users.shopNoDatabase Users.bare eq_refl)
      as (_ & _ & _ & Hdb & _).
    apply eq_None_not_Some. intros Hsome%Hdb. vm_compute in Hsome.
    discriminate Hsome.
Defined.

(** X12. The default of the database URI is built from the name that came
    with the command, or from [my-app]: the name typed at the prompt has no
    part in it. *)
Theorem getAnswersObject_default_uri (user : string → reply)
    (options : CreateAppOptions.t) :
  truthy (CreateAppOptions.yes (CreateAppOptions.flags options)) = false →
  truthyValue (getAnswersObject user options !! "prisma") = true →
  user "databaseUri" = enter →
  getAnswersObject user options !! "databaseUri" =
  Some (VStr ("mongodb://localhost:27017/" +:+
              default "my-app" (CreateAppOptions.name options))).
Proof.
  intros Hyes. unfold getAnswersObject. rewrite Hyes. intros Hprisma Henter.
  assert (notYes options = true) as Hnot by (unfold notYes; by rewrite Hyes).
  rewrite interactive_databaseUri, Hprisma, Hnot, Henter. reflexivity.
Qed.

Lemma getAnswersObject_default_uri_witness :
  getAnswersObject Users.shop Users.bare !! "name" = Some (VStr "shop") ∧
  getAnswersObject Users.shop Users.bare !! "databaseUri"
  = Some (VStr "mongodb://localhost:27017/my-app").
Proof.
  split; [vm_compute; reflexivity|].
  apply (getAnswersObject_default_uri Users.shop Users.bare);
    vm_compute; reflexivity.
Defined.

(** With the skip-prompts flag the object holds the answers of
    [getAnswers]. *)
Lemma getAnswersObject_yes (user : string → reply) prompt
    (options : CreateAppOptions.t) :
  truthy (CreateAppOptions.yes (CreateAppOptions.flags options)) = true →
  answersOf (getAnswersObject user options) = getAnswers prompt options ∧
  getAnswersObject user options !! "name"
  = Some (VStr (default "my-app" (CreateAppOptions.name options))).
Proof.
  intros Hyes. unfold getAnswersObject, getAnswers. rewrite Hyes.
  split; reflexivity.
Qed.


(** ** The entry point *)

(** With a name that is defined [scaffoldProject'] is [scaffoldProject]. *)
Lemma scaffoldProject'_Some (T : path) (o : ScaffoldOptions) :
  scaffoldProject' T o (Some (name o)) = scaffoldProject T o.
Proof. reflexivity. Qed.

Lemma yes_name (user : string → reply) (options : CreateAppOptions.t) :
  truthy (CreateAppOptions.yes (CreateAppOptions.flags options)) = true →
  getAnswersObject user options !! "name"
  = Some (VStr (default "my-app" (CreateAppOptions.name options))).
Proof. intros Hyes. unfold getAnswersObject. rewrite Hyes. reflexivity. Qed.

Lemma no_name (user : string → reply) (options : CreateAppOptions.t) :
  truthy (CreateAppOptions.yes (CreateAppOptions.flags options)) = false →
  getAnswersObject user options !! "name"
  = if is_undefined (CreateAppOptions.name options)
    then Some (answerTo (nameQuestion options) (user "name")) else None.
Proof.
  intros Hyes. unfold getAnswersObject. rewrite Hyes. apply interactive_name.
Qed.

(** X13. With the skip-prompts flag [createFerodApp] is [scaffoldProject] on
    the fixed answers of [getAnswers], with the package manager of the user
    agent, in the directory that the name of the command, or [my-app],
    resolves to from the working directory; nothing of it depends on the
    user at the prompt. *)
Theorem createFerodApp_yes (T cwd : path) (userAgent : option string)
    (user : string → reply) (prompt : CreateAppOptions.t → Answers)
    (options : CreateAppOptions.t) :
  truthy (CreateAppOptions.yes (CreateAppOptions.flags options)) = true →
  createFerodApp T cwd userAgent user options =
  scaffoldProject T
    {| answers := getAnswers prompt options;
       packageManager := getUserPackageManager userAgent;
       projectDirectory :=
         path_resolve cwd (default "my-app" (CreateAppOptions.name options)) |}.
Proof.
  intros Hyes. unfold createFerodApp. cbv zeta.
  rewrite (yes_name user options Hyes).
  destruct (getAnswersObject_yes user prompt options Hyes) as [-> _].
  cbn [stringOf].
  replace (default "my-app" (CreateAppOptions.name options))
    with (name (getAnswers prompt options)) at 2
    by (unfold getAnswers; rewrite Hyes; reflexivity).
  reflexivity.
Qed.

Lemma createFerodApp_yes_witness :
  createFerodApp Demo.templates Demo.cwd (Some "yarn/1.22.19 npm/? node/v18")
    Users.shop Users.yesNamed =
  scaffoldProject Demo.templates
    {| answers :=
         {| name := "demo"; gitRepo := true; install := true; prisma := true;
            databaseType := Some MongoDB;
            databaseUri := Some "mongodb://localhost:27017/demo";
            typescript := true; helpCommand := true; dashboard := true;
            eslintAndPrettier := true |};
       packageManager := yarn;
       projectDirectory := Demo.cwd ++ ["demo"] |}.
Proof.
  exact (createFerodApp_yes Demo.templates Demo.cwd
           (Some "yarn/1.22.19 npm/? node/v18") Users.shop
           Demo.interactive Users.yesNamed eq_refl).
Defined.

(** X14. [createFerodApp] always has a name to resolve: the project
    directory is named by the command when it gives a name, whatever is
    answered; without one it is named by the answer, which is [my-app] with
    the skip-prompts flag or when the user enters nothing. *)
Theorem createFerodApp_directory (T cwd : path) (userAgent : option string)
    (user : string → reply) (options : CreateAppOptions.t) :
  createFerodApp T cwd userAgent user options =
  scaffoldProject' T
    {| answers := answersOf (getAnswersObject user options);
       packageManager := getUserPackageManager userAgent;
       projectDirectory :=
         path_resolve cwd
           (default
              (if truthy (CreateAppOptions.yes (CreateAppOptions.flags options))
               then "my-app"
               else match user "name" with
                    | line s => if decide (s = "") then "my-app" else s
                    | _ => "my-app"
                    end)
              (CreateAppOptions.name options)) |}
    (stringOf (getAnswersObject user options !! "name")).
Proof.
  unfold createFerodApp. cbv zeta.
  destruct (truthy (CreateAppOptions.yes (CreateAppOptions.flags options)))
    eqn:Hyes.
  - rewrite (yes_name user options Hyes).
    by destruct (CreateAppOptions.name options).
  - rewrite (no_name user options Hyes).
    destruct (CreateAppOptions.name options) as [n|]; [reflexivity|].
    cbn [is_undefined default fmap option_fmap option_map].
    unfold answerTo. cbn [Question.type nameQuestion Question.default].
    destruct (user "name") as [|s| |]; try reflexivity.
    cbn. by destruct (decide (s = "")).
Qed.

(** A computation that evaluates to a result has one. *)
Lemma returns_run {A} (r : result A) :
  (if r is Ok _ then true else false) = true → ∃ a, r = Ok a.
Proof. destruct r as [a|e]; [by exists a|discriminate]. Qed.

Lemma createPackageJson_name (T : path) (projectName : string)
    (templates : list string) (w w' : World) (packageJson : gmap string JSON) :
  createPackageJson T projectName templates w = Ok (packageJson, w') →
  packageJson !! "name" = Some (JStr projectName).
Proof.
  unfold createPackageJson.
  intros (merged & w1 & _ & H)%bind_Ok.
  destruct templates as [|t ts]; [discriminate H|]. cbn [fmap list_fmap] in H.
  apply bind_Ok in H as (base & w2 & _ & [= <- _]).
  rewrite !lookup_insert_ne by discriminate. apply lookup_insert_eq.
Qed.

Lemma createPackageJson'_name (T : path) (projectName : option string)
    (templates : list string) (w w' : World) (packageJson : gmap string JSON) :
  createPackageJson' T projectName templates w = Ok (packageJson, w') →
  packageJson !! "name" = JStr <$> projectName.
Proof.
  destruct projectName as [n|]; cbn [createPackageJson'].
  - apply createPackageJson_name.
  - intros (? & ? & _ & [= <- _])%bind_Ok. apply lookup_delete_eq.
Qed.

(** The manifest written by a run that returns on a target that is not
    occupied carries the name it was given, or none. *)
Lemma scaffoldProject'_written (T : path) (o : ScaffoldOptions)
    (projectName : option string) (w w' : World) :
  ¬ occupied (projectDirectory o) (files w) →
  scaffoldProject' T o projectName w = Ok (tt, w') →
  ∃ packageJson,
    files w' !! resolve (projectDirectory o) ["package.json"]
    = Some (File (Json (JObj packageJson))) ∧
    packageJson !! "name" = JStr <$> projectName.
Proof.
  intros Hfree Hrun.
  assert (∃ w1, scaffoldInto' T o projectName (templateSet o) w1 = Ok (tt, w'))
    as (w1 & Hinto).
  { unfold scaffoldProject', fse.existsSync, fse.readdirSync, fse.mkdirSync
      in Hrun.
    apply bind_Ok in Hrun as ([] & w0 & [= <-] & Hrun).
    apply bind_Ok in Hrun as (found & ? & [[= <-] ->]%reading_Ok & Hrun).
    cbn [files] in Hrun. unfold exists_ in Hrun.
    destruct (files w !! projectDirectory o) as [n|] eqn:Hlook.
    - rewrite bool_decide_eq_true_2 in Hrun by eauto.
      apply bind_Ok in Hrun as (entries & ? & [Hentries ->]%reading_Ok & Hrun).
      unfold readdir in Hentries. cbn [files] in Hentries.
      rewrite Hlook in Hentries. destruct n as [|c]; [|done].
      injection Hentries as <-.
      destruct (children (projectDirectory o) (files w)) as [|c l] eqn:Hc.
      + cbn [length Nat.ltb Nat.leb] in Hrun. eauto.
      + destruct Hfree. split; [by rewrite Hlook|].
        exists c. apply elem_of_children. rewrite Hc. left.
    - rewrite bool_decide_eq_false_2 in Hrun by (by intros [? ?]).
      apply bind_Ok in Hrun as ([] & ? & _ & Hrun). eauto. }
  unfold scaffoldInto' in Hinto.
  apply bind_Ok in Hinto as ([] & w2 & _ & H).
  apply bind_Ok in H as ([] & w3 & _ & H).
  apply bind_Ok in H as ([] & w4 & _ & H).
  apply bind_Ok in H as ([] & w5 & _ & H).
  apply bind_Ok in H as ([] & w6 & Hmerge & H).
  unfold mergePackageJsonFiles' in Hmerge.
  apply bind_Ok in Hmerge as (packageJson & w5' & Hcreate & Hwrite).
  exists packageJson. split; [|by eapply createPackageJson'_name].
  apply writing_Ok in Hwrite as (m6 & Hm6 & ->).
  assert (m6 = <[resolve (projectDirectory o) ["package.json"] :=
                   File (Json (JObj packageJson))]> (files w5')) as ->.
  { unfold writeJSON in Hm6.
    destruct (files w5' !! resolve (projectDirectory o) ["package.json"])
      as [[|?]|]; [done|..]; by apply put_Ok. }
  unfold installDependencies, when in H.
  destruct (install o); injection H as <-; cbn [files set_files];
    by rewrite lookup_insert_eq.
Qed.

(** X15. When the command gives a name and the questions are put, the name
    question is not, and the answers have no name: the project is made in
    the directory of the name of the command, and the manifest written
    there has no [name] field. *)
Theorem createFerodApp_manifest_without_name (T cwd : path)
    (userAgent : option string) (user : string → reply)
    (options : CreateAppOptions.t) (n : string) (w w' : World) :
  truthy (CreateAppOptions.yes (CreateAppOptions.flags options)) = false →
  CreateAppOptions.name options = Some n →
  ¬ occupied (path_resolve cwd n) (files w) →
  createFerodApp T cwd userAgent user options w = Ok (tt, w') →
  ∃ packageJson,
    files w' !! resolve (path_resolve cwd n) ["package.json"]
    = Some (File (Json (JObj packageJson))) ∧
    packageJson !! "name" = None.
Proof.
  intros Hyes Hname Hfree Hrun. unfold createFerodApp in Hrun.
  cbv zeta in Hrun. rewrite (no_name user options Hyes), Hname in Hrun.
  cbn [is_undefined fmap option_fmap option_map stringOf] in Hrun.
  match type of Hrun with
  | scaffoldProject' _ ?o _ _ = _ =>
      exact (scaffoldProject'_written T o None w w' Hfree Hrun)
  end.
Qed.

Lemma createFerodApp_manifest_without_name_witness :
  ∃ w' packageJson,
    createFerodApp Demo.templates Demo.cwd None Users.shop Users.named
      (Demo.world Demo.disk) = Ok (tt, w') ∧
    files w' !! (Demo.cwd ++ ["demo"; "package.json"])
    = Some (File (Json (JObj packageJson))) ∧
    packageJson !! "name" = None.
Proof.
  destruct (returns_run (createFerodApp Demo.templates Demo.cwd None
                           Users.shop Users.named (Demo.world Demo.disk)))
    as [[[] w'] Hrun]; [vm_compute; reflexivity|].
  destruct (createFerodApp_manifest_without_name Demo.templates Demo.cwd None
              Users.shop Users.named "demo" (Demo.world Demo.disk) w'
              eq_refl eq_refl
              ltac:(intros [Hdir _]; vm_compute in Hdir; exact Hdir) Hrun)
    as (packageJson & Hwritten & Hnone).
  exists w', packageJson. split_and!; [exact Hrun|exact Hwritten|exact Hnone].
Defined.

(** X16. When the name is answered, with the skip-prompts flag or for want
    of a name on the command, the directory and the manifest carry that
    name. *)
Theorem createFerodApp_manifest_name (T cwd : path)
    (userAgent : option string) (user : string → reply)
    (options : CreateAppOptions.t) (n : string) (w w' : World) :
  getAnswersObject user options !! "name" = Some (VStr n) →
  ¬ occupied (path_resolve cwd n) (files w) →
  createFerodApp T cwd userAgent user options w = Ok (tt, w') →
  ∃ packageJson,
    files w' !! resolve (path_resolve cwd n) ["package.json"]
    = Some (File (Json (JObj packageJson))) ∧
    packageJson !! "name" = Some (JStr n).
Proof.
  intros Hname Hfree Hrun. unfold createFerodApp in Hrun.
  cbv zeta in Hrun. rewrite Hname in Hrun. cbn [stringOf] in Hrun.
  match type of Hrun with
  | scaffoldProject' _ ?o _ _ = _ =>
      exact (scaffoldProject'_written T o (Some n) w w' Hfree Hrun)
  end.
Qed.

Lemma createFerodApp_manifest_name_witness :
  ∃ w' packageJson,
    createFerodApp Demo.templates Demo.cwd None Users.shop Users.bare
      (Demo.world Demo.disk) = Ok (tt, w') ∧
    files w' !! (Demo.cwd ++ ["shop"; "package.json"])
    = Some (File (Json (JObj packageJson))) ∧
    packageJson !! "name" = Some (JStr "shop").
Proof.
  destruct (returns_run (createFerodApp Demo.templates Demo.cwd None
                           Users.shop Users.bare (Demo.world Demo.disk)))
    as [[[] w'] Hrun]; [vm_compute; reflexivity|].
  destruct (createFerodApp_manifest_name Demo.templates Demo.cwd None
              Users.shop Users.bare "shop" (Demo.world Demo.disk) w'
              ltac:(vm_compute; reflexivity)
              ltac:(intros [Hdir _]; vm_compute in Hdir; exact Hdir) Hrun)
    as (packageJson & Hwritten & Hnamed).
  exists w', packageJson. split_and!; [exact Hrun|exact Hwritten|exact Hnamed].
Defined.

(** ** The name of the manifest at the entry point *)

(** C4. The name of the written manifest is not always the requested
    project name.  For the command with the name [demo] and no flag, and a
    user who enters nothing, on the sample installation: the run returns
    and the manifest written in [demo] has the fields of the base manifest
    and the three merged mappings, and no [name] at all, the name [template]
    of the base manifest being gone too.  With the skip-prompts flag the
    same command writes the same manifest with the name [demo]. *)
Theorem createFerodApp_prompted_manifest_lacks_name :
  manifestAfter (Demo.cwd ++ ["demo"])
    (createFerodApp Demo.templates Demo.cwd None Users.defaults Users.named
       (Demo.world Demo.disk))
  = Some (Demo.obj
            [("version", JStr "0.1.0"); ("type", JStr "module");
             ("scripts",
              Demo.strs [("start", "node ."); ("build", "tsc");
                         ("dev", "tsx src/index.ts"); ("lint", "eslint .")]);
             ("dependencies",
              Demo.strs [("@ferod/client", "^0.2.0");
                         ("@prisma/client", "^5.0.0")]);
             ("devDependencies",
              Demo.strs [("typescript", "^5.0.0"); ("prisma", "^5.0.0");
                         ("eslint", "^8.0.0"); ("prettier", "^3.0.0")])]) ∧
  manifestAfter (Demo.cwd ++ ["demo"])
    (createFerodApp Demo.templates Demo.cwd None Users.defaults Users.yesNamed
       (Demo.world Demo.disk))
  = Some (Demo.obj
            [("name", JStr "demo");
             ("version", JStr "0.1.0"); ("type", JStr "module");
             ("scripts",
              Demo.strs [("start", "node ."); ("build", "tsc");
                         ("dev", "tsx src/index.ts"); ("lint", "eslint .")]);
             ("dependencies",
              Demo.strs [("@ferod/client", "^0.2.0");
                         ("@prisma/client", "^5.0.0")]);
             ("devDependencies",
              Demo.strs [("typescript", "^5.0.0"); ("prisma", "^5.0.0");
                         ("eslint", "^8.0.0"); ("prettier", "^3.0.0")])]).
Proof.
  split.
  - vm_compute. reflexivity.
  - vm_compute. reflexivity.
Qed.

(** ** The entry point: commands and replies *)

(** The two ways in which [scaffoldProject'] returns. *)
Lemma scaffoldProject'_Ok_inv (T : path) (o : ScaffoldOptions)
    (projectName : option string) (w w' : World) :
  scaffoldProject' T o projectName w = Ok (tt, w') →
  (occupied (projectDirectory o) (files w) ∧
   w' = {| files := files w;
           console := console w ++ [usingLine o; notEmptyLine o];
           spawned := spawned w |}) ∨
  (¬ occupied (projectDirectory o) (files w) ∧
   ∃ m1,
     scaffoldInto' T o projectName (templateSet o)
       {| files := m1; console := console w ++ [usingLine o];
          spawned := spawned w |} = Ok (tt, w')).
Proof.
  intros Hrun.
  unfold scaffoldProject', fse.existsSync, fse.readdirSync, fse.mkdirSync in Hrun.
  apply bind_Ok in Hrun as ([] & w0 & [= <-] & Hrun).
  apply bind_Ok in Hrun as (found & ? & [[= <-] ->]%reading_Ok & Hrun).
  cbn [files] in Hrun. unfold exists_ in Hrun.
  destruct (files w !! projectDirectory o) as [n|] eqn:Hlook.
  - rewrite bool_decide_eq_true_2 in Hrun by eauto.
    apply bind_Ok in Hrun as (entries & ? & [Hentries ->]%reading_Ok & Hrun).
    unfold readdir in Hentries. cbn [files] in Hentries.
    rewrite Hlook in Hentries. destruct n as [|c]; [|done].
    injection Hentries as <-.
    destruct (children (projectDirectory o) (files w)) as [|c l] eqn:Hc.
    + right. split.
      * intros [_ [entry Hentry]]. apply elem_of_children in Hentry.
        rewrite Hc in Hentry. by apply elem_of_nil in Hentry.
      * by exists (files w).
    + left. split.
      * split; [by rewrite Hlook|]. exists c. apply elem_of_children.
        rewrite Hc. left.
      * unfold console_log in Hrun.
        cbn [length Nat.ltb Nat.leb files console spawned] in Hrun.
        injection Hrun as <-. by rewrite <- app_assoc.
  - right. split; [intros [Hdir _]; by rewrite Hlook in Hdir|].
    rewrite bool_decide_eq_false_2 in Hrun by (by intros [? ?]).
    apply bind_Ok in Hrun as ([] & ? & (m1 & Hm1 & ->)%writing_Ok & Hrun).
    by exists m1.
Qed.

Lemma emits_merge' (T : path) (o : ScaffoldOptions)
    (projectName : option string) (templates : list string) :
  emits (mergePackageJsonFiles' T o projectName templates) [] [].
Proof.
  intros w w' H. unfold mergePackageJsonFiles', createPackageJson' in H.
  apply bind_Ok in H as (packageJson & w1 & Hcreate & Hwrite).
  assert (w1 = w) as ->.
  { destruct projectName as [n|].
    - by pose proof (createPackageJson_agree T _ _ _ w w1 w (λ _ _, eq_refl)
                       Hcreate) as [-> _].
    - apply bind_Ok in Hcreate as (packageJson' & w2 & Hcreate & [= _ <-]).
      by pose proof (createPackageJson_agree T _ _ _ w w2 w (λ _ _, eq_refl)
                       Hcreate) as [-> _]. }
  by apply emits_writing in Hwrite.
Qed.

Lemma emits_scaffoldInto' (T : path) (o : ScaffoldOptions)
    (projectName : option string) (templates : list string) :
  emits (scaffoldInto' T o projectName templates) []
    ((if gitRepo o then [gitInitCommand o] else [])
     ++ (if install o then [installCommand o] else [])).
Proof.
  unfold scaffoldInto'.
  apply (emits_seq _ _ [] [] _ _).
  { unfold initializeGitRepository.
    destruct (gitRepo o); [|apply emits_ret].
    apply (emits_seq _ _ [] [] [_] []);
      [apply emits_exec | apply emits_writing]. }
  apply (emits_seq _ _ [] [] [] _).
  { apply (emits_seq _ _ [] [] [] []); apply emits_writing. }
  apply (emits_seq _ _ [] [] [] _).
  { unfold copyPrismaFiles. destruct (prisma o); [|apply emits_ret].
    apply (emits_seq _ _ [] [] [] []); apply emits_writing. }
  apply (emits_seq _ _ [] [] [] _).
  { unfold copyEslintAndPrettierFiles.
    destruct (eslintAndPrettier o); [apply emits_writing | apply emits_ret]. }
  apply (emits_seq _ _ [] [] [] _); [apply emits_merge'|].
  unfold installDependencies.
  destruct (install o); [apply emits_exec | apply emits_ret].
Qed.

(** A skip flag that is given, whatever its value, leaves the answer
    falsy: false with the skip-prompts flag, undefined at the prompt. *)
Lemma skip_gitRepo (user : string → reply) (options : CreateAppOptions.t) :
  is_Some (CreateAppOptions.noGit (CreateAppOptions.flags options)) →
  truthyValue (getAnswersObject user options !! "gitRepo") = false.
Proof.
  intros [b Hb]. unfold getAnswersObject.
  destruct (truthy _); [by rewrite Hb|].
  rewrite interactive_gitRepo, Hb. by rewrite andb_false_r.
Qed.

Lemma skip_install (user : string → reply) (options : CreateAppOptions.t) :
  is_Some (CreateAppOptions.noInstall (CreateAppOptions.flags options)) →
  truthyValue (getAnswersObject user options !! "install") = false.
Proof.
  intros [b Hb]. unfold getAnswersObject.
  destruct (truthy _); [by rewrite Hb|].
  rewrite interactive_install, Hb. by rewrite andb_false_r.
Qed.

(** X17. With both skip flags given, whatever their values and with or
    without the skip-prompts flag, a run of [createFerodApp] that returns
    has handed no command to the shell. *)
Theorem createFerodApp_skip_flags (T cwd : path) (userAgent : option string)
    (user : string → reply) (options : CreateAppOptions.t) (w w' : World) :
  is_Some (CreateAppOptions.noGit (CreateAppOptions.flags options)) →
  is_Some (CreateAppOptions.noInstall (CreateAppOptions.flags options)) →
  createFerodApp T cwd userAgent user options w = Ok (tt, w') →
  spawned w' = spawned w.
Proof.
  intros Hgit Hinstall Hrun. unfold createFerodApp in Hrun. cbv zeta in Hrun.
  lazymatch type of Hrun with
  | match ?x with _ => _ end _ = _ =>
      destruct x as [[b|n]|]; [discriminate Hrun| |discriminate Hrun]
  end.
  apply scaffoldProject'_Ok_inv in Hrun as [[_ ->]|[_ [m1 Hinto]]]; [done|].
  apply emits_scaffoldInto' in Hinto as [_ Hs].
  cbn [spawned gitRepo install answers answersOf] in Hs.
  rewrite (skip_gitRepo user options Hgit) in Hs.
  rewrite (skip_install user options Hinstall) in Hs.
  by rewrite app_nil_r in Hs.
Qed.

Lemma createFerodApp_skip_flags_witness :
  ∃ w',
    createFerodApp Demo.templates Demo.cwd None Users.shop Users.quiet
      (Demo.world Demo.disk) = Ok (tt, w') ∧
    spawned w' = [].
Proof.
  destruct (returns_run (createFerodApp Demo.templates Demo.cwd None
                           Users.shop Users.quiet (Demo.world Demo.disk)))
    as [[[] w'] Hrun]; [vm_compute; reflexivity|].
  exists w'. split; [exact Hrun|].
  exact (createFerodApp_skip_flags Demo.templates Demo.cwd None Users.shop
           Users.quiet (Demo.world Demo.disk) w'
           (mk_is_Some _ _ eq_refl) (mk_is_Some _ _ eq_refl) Hrun).
Defined.

Lemma interactive_typescript (user : string → reply)
    (options : CreateAppOptions.t) :
  inquirer_prompt (questions options) user ∅ !! "typescript" =
  if notYes options
  then Some (answerTo (typescriptQuestion options) (user "typescript"))
  else None.
Proof.
  exact (interactive_confirm user options
           [nameQuestion options; gitRepoQuestion options;
            installQuestion options; prismaQuestion options;
            databaseTypeQuestion options; databaseUriQuestion options]
           [helpCommandQuestion options; dashboardQuestion options;
            eslintAndPrettierQuestion options] (typescriptQuestion options)
           eq_refl ltac:(other_names) ltac:(other_names) eq_refl).
Qed.

Lemma interactive_eslintAndPrettier (user : string → reply)
    (options : CreateAppOptions.t) :
  inquirer_prompt (questions options) user ∅ !! "eslintAndPrettier" =
  if notYes options
  then Some (answerTo (eslintAndPrettierQuestion options)
               (user "eslintAndPrettier"))
  else None.
Proof.
  exact (interactive_confirm user options
           [nameQuestion options; gitRepoQuestion options;
            installQuestion options; prismaQuestion options;
            databaseTypeQuestion options; databaseUriQuestion options;
            typescriptQuestion options; helpCommandQuestion options;
            dashboardQuestion options]
           [] (eslintAndPrettierQuestion options)
           eq_refl ltac:(other_names) ltac:(other_names) eq_refl).
Qed.

(** What [scaffoldProject'] reads of its options. *)
Lemma scaffoldProject'_reads (T : path) (o o' : ScaffoldOptions)
    (projectName : option string) :
  gitRepo o = gitRepo o' → install o = install o' → prisma o = prisma o' →
  databaseType o = databaseType o' → typescript o = typescript o' →
  eslintAndPrettier o = eslintAndPrettier o' →
  packageManager o = packageManager o' →
  projectDirectory o = projectDirectory o' →
  scaffoldProject' T o projectName = scaffoldProject' T o' projectName.
Proof.
  destruct o as [[] ? ?], o' as [[] ? ?]. cbn.
  intros -> -> -> -> -> -> -> ->. reflexivity.
Qed.

(** X18. The replies to the questions about the help command, the
    dashboard and the database URI have no effect: two users who differ
    in these replies only get the same run of [createFerodApp]. *)
Theorem createFerodApp_unused_replies (T cwd : path)
    (userAgent : option string) (user user' : string → reply)
    (options : CreateAppOptions.t) :
  (∀ question : string,
     question ≠ "helpCommand" → question ≠ "dashboard" →
     question ≠ "databaseUri" → user question = user' question) →
  createFerodApp T cwd userAgent user options =
  createFerodApp T cwd userAgent user' options.
Proof.
  intros Hsame. unfold createFerodApp. cbv zeta.
  assert (getAnswersObject user options !! "prisma"
          = getAnswersObject user' options !! "prisma") as Hprisma.
  { unfold getAnswersObject. destruct (truthy _); [reflexivity|].
    rewrite !interactive_prisma. by rewrite (Hsame "prisma"). }
  assert (getAnswersObject user options !! "name"
          = getAnswersObject user' options !! "name") as <-.
  { unfold getAnswersObject. destruct (truthy _); [reflexivity|].
    rewrite !interactive_name. by rewrite (Hsame "name"). }
  lazymatch goal with
  | |- match ?x with _ => _ end = _ =>
      destruct x as [[b|n]|]; [reflexivity| |reflexivity]
  end.
  apply scaffoldProject'_reads; cbn [answers answersOf gitRepo install prisma
    databaseType typescript eslintAndPrettier packageManager projectDirectory];
    [| | | | | |reflexivity|reflexivity].
  - apply (f_equal truthyValue). unfold getAnswersObject. destruct (truthy _); [reflexivity|].
    rewrite !interactive_gitRepo. by rewrite (Hsame "gitRepo").
  - apply (f_equal truthyValue). unfold getAnswersObject. destruct (truthy _); [reflexivity|].
    rewrite !interactive_install. by rewrite (Hsame "install").
  - by rewrite Hprisma.
  - apply (f_equal (λ x, stringOf x ≫= parseDatabaseType)). revert Hprisma. unfold getAnswersObject.
    destruct (truthy _); [reflexivity|]. intros Hprisma.
    rewrite !interactive_databaseType, Hprisma.
    by rewrite (Hsame "databaseType").
  - apply (f_equal truthyValue). unfold getAnswersObject. destruct (truthy _); [reflexivity|].
    rewrite !interactive_typescript. by rewrite (Hsame "typescript").
  - apply (f_equal truthyValue). unfold getAnswersObject. destruct (truthy _); [reflexivity|].
    rewrite !interactive_eslintAndPrettier.
    by rewrite (Hsame "eslintAndPrettier").
Qed.

Lemma createFerodApp_unused_replies_witness :
  Users.shop "helpCommand" ≠ Users.terse "helpCommand" ∧
  createFerodApp Demo.templates Demo.cwd None Users.shop Users.bare =
  createFerodApp Demo.templates Demo.cwd None Users.terse Users.bare.
Proof.
  split; [discriminate|].
  apply (createFerodApp_unused_replies Demo.templates Demo.cwd None
           Users.shop Users.terse Users.bare).
  intros question Hhelp Hboard Huri. unfold Users.shop, Users.terse.
  destruct (decide (question = "name")); [reflexivity|].
  destruct (decide (question = "helpCommand")); [contradiction|].
  destruct (decide (question = "dashboard")); [contradiction|].
  destruct (decide (question = "databaseUri")); [contradiction|].
  reflexivity.
Defined.

(** ** The database files on an installation that lacks them *)

(** Up to the database files the run is that of the options without the
    database layer. *)
Lemma scaffoldProject_before_prisma (T : path) (o : ScaffoldOptions) (w : World) :
  tree_shaped (files w) → apart (projectDirectory o) T →
  vacant (projectDirectory o) (files w) →
  intact T (withoutPrisma o) (files w) →
  ∃ view w3,
    scaffolding (projectDirectory o) (files w) view (files w3) ∧
    from_templates T (withoutPrisma o) (files w) view ∧
    (∀ t r, t ∈ copiedFirst o →
            is_Some (template T (files w) t !! r) → is_Some (view !! r)) ∧
    scaffoldProject T o w =
    (copyPrismaFiles T o;;
     copyEslintAndPrettierFiles T o;;
     mergePackageJsonFiles T o (templateSet o);;
     installDependencies o) w3.
Proof.
  intros Hshape Hapart Hvacant Hintact.
  destruct (scaffoldProject_enter T o w Hshape Hvacant) as (m1 & Hs1 & ->).
  unfold scaffoldInto.
  name_world w1.
  destruct (git_run T (withoutPrisma o) (files w) Hapart Hintact
              {[ [] := Dir ]} w1)
    as (m2 & Hrun2 & Hs2 & Hv2); [exact Hs1 | apply from_templates_root |].
  change (initializeGitRepository T (withoutPrisma o))
    with (initializeGitRepository T o) in Hrun2.
  rewrite (bind_run _ _ _ _ _ Hrun2). clear Hrun2.
  subst w1. cbn [files console spawned]. name_world w2.
  destruct (base_run T (withoutPrisma o) (files w) Hapart Hintact _ w2 Hs2 Hv2)
    as (m3 & Hrun3 & Hs3 & Hv3).
  change (copyBaseFiles T (withoutPrisma o)) with (copyBaseFiles T o) in Hrun3.
  rewrite (bind_run _ _ _ _ _ Hrun3). clear Hrun3.
  eexists _, (set_files w2 m3). split_and!; [exact Hs3|exact Hv3| |reflexivity].
  intros t r Ht Hsome. unfold copiedFirst in Ht.
  change (variant (withoutPrisma o)) with (variant o).
  change (gitRepo (withoutPrisma o)) with (gitRepo o).
  rewrite !lookup_union_is_Some.
  apply elem_of_app in Ht as [Ht|Ht].
  - destruct (gitRepo o); [|by apply elem_of_nil in Ht].
    apply list_elem_of_singleton in Ht as ->.
    right. right. rewrite lookup_union_is_Some. by left.
  - apply elem_of_cons in Ht as [->|Ht]; [right; by left|].
    apply list_elem_of_singleton in Ht as ->. by left.
Qed.

(** X19. [mkdirSync] is not recursive and refuses a directory that is
    there: when the database layer is asked for and a template copied
    before it has an entry named [prisma], scaffolding into a free target
    throws, although nothing else is wrong with the installation. *)
Theorem scaffoldProject_prisma_entry_exists (T : path) (o : ScaffoldOptions)
    (w : World) (t : string) :
  tree_shaped (files w) → apart (projectDirectory o) T →
  vacant (projectDirectory o) (files w) →
  intact T (withoutPrisma o) (files w) →
  prisma o = true →
  t ∈ copiedFirst o →
  is_Some (files w !! resolve T [t; "prisma"]) →
  scaffoldProject T o w = Throw EEXIST.
Proof.
  intros Hshape Hapart Hvacant Hintact Hprisma Ht Hentry.
  destruct (scaffoldProject_before_prisma T o w Hshape Hapart Hvacant Hintact)
    as (view & w3 & Hs & _ & Hview & ->).
  destruct (Hview t ["prisma"] Ht) as [n Hn].
  { unfold template, resolve in *. by rewrite lookup_subtree, <- app_assoc. }
  unfold copyPrismaFiles, when. rewrite Hprisma.
  unfold fse.mkdirSync, mbind, IO_bind, writing, mkdir, resolve.
  by rewrite (scaffolding_lookup (projectDirectory o) (files w) view (files w3) ["prisma"] Hs), Hn.
Qed.

Lemma scaffoldProject_prisma_entry_exists_witness :
  scaffoldProject Demo.templates (Demo.everything (Demo.cwd ++ ["demo"]))
    (Demo.world Cases.prismaInBase) = Throw EEXIST.
Proof.
  apply (scaffoldProject_prisma_entry_exists Demo.templates
           (Demo.everything (Demo.cwd ++ ["demo"]))
           (Demo.world Cases.prismaInBase) "base").
  - apply (bool_decide_unpack _). vm_compute. exact I.
  - apply (bool_decide_unpack _). vm_compute. exact I.
  - left. split; [vm_compute; reflexivity | exact I].
  - apply (bool_decide_unpack _). vm_compute. exact I.
  - reflexivity.
  - apply (bool_decide_unpack _). vm_compute. exact I.
  - vm_compute. eexists. reflexivity.
Defined.


